(** * kidTests: shallow embedding of the survey platform's client logic

    The repository is a Next.js client over a remote relational store.
    Every page is a sequence of store statements glued by plain list and
    string processing.  This development embeds

    - the store (seven tables) and the client's single-row result shapes,
    - the dashboard's cascade deletion ([Dashboard.handleDeleteTest]),
    - the share view ([TestLinkPage.load]),
    - the statistics view ([TestStatsPage]: load, filter, charts, table, CSV),
    - the anonymous page ([PublicTestPage]: loadData, render, handleSubmit),
    - slug derivation ([CreateTestPage.createSlug]),

    and proves the properties the specification states about them.

    Conventions.  Strings are Rocq strings that hold the UTF-8 bytes of
    the program's text; white space and the case mapping are those of
    Unicode.  A timestamp column is kept with both its text and
    its time value (milliseconds since the epoch).  A statement of the
    remote store may fail for reasons outside the program: each handler
    takes an oracle [faults] that says which statements fail. *)

From Stdlib Require Import ZArith NArith String Ascii.
From stdpp Require Import base decidable option list sorting strings gmap.

Local Open Scope Z_scope.

(** ** JavaScript values used by the pages *)

Module Js.

(** [!!s] for a string: the empty string is the only falsy one. *)
Definition truthy (s : string) : bool :=
  match s with
  | EmptyString => false
  | String _ _ => true
  end.

(** [!!v] for [string | undefined | null]. *)
Definition truthy_opt (v : option string) : bool :=
  match v with
  | Some s => truthy s
  | None => false
  end.

(** [a ?? 0] on [number | null]. *)
Definition orZero (n : option Z) : Z := default 0 n.

(** [Array.prototype.sort(cmp)]: the sort is stable, and for a consistent
    comparator the stable result is unique, so a stable insertion sort
    computes it.  [cmp a b <= 0] keeps [a] in front of [b]. *)
Fixpoint insert_by {A : Type} (cmp : A -> A -> Z) (x : A) (l : list A) : list A :=
  match l with
  | [] => [x]
  | y :: l' => if decide (cmp x y <= 0) then x :: y :: l' else y :: insert_by cmp x l'
  end.

(** [x] may stand in front of [y]. *)
Definition before {A : Type} (cmp : A -> A -> Z) (x y : A) : Prop := cmp x y <= 0.

Fixpoint sort_by {A : Type} (cmp : A -> A -> Z) (l : list A) : list A :=
  match l with
  | [] => []
  | x :: l' => insert_by cmp x (sort_by cmp l')
  end.

(** [Array.prototype.findIndex]: [None] stands for [-1]. *)
Fixpoint findIndex {A : Type} (p : A -> bool) (l : list A) : option nat :=
  match l with
  | [] => None
  | x :: l' => if p x then Some 0%nat else S <$> findIndex p l'
  end.

(** *** Text

    A string of the program is a sequence of characters (code points).
    It is kept here as a Rocq string that holds its UTF-8 bytes, which
    is how the literals of this file are read.  [chars] reads the code
    points of a string and [text] writes them.  A byte that belongs to no
    well-formed sequence is read as itself, numbered behind the last code
    point, so that no byte of a Rocq string is lost. *)

Local Open Scope N_scope.

Definition Char : Type := N.

Definition stray (b : N) : Char := 0x110000 + b.

(** A lead byte and the number of bytes that follow it. *)
Definition isLead (b : N) : bool := (0xC2 <=? b) && (b <=? 0xF4).

Definition expect (lead : N) : nat :=
  if lead <? 0xE0 then 1%nat else if lead <? 0xF0 then 2%nat else 3%nat.

Definition leadBits (lead : N) : N :=
  lead - (if lead <? 0xE0 then 0xC0 else if lead <? 0xF0 then 0xE0 else 0xF0).

(** The bytes that may follow: the first one is narrowed so that no code
    point is written in more bytes than it needs, no surrogate is read
    and nothing lies behind U+10FFFF. *)
Definition accepts (lead : N) (conts : list N) (b : N) : bool :=
  match conts with
  | [] =>
      if lead =? 0xE0 then (0xA0 <=? b) && (b <=? 0xBF)
      else if lead =? 0xED then (0x80 <=? b) && (b <=? 0x9F)
      else if lead =? 0xF0 then (0x90 <=? b) && (b <=? 0xBF)
      else if lead =? 0xF4 then (0x80 <=? b) && (b <=? 0x8F)
      else (0x80 <=? b) && (b <=? 0xBF)
  | _ :: _ => (0x80 <=? b) && (b <=? 0xBF)
  end.

Definition codePoint (lead : N) (conts : list N) : Char :=
  foldl (fun acc b => acc * 64 + (b - 0x80)) (leadBits lead) conts.

(** The reader is between two characters ([None]) or inside one, having
    read its lead byte and some of the bytes that follow. *)
Definition Reading : Type := option (N * list N).

Definition start (b : N) : Reading * list Char :=
  if b <? 0x80 then (None, [b])
  else if isLead b then (Some (b, []), [])
  else (None, [stray b]).

Definition flush (r : Reading) : list Char :=
  match r with
  | None => []
  | Some (lead, conts) => stray lead :: (stray <$> conts)
  end.

Definition step (r : Reading) (b : N) : Reading * list Char :=
  match r with
  | None => start b
  | Some (lead, conts) =>
      if accepts lead conts b then
        if (S (length conts) =? expect lead)%nat
        then (None, [codePoint lead (conts ++ [b])])
        else (Some (lead, conts ++ [b]), [])
      else (fst (start b), flush r ++ snd (start b))
  end.

Fixpoint decode (r : Reading) (s : string) : list Char :=
  match s with
  | EmptyString => flush r
  | String a rest => snd (step r (N_of_ascii a)) ++ decode (fst (step r (N_of_ascii a))) rest
  end.

Definition chars (s : string) : list Char := decode None s.

Definition encode (c : Char) : list N :=
  if c <? 0x80 then [c]
  else if c <? 0x800 then [0xC0 + c / 64; 0x80 + c mod 64]
  else if c <? 0x10000 then [0xE0 + c / 4096; 0x80 + (c / 64) mod 64; 0x80 + c mod 64]
  else if c <? 0x110000
  then [0xF0 + c / 262144; 0x80 + (c / 4096) mod 64; 0x80 + (c / 64) mod 64; 0x80 + c mod 64]
  else [(c - 0x110000) mod 256].

Definition text (l : list Char) : string :=
  string_of_list_ascii (ascii_of_N <$> (l ≫= encode)).

(** The bytes read so far of the character being read. *)
Definition pending (r : Reading) : list N :=
  match r with
  | None => []
  | Some (lead, conts) => lead :: conts
  end.

(** The readings the reader can be in: behind a lead byte, with fewer
    bytes accepted than it asks for. *)
Definition wellRead (r : Reading) : Prop :=
  match r with
  | None => True
  | Some (lead, conts) =>
      isLead lead = true /\ Forall (fun b => b < 256) (lead :: conts) /\
      match conts with
      | [] => True
      | [b1] => accepts lead [] b1 = true /\ (2 <= expect lead)%nat
      | [b1; b2] =>
          accepts lead [] b1 = true /\ accepts lead [b1] b2 = true /\ expect lead = 3%nat
      | _ => False
      end
  end.

(** White space of [String.prototype.trim] and of the class [\s]: the
    characters WhiteSpace and LineTerminator of the language. *)
Definition isSpace (c : Char) : bool :=
  (9 <=? c) && (c <=? 13) || (c =? 0x20) || (c =? 0xA0) || (c =? 0x1680) ||
  (0x2000 <=? c) && (c <=? 0x200A) || (c =? 0x2028) || (c =? 0x2029) ||
  (c =? 0x202F) || (c =? 0x205F) || (c =? 0x3000) || (c =? 0xFEFF).

Definition isLower (c : Char) : bool := (0x61 <=? c) && (c <=? 0x7A).
Definition isDigit (c : Char) : bool := (0x30 <=? c) && (c <=? 0x39).

Fixpoint dropSpaces (l : list Char) : list Char :=
  match l with
  | c :: l' => if isSpace c then dropSpaces l' else l
  | [] => []
  end.

(** [s.trim()] *)
Definition trimChars (l : list Char) : list Char :=
  reverse (dropSpaces (reverse (dropSpaces l))).

Definition trim (s : string) : string := text (trimChars (chars s)).

(** *** Lower case

    [s.toLowerCase()] is the default lower-case conversion of Unicode:
    the lower-case mapping of every character, with the capital sigma
    written as a final sigma at the end of a word.  The three tables are
    those of the Unicode character database.  A run [(first, last, step,
    target)] maps [first], [first + step], ..., [last] to [target],
    [target + step], ... *)

Definition lowerRuns : list (N * N * N * N) :=
  [(0x41, 0x5A, 1, 0x61); (0xC0, 0xD6, 1, 0xE0); (0xD8, 0xDE, 1, 0xF8);
   (0x100, 0x12E, 2, 0x101); (0x132, 0x136, 2, 0x133); (0x139, 0x147, 2, 0x13A);
   (0x14A, 0x176, 2, 0x14B); (0x178, 0x178, 1, 0xFF); (0x179, 0x17D, 2, 0x17A);
   (0x181, 0x181, 1, 0x253); (0x182, 0x184, 2, 0x183); (0x186, 0x186, 1, 0x254);
   (0x187, 0x187, 1, 0x188); (0x189, 0x18A, 1, 0x256); (0x18B, 0x18B, 1, 0x18C);
   (0x18E, 0x18E, 1, 0x1DD); (0x18F, 0x18F, 1, 0x259); (0x190, 0x190, 1, 0x25B);
   (0x191, 0x191, 1, 0x192); (0x193, 0x193, 1, 0x260); (0x194, 0x194, 1, 0x263);
   (0x196, 0x196, 1, 0x269); (0x197, 0x197, 1, 0x268); (0x198, 0x198, 1, 0x199);
   (0x19C, 0x19C, 1, 0x26F); (0x19D, 0x19D, 1, 0x272); (0x19F, 0x19F, 1, 0x275);
   (0x1A0, 0x1A4, 2, 0x1A1); (0x1A6, 0x1A6, 1, 0x280); (0x1A7, 0x1A7, 1, 0x1A8);
   (0x1A9, 0x1A9, 1, 0x283); (0x1AC, 0x1AC, 1, 0x1AD); (0x1AE, 0x1AE, 1, 0x288);
   (0x1AF, 0x1AF, 1, 0x1B0); (0x1B1, 0x1B2, 1, 0x28A); (0x1B3, 0x1B5, 2, 0x1B4);
   (0x1B7, 0x1B7, 1, 0x292); (0x1B8, 0x1B8, 1, 0x1B9); (0x1BC, 0x1BC, 1, 0x1BD);
   (0x1C4, 0x1C4, 1, 0x1C6); (0x1C5, 0x1C5, 1, 0x1C6); (0x1C7, 0x1C7, 1, 0x1C9);
   (0x1C8, 0x1C8, 1, 0x1C9); (0x1CA, 0x1CA, 1, 0x1CC); (0x1CB, 0x1DB, 2, 0x1CC);
   (0x1DE, 0x1EE, 2, 0x1DF); (0x1F1, 0x1F1, 1, 0x1F3); (0x1F2, 0x1F4, 2, 0x1F3);
   (0x1F6, 0x1F6, 1, 0x195); (0x1F7, 0x1F7, 1, 0x1BF); (0x1F8, 0x21E, 2, 0x1F9);
   (0x220, 0x220, 1, 0x19E); (0x222, 0x232, 2, 0x223); (0x23A, 0x23A, 1, 0x2C65);
   (0x23B, 0x23B, 1, 0x23C); (0x23D, 0x23D, 1, 0x19A); (0x23E, 0x23E, 1, 0x2C66);
   (0x241, 0x241, 1, 0x242); (0x243, 0x243, 1, 0x180); (0x244, 0x244, 1, 0x289);
   (0x245, 0x245, 1, 0x28C); (0x246, 0x24E, 2, 0x247); (0x370, 0x372, 2, 0x371);
   (0x376, 0x376, 1, 0x377); (0x37F, 0x37F, 1, 0x3F3); (0x386, 0x386, 1, 0x3AC);
   (0x388, 0x38A, 1, 0x3AD); (0x38C, 0x38C, 1, 0x3CC); (0x38E, 0x38F, 1, 0x3CD);
   (0x391, 0x3A1, 1, 0x3B1); (0x3A3, 0x3AB, 1, 0x3C3); (0x3CF, 0x3CF, 1, 0x3D7);
   (0x3D8, 0x3EE, 2, 0x3D9); (0x3F4, 0x3F4, 1, 0x3B8); (0x3F7, 0x3F7, 1, 0x3F8);
   (0x3F9, 0x3F9, 1, 0x3F2); (0x3FA, 0x3FA, 1, 0x3FB); (0x3FD, 0x3FF, 1, 0x37B);
   (0x400, 0x40F, 1, 0x450); (0x410, 0x42F, 1, 0x430); (0x460, 0x480, 2, 0x461);
   (0x48A, 0x4BE, 2, 0x48B); (0x4C0, 0x4C0, 1, 0x4CF); (0x4C1, 0x4CD, 2, 0x4C2);
   (0x4D0, 0x52E, 2, 0x4D1); (0x531, 0x556, 1, 0x561); (0x10A0, 0x10C5, 1, 0x2D00);
   (0x10C7, 0x10C7, 1, 0x2D27); (0x10CD, 0x10CD, 1, 0x2D2D); (0x13A0, 0x13EF, 1, 0xAB70);
   (0x13F0, 0x13F5, 1, 0x13F8); (0x1C90, 0x1CBA, 1, 0x10D0); (0x1CBD, 0x1CBF, 1, 0x10FD);
   (0x1E00, 0x1E94, 2, 0x1E01); (0x1E9E, 0x1E9E, 1, 0xDF); (0x1EA0, 0x1EFE, 2, 0x1EA1);
   (0x1F08, 0x1F0F, 1, 0x1F00); (0x1F18, 0x1F1D, 1, 0x1F10); (0x1F28, 0x1F2F, 1, 0x1F20);
   (0x1F38, 0x1F3F, 1, 0x1F30); (0x1F48, 0x1F4D, 1, 0x1F40); (0x1F59, 0x1F5F, 2, 0x1F51);
   (0x1F68, 0x1F6F, 1, 0x1F60); (0x1F88, 0x1F8F, 1, 0x1F80); (0x1F98, 0x1F9F, 1, 0x1F90);
   (0x1FA8, 0x1FAF, 1, 0x1FA0); (0x1FB8, 0x1FB9, 1, 0x1FB0); (0x1FBA, 0x1FBB, 1, 0x1F70);
   (0x1FBC, 0x1FBC, 1, 0x1FB3); (0x1FC8, 0x1FCB, 1, 0x1F72); (0x1FCC, 0x1FCC, 1, 0x1FC3);
   (0x1FD8, 0x1FD9, 1, 0x1FD0); (0x1FDA, 0x1FDB, 1, 0x1F76); (0x1FE8, 0x1FE9, 1, 0x1FE0);
   (0x1FEA, 0x1FEB, 1, 0x1F7A); (0x1FEC, 0x1FEC, 1, 0x1FE5); (0x1FF8, 0x1FF9, 1, 0x1F78);
   (0x1FFA, 0x1FFB, 1, 0x1F7C); (0x1FFC, 0x1FFC, 1, 0x1FF3); (0x2126, 0x2126, 1, 0x3C9);
   (0x212A, 0x212A, 1, 0x6B); (0x212B, 0x212B, 1, 0xE5); (0x2132, 0x2132, 1, 0x214E);
   (0x2160, 0x216F, 1, 0x2170); (0x2183, 0x2183, 1, 0x2184); (0x24B6, 0x24CF, 1, 0x24D0);
   (0x2C00, 0x2C2F, 1, 0x2C30); (0x2C60, 0x2C60, 1, 0x2C61); (0x2C62, 0x2C62, 1, 0x26B);
   (0x2C63, 0x2C63, 1, 0x1D7D); (0x2C64, 0x2C64, 1, 0x27D); (0x2C67, 0x2C6B, 2, 0x2C68);
   (0x2C6D, 0x2C6D, 1, 0x251); (0x2C6E, 0x2C6E, 1, 0x271); (0x2C6F, 0x2C6F, 1, 0x250);
   (0x2C70, 0x2C70, 1, 0x252); (0x2C72, 0x2C72, 1, 0x2C73); (0x2C75, 0x2C75, 1, 0x2C76);
   (0x2C7E, 0x2C7F, 1, 0x23F); (0x2C80, 0x2CE2, 2, 0x2C81); (0x2CEB, 0x2CED, 2, 0x2CEC);
   (0x2CF2, 0x2CF2, 1, 0x2CF3); (0xA640, 0xA66C, 2, 0xA641); (0xA680, 0xA69A, 2, 0xA681);
   (0xA722, 0xA72E, 2, 0xA723); (0xA732, 0xA76E, 2, 0xA733); (0xA779, 0xA77B, 2, 0xA77A);
   (0xA77D, 0xA77D, 1, 0x1D79); (0xA77E, 0xA786, 2, 0xA77F); (0xA78B, 0xA78B, 1, 0xA78C);
   (0xA78D, 0xA78D, 1, 0x265); (0xA790, 0xA792, 2, 0xA791); (0xA796, 0xA7A8, 2, 0xA797);
   (0xA7AA, 0xA7AA, 1, 0x266); (0xA7AB, 0xA7AB, 1, 0x25C); (0xA7AC, 0xA7AC, 1, 0x261);
   (0xA7AD, 0xA7AD, 1, 0x26C); (0xA7AE, 0xA7AE, 1, 0x26A); (0xA7B0, 0xA7B0, 1, 0x29E);
   (0xA7B1, 0xA7B1, 1, 0x287); (0xA7B2, 0xA7B2, 1, 0x29D); (0xA7B3, 0xA7B3, 1, 0xAB53);
   (0xA7B4, 0xA7C2, 2, 0xA7B5); (0xA7C4, 0xA7C4, 1, 0xA794); (0xA7C5, 0xA7C5, 1, 0x282);
   (0xA7C6, 0xA7C6, 1, 0x1D8E); (0xA7C7, 0xA7C9, 2, 0xA7C8); (0xA7D0, 0xA7D0, 1, 0xA7D1);
   (0xA7D6, 0xA7D8, 2, 0xA7D7); (0xA7F5, 0xA7F5, 1, 0xA7F6); (0xFF21, 0xFF3A, 1, 0xFF41);
   (0x10400, 0x10427, 1, 0x10428); (0x104B0, 0x104D3, 1, 0x104D8);
   (0x10570, 0x10594, 2, 0x10597); (0x10571, 0x10579, 2, 0x10598);
   (0x1057D, 0x10589, 2, 0x105A4); (0x1058D, 0x10591, 2, 0x105B4);
   (0x10595, 0x10595, 1, 0x105BC); (0x10C80, 0x10CB2, 1, 0x10CC0);
   (0x118A0, 0x118BF, 1, 0x118C0); (0x16E40, 0x16E5F, 1, 0x16E60);
   (0x1E900, 0x1E921, 1, 0x1E922)].

Definition casedRanges : list (N * N) :=
  [(0x41, 0x5A); (0x61, 0x7A); (0xAA, 0xAA); (0xB5, 0xB5); (0xBA, 0xBA); (0xC0, 0xD6);
   (0xD8, 0xF6); (0xF8, 0x1BA); (0x1BC, 0x1BF); (0x1C4, 0x293); (0x295, 0x2B8); (0x2C0, 0x2C1);
   (0x2E0, 0x2E4); (0x345, 0x345); (0x370, 0x373); (0x376, 0x377); (0x37A, 0x37D);
   (0x37F, 0x37F); (0x386, 0x386); (0x388, 0x38A); (0x38C, 0x38C); (0x38E, 0x3A1);
   (0x3A3, 0x3F5); (0x3F7, 0x481); (0x48A, 0x52F); (0x531, 0x556); (0x560, 0x588);
   (0x10A0, 0x10C5); (0x10C7, 0x10C7); (0x10CD, 0x10CD); (0x10D0, 0x10FA); (0x10FD, 0x10FF);
   (0x13A0, 0x13F5); (0x13F8, 0x13FD); (0x1C80, 0x1C88); (0x1C90, 0x1CBA); (0x1CBD, 0x1CBF);
   (0x1D00, 0x1DBF); (0x1E00, 0x1F15); (0x1F18, 0x1F1D); (0x1F20, 0x1F45); (0x1F48, 0x1F4D);
   (0x1F50, 0x1F57); (0x1F59, 0x1F59); (0x1F5B, 0x1F5B); (0x1F5D, 0x1F5D); (0x1F5F, 0x1F7D);
   (0x1F80, 0x1FB4); (0x1FB6, 0x1FBC); (0x1FBE, 0x1FBE); (0x1FC2, 0x1FC4); (0x1FC6, 0x1FCC);
   (0x1FD0, 0x1FD3); (0x1FD6, 0x1FDB); (0x1FE0, 0x1FEC); (0x1FF2, 0x1FF4); (0x1FF6, 0x1FFC);
   (0x2071, 0x2071); (0x207F, 0x207F); (0x2090, 0x209C); (0x2102, 0x2102); (0x2107, 0x2107);
   (0x210A, 0x2113); (0x2115, 0x2115); (0x2119, 0x211D); (0x2124, 0x2124); (0x2126, 0x2126);
   (0x2128, 0x2128); (0x212A, 0x212D); (0x212F, 0x2134); (0x2139, 0x2139); (0x213C, 0x213F);
   (0x2145, 0x2149); (0x214E, 0x214E); (0x2160, 0x217F); (0x2183, 0x2184); (0x24B6, 0x24E9);
   (0x2C00, 0x2CE4); (0x2CEB, 0x2CEE); (0x2CF2, 0x2CF3); (0x2D00, 0x2D25); (0x2D27, 0x2D27);
   (0x2D2D, 0x2D2D); (0xA640, 0xA66D); (0xA680, 0xA69D); (0xA722, 0xA787); (0xA78B, 0xA78E);
   (0xA790, 0xA7CA); (0xA7D0, 0xA7D1); (0xA7D3, 0xA7D3); (0xA7D5, 0xA7D9); (0xA7F5, 0xA7F6);
   (0xA7F8, 0xA7FA); (0xAB30, 0xAB5A); (0xAB5C, 0xAB68); (0xAB70, 0xABBF); (0xFB00, 0xFB06);
   (0xFB13, 0xFB17); (0xFF21, 0xFF3A); (0xFF41, 0xFF5A); (0x10400, 0x1044F);
   (0x104B0, 0x104D3); (0x104D8, 0x104FB); (0x10570, 0x1057A); (0x1057C, 0x1058A);
   (0x1058C, 0x10592); (0x10594, 0x10595); (0x10597, 0x105A1); (0x105A3, 0x105B1);
   (0x105B3, 0x105B9); (0x105BB, 0x105BC); (0x10780, 0x10780); (0x10783, 0x10785);
   (0x10787, 0x107B0); (0x107B2, 0x107BA); (0x10C80, 0x10CB2); (0x10CC0, 0x10CF2);
   (0x118A0, 0x118DF); (0x16E40, 0x16E7F); (0x1D400, 0x1D454); (0x1D456, 0x1D49C);
   (0x1D49E, 0x1D49F); (0x1D4A2, 0x1D4A2); (0x1D4A5, 0x1D4A6); (0x1D4A9, 0x1D4AC);
   (0x1D4AE, 0x1D4B9); (0x1D4BB, 0x1D4BB); (0x1D4BD, 0x1D4C3); (0x1D4C5, 0x1D505);
   (0x1D507, 0x1D50A); (0x1D50D, 0x1D514); (0x1D516, 0x1D51C); (0x1D51E, 0x1D539);
   (0x1D53B, 0x1D53E); (0x1D540, 0x1D544); (0x1D546, 0x1D546); (0x1D54A, 0x1D550);
   (0x1D552, 0x1D6A5); (0x1D6A8, 0x1D6C0); (0x1D6C2, 0x1D6DA); (0x1D6DC, 0x1D6FA);
   (0x1D6FC, 0x1D714); (0x1D716, 0x1D734); (0x1D736, 0x1D74E); (0x1D750, 0x1D76E);
   (0x1D770, 0x1D788); (0x1D78A, 0x1D7A8); (0x1D7AA, 0x1D7C2); (0x1D7C4, 0x1D7CB);
   (0x1DF00, 0x1DF09); (0x1DF0B, 0x1DF1E); (0x1E900, 0x1E943); (0x1F130, 0x1F149);
   (0x1F150, 0x1F169); (0x1F170, 0x1F189)].

Definition caseIgnorableRanges : list (N * N) :=
  [(0x27, 0x27); (0x2E, 0x2E); (0x3A, 0x3A); (0x5E, 0x5E); (0x60, 0x60); (0xA8, 0xA8);
   (0xAD, 0xAD); (0xAF, 0xAF); (0xB4, 0xB4); (0xB7, 0xB8); (0x2B0, 0x36F); (0x374, 0x375);
   (0x37A, 0x37A); (0x384, 0x385); (0x387, 0x387); (0x483, 0x489); (0x559, 0x559);
   (0x55F, 0x55F); (0x591, 0x5BD); (0x5BF, 0x5BF); (0x5C1, 0x5C2); (0x5C4, 0x5C5);
   (0x5C7, 0x5C7); (0x5F4, 0x5F4); (0x600, 0x605); (0x610, 0x61A); (0x61C, 0x61C);
   (0x640, 0x640); (0x64B, 0x65F); (0x670, 0x670); (0x6D6, 0x6DD); (0x6DF, 0x6E8);
   (0x6EA, 0x6ED); (0x70F, 0x70F); (0x711, 0x711); (0x730, 0x74A); (0x7A6, 0x7B0);
   (0x7EB, 0x7F5); (0x7FA, 0x7FA); (0x7FD, 0x7FD); (0x816, 0x82D); (0x859, 0x85B);
   (0x888, 0x888); (0x890, 0x891); (0x898, 0x89F); (0x8C9, 0x902); (0x93A, 0x93A);
   (0x93C, 0x93C); (0x941, 0x948); (0x94D, 0x94D); (0x951, 0x957); (0x962, 0x963);
   (0x971, 0x971); (0x981, 0x981); (0x9BC, 0x9BC); (0x9C1, 0x9C4); (0x9CD, 0x9CD);
   (0x9E2, 0x9E3); (0x9FE, 0x9FE); (0xA01, 0xA02); (0xA3C, 0xA3C); (0xA41, 0xA42);
   (0xA47, 0xA48); (0xA4B, 0xA4D); (0xA51, 0xA51); (0xA70, 0xA71); (0xA75, 0xA75);
   (0xA81, 0xA82); (0xABC, 0xABC); (0xAC1, 0xAC5); (0xAC7, 0xAC8); (0xACD, 0xACD);
   (0xAE2, 0xAE3); (0xAFA, 0xAFF); (0xB01, 0xB01); (0xB3C, 0xB3C); (0xB3F, 0xB3F);
   (0xB41, 0xB44); (0xB4D, 0xB4D); (0xB55, 0xB56); (0xB62, 0xB63); (0xB82, 0xB82);
   (0xBC0, 0xBC0); (0xBCD, 0xBCD); (0xC00, 0xC00); (0xC04, 0xC04); (0xC3C, 0xC3C);
   (0xC3E, 0xC40); (0xC46, 0xC48); (0xC4A, 0xC4D); (0xC55, 0xC56); (0xC62, 0xC63);
   (0xC81, 0xC81); (0xCBC, 0xCBC); (0xCBF, 0xCBF); (0xCC6, 0xCC6); (0xCCC, 0xCCD);
   (0xCE2, 0xCE3); (0xD00, 0xD01); (0xD3B, 0xD3C); (0xD41, 0xD44); (0xD4D, 0xD4D);
   (0xD62, 0xD63); (0xD81, 0xD81); (0xDCA, 0xDCA); (0xDD2, 0xDD4); (0xDD6, 0xDD6);
   (0xE31, 0xE31); (0xE34, 0xE3A); (0xE46, 0xE4E); (0xEB1, 0xEB1); (0xEB4, 0xEBC);
   (0xEC6, 0xEC6); (0xEC8, 0xECD); (0xF18, 0xF19); (0xF35, 0xF35); (0xF37, 0xF37);
   (0xF39, 0xF39); (0xF71, 0xF7E); (0xF80, 0xF84); (0xF86, 0xF87); (0xF8D, 0xF97);
   (0xF99, 0xFBC); (0xFC6, 0xFC6); (0x102D, 0x1030); (0x1032, 0x1037); (0x1039, 0x103A);
   (0x103D, 0x103E); (0x1058, 0x1059); (0x105E, 0x1060); (0x1071, 0x1074); (0x1082, 0x1082);
   (0x1085, 0x1086); (0x108D, 0x108D); (0x109D, 0x109D); (0x10FC, 0x10FC); (0x135D, 0x135F);
   (0x1712, 0x1714); (0x1732, 0x1733); (0x1752, 0x1753); (0x1772, 0x1773); (0x17B4, 0x17B5);
   (0x17B7, 0x17BD); (0x17C6, 0x17C6); (0x17C9, 0x17D3); (0x17D7, 0x17D7); (0x17DD, 0x17DD);
   (0x180B, 0x180F); (0x1843, 0x1843); (0x1885, 0x1886); (0x18A9, 0x18A9); (0x1920, 0x1922);
   (0x1927, 0x1928); (0x1932, 0x1932); (0x1939, 0x193B); (0x1A17, 0x1A18); (0x1A1B, 0x1A1B);
   (0x1A56, 0x1A56); (0x1A58, 0x1A5E); (0x1A60, 0x1A60); (0x1A62, 0x1A62); (0x1A65, 0x1A6C);
   (0x1A73, 0x1A7C); (0x1A7F, 0x1A7F); (0x1AA7, 0x1AA7); (0x1AB0, 0x1ACE); (0x1B00, 0x1B03);
   (0x1B34, 0x1B34); (0x1B36, 0x1B3A); (0x1B3C, 0x1B3C); (0x1B42, 0x1B42); (0x1B6B, 0x1B73);
   (0x1B80, 0x1B81); (0x1BA2, 0x1BA5); (0x1BA8, 0x1BA9); (0x1BAB, 0x1BAD); (0x1BE6, 0x1BE6);
   (0x1BE8, 0x1BE9); (0x1BED, 0x1BED); (0x1BEF, 0x1BF1); (0x1C2C, 0x1C33); (0x1C36, 0x1C37);
   (0x1C78, 0x1C7D); (0x1CD0, 0x1CD2); (0x1CD4, 0x1CE0); (0x1CE2, 0x1CE8); (0x1CED, 0x1CED);
   (0x1CF4, 0x1CF4); (0x1CF8, 0x1CF9); (0x1D2C, 0x1D6A); (0x1D78, 0x1D78); (0x1D9B, 0x1DFF);
   (0x1FBD, 0x1FBD); (0x1FBF, 0x1FC1); (0x1FCD, 0x1FCF); (0x1FDD, 0x1FDF); (0x1FED, 0x1FEF);
   (0x1FFD, 0x1FFE); (0x200B, 0x200F); (0x2018, 0x2019); (0x2024, 0x2024); (0x2027, 0x2027);
   (0x202A, 0x202E); (0x2060, 0x2064); (0x2066, 0x206F); (0x2071, 0x2071); (0x207F, 0x207F);
   (0x2090, 0x209C); (0x20D0, 0x20F0); (0x2C7C, 0x2C7D); (0x2CEF, 0x2CF1); (0x2D6F, 0x2D6F);
   (0x2D7F, 0x2D7F); (0x2DE0, 0x2DFF); (0x2E2F, 0x2E2F); (0x3005, 0x3005); (0x302A, 0x302D);
   (0x3031, 0x3035); (0x303B, 0x303B); (0x3099, 0x309E); (0x30FC, 0x30FE); (0xA015, 0xA015);
   (0xA4F8, 0xA4FD); (0xA60C, 0xA60C); (0xA66F, 0xA672); (0xA674, 0xA67D); (0xA67F, 0xA67F);
   (0xA69C, 0xA69F); (0xA6F0, 0xA6F1); (0xA700, 0xA721); (0xA770, 0xA770); (0xA788, 0xA78A);
   (0xA7F2, 0xA7F4); (0xA7F8, 0xA7F9); (0xA802, 0xA802); (0xA806, 0xA806); (0xA80B, 0xA80B);
   (0xA825, 0xA826); (0xA82C, 0xA82C); (0xA8C4, 0xA8C5); (0xA8E0, 0xA8F1); (0xA8FF, 0xA8FF);
   (0xA926, 0xA92D); (0xA947, 0xA951); (0xA980, 0xA982); (0xA9B3, 0xA9B3); (0xA9B6, 0xA9B9);
   (0xA9BC, 0xA9BD); (0xA9CF, 0xA9CF); (0xA9E5, 0xA9E6); (0xAA29, 0xAA2E); (0xAA31, 0xAA32);
   (0xAA35, 0xAA36); (0xAA43, 0xAA43); (0xAA4C, 0xAA4C); (0xAA70, 0xAA70); (0xAA7C, 0xAA7C);
   (0xAAB0, 0xAAB0); (0xAAB2, 0xAAB4); (0xAAB7, 0xAAB8); (0xAABE, 0xAABF); (0xAAC1, 0xAAC1);
   (0xAADD, 0xAADD); (0xAAEC, 0xAAED); (0xAAF3, 0xAAF4); (0xAAF6, 0xAAF6); (0xAB5B, 0xAB5F);
   (0xAB69, 0xAB6B); (0xABE5, 0xABE5); (0xABE8, 0xABE8); (0xABED, 0xABED); (0xFB1E, 0xFB1E);
   (0xFBB2, 0xFBC2); (0xFE00, 0xFE0F); (0xFE13, 0xFE13); (0xFE20, 0xFE2F); (0xFE52, 0xFE52);
   (0xFE55, 0xFE55); (0xFEFF, 0xFEFF); (0xFF07, 0xFF07); (0xFF0E, 0xFF0E); (0xFF1A, 0xFF1A);
   (0xFF3E, 0xFF3E); (0xFF40, 0xFF40); (0xFF70, 0xFF70); (0xFF9E, 0xFF9F); (0xFFE3, 0xFFE3);
   (0xFFF9, 0xFFFB); (0x101FD, 0x101FD); (0x102E0, 0x102E0); (0x10376, 0x1037A);
   (0x10780, 0x10785); (0x10787, 0x107B0); (0x107B2, 0x107BA); (0x10A01, 0x10A03);
   (0x10A05, 0x10A06); (0x10A0C, 0x10A0F); (0x10A38, 0x10A3A); (0x10A3F, 0x10A3F);
   (0x10AE5, 0x10AE6); (0x10D24, 0x10D27); (0x10EAB, 0x10EAC); (0x10F46, 0x10F50);
   (0x10F82, 0x10F85); (0x11001, 0x11001); (0x11038, 0x11046); (0x11070, 0x11070);
   (0x11073, 0x11074); (0x1107F, 0x11081); (0x110B3, 0x110B6); (0x110B9, 0x110BA);
   (0x110BD, 0x110BD); (0x110C2, 0x110C2); (0x110CD, 0x110CD); (0x11100, 0x11102);
   (0x11127, 0x1112B); (0x1112D, 0x11134); (0x11173, 0x11173); (0x11180, 0x11181);
   (0x111B6, 0x111BE); (0x111C9, 0x111CC); (0x111CF, 0x111CF); (0x1122F, 0x11231);
   (0x11234, 0x11234); (0x11236, 0x11237); (0x1123E, 0x1123E); (0x112DF, 0x112DF);
   (0x112E3, 0x112EA); (0x11300, 0x11301); (0x1133B, 0x1133C); (0x11340, 0x11340);
   (0x11366, 0x1136C); (0x11370, 0x11374); (0x11438, 0x1143F); (0x11442, 0x11444);
   (0x11446, 0x11446); (0x1145E, 0x1145E); (0x114B3, 0x114B8); (0x114BA, 0x114BA);
   (0x114BF, 0x114C0); (0x114C2, 0x114C3); (0x115B2, 0x115B5); (0x115BC, 0x115BD);
   (0x115BF, 0x115C0); (0x115DC, 0x115DD); (0x11633, 0x1163A); (0x1163D, 0x1163D);
   (0x1163F, 0x11640); (0x116AB, 0x116AB); (0x116AD, 0x116AD); (0x116B0, 0x116B5);
   (0x116B7, 0x116B7); (0x1171D, 0x1171F); (0x11722, 0x11725); (0x11727, 0x1172B);
   (0x1182F, 0x11837); (0x11839, 0x1183A); (0x1193B, 0x1193C); (0x1193E, 0x1193E);
   (0x11943, 0x11943); (0x119D4, 0x119D7); (0x119DA, 0x119DB); (0x119E0, 0x119E0);
   (0x11A01, 0x11A0A); (0x11A33, 0x11A38); (0x11A3B, 0x11A3E); (0x11A47, 0x11A47);
   (0x11A51, 0x11A56); (0x11A59, 0x11A5B); (0x11A8A, 0x11A96); (0x11A98, 0x11A99);
   (0x11C30, 0x11C36); (0x11C38, 0x11C3D); (0x11C3F, 0x11C3F); (0x11C92, 0x11CA7);
   (0x11CAA, 0x11CB0); (0x11CB2, 0x11CB3); (0x11CB5, 0x11CB6); (0x11D31, 0x11D36);
   (0x11D3A, 0x11D3A); (0x11D3C, 0x11D3D); (0x11D3F, 0x11D45); (0x11D47, 0x11D47);
   (0x11D90, 0x11D91); (0x11D95, 0x11D95); (0x11D97, 0x11D97); (0x11EF3, 0x11EF4);
   (0x13430, 0x13438); (0x16AF0, 0x16AF4); (0x16B30, 0x16B36); (0x16B40, 0x16B43);
   (0x16F4F, 0x16F4F); (0x16F8F, 0x16F9F); (0x16FE0, 0x16FE1); (0x16FE3, 0x16FE4);
   (0x1AFF0, 0x1AFF3); (0x1AFF5, 0x1AFFB); (0x1AFFD, 0x1AFFE); (0x1BC9D, 0x1BC9E);
   (0x1BCA0, 0x1BCA3); (0x1CF00, 0x1CF2D); (0x1CF30, 0x1CF46); (0x1D167, 0x1D169);
   (0x1D173, 0x1D182); (0x1D185, 0x1D18B); (0x1D1AA, 0x1D1AD); (0x1D242, 0x1D244);
   (0x1DA00, 0x1DA36); (0x1DA3B, 0x1DA6C); (0x1DA75, 0x1DA75); (0x1DA84, 0x1DA84);
   (0x1DA9B, 0x1DA9F); (0x1DAA1, 0x1DAAF); (0x1E000, 0x1E006); (0x1E008, 0x1E018);
   (0x1E01B, 0x1E021); (0x1E023, 0x1E024); (0x1E026, 0x1E02A); (0x1E130, 0x1E13D);
   (0x1E2AE, 0x1E2AE); (0x1E2EC, 0x1E2EF); (0x1E8D0, 0x1E8D6); (0x1E944, 0x1E94B);
   (0x1F3FB, 0x1F3FF); (0xE0001, 0xE0001); (0xE0020, 0xE007F); (0xE0100, 0xE01EF)].

Fixpoint inRanges (c : Char) (ranges : list (N * N)) : bool :=
  match ranges with
  | [] => false
  | (first, last) :: ranges' => (first <=? c) && (c <=? last) || inRanges c ranges'
  end.

Definition cased (c : Char) : bool := inRanges c casedRanges.
Definition caseIgnorable (c : Char) : bool := inRanges c caseIgnorableRanges.

Definition inRun (c : Char) (run : N * N * N * N) : bool :=
  let '(first, last, step, _) := run in
  (first <=? c) && (c <=? last) && ((c - first) mod step =? 0).

Definition capitalSigma : Char := 0x3A3.
Definition smallSigma : Char := 0x3C3.
Definition finalSigma : Char := 0x3C2.

(** The lower-case mapping of one character; the capital I with a dot
    is the one character that becomes two. *)
Definition lowerOf (c : Char) : list Char :=
  if c =? 0x130 then [0x69; 0x307]
  else
    match List.find (inRun c) lowerRuns with
    | Some (first, _, _, target) => [target + (c - first)]
    | None => [c]
    end.

(** A cased letter follows, with nothing but case-ignorable characters
    in between. *)
Fixpoint casedAhead (l : list Char) : bool :=
  match l with
  | [] => false
  | c :: l' => if caseIgnorable c then casedAhead l' else cased c
  end.

(** [casedBefore]: a cased letter stands before, with nothing but
    case-ignorable characters in between. *)
Fixpoint lowerChars (casedBefore : bool) (l : list Char) : list Char :=
  match l with
  | [] => []
  | c :: l' =>
      (if c =? capitalSigma
       then [if casedBefore && negb (casedAhead l') then finalSigma else smallSigma]
       else lowerOf c)
      ++ lowerChars (if caseIgnorable c then casedBefore else cased c) l'
  end.

Definition toLowerCase (s : string) : string := text (lowerChars false (chars s)).

Fixpoint startsWith (p l : list Char) : bool :=
  match p, l with
  | [], _ => true
  | _ :: _, [] => false
  | a :: p', b :: l' => (a =? b) && startsWith p' l'
  end.

Fixpoint includesChars (l p : list Char) : bool :=
  startsWith p l ||
  match l with
  | [] => false
  | _ :: l' => includesChars l' p
  end.

(** [s.includes(term)] *)
Definition includes (s term : string) : bool := includesChars (chars s) (chars term).

(** A text of white space only. *)
Definition spaces (l : list Char) : Prop := Forall (fun c => isSpace c = true) l.


Local Close Scope N_scope.

(** [parts.join(sep)] *)
Fixpoint join (sep : string) (parts : list string) : string :=
  match parts with
  | [] => EmptyString
  | [p] => p
  | p :: rest => p +:+ sep +:+ join sep rest
  end.

End Js.

(** ** The remote store *)

Module Db.

Record TestRow := {
  t_id : string;
  t_slug : string;
  t_title : string;
  t_description : option string }.

Record VersionRow := {
  v_id : string;
  v_test_id : string;
  v_version : option Z;
  v_published_at : option Z }.

Inductive QuestionKind := SINGLE | TEXT.

#[global] Instance QuestionKind_eq_dec : EqDecision QuestionKind.
Proof. solve_decision. Defined.

Record QuestionRow := {
  q_id : string;
  q_test_version_id : string;
  q_kind : QuestionKind;
  q_text : string;
  q_ord : option Z }.

Record OptionRow := {
  o_id : string;
  o_question_id : string;
  o_text : string;
  o_ord : option Z }.

Record LinkRow := {
  l_id : string;
  l_test_version_id : string;
  l_public_id : string;
  l_is_active : bool }.

(** A [timestamptz] value as the client sees it: the ISO text of the
    column and the time value [new Date(text).getTime()]. *)
Record Timestamp := {
  iso : string;
  time : Z }.

Record SubmissionRow := {
  s_id : string;
  s_test_version_id : string;
  s_participant : string;
  s_created_at : Timestamp }.

Record AnswerRow := {
  a_submission_id : string;
  a_question_id : string;
  a_option_id : option string;
  a_free_text : option string }.

Record Store := {
  tests : list TestRow;
  test_versions : list VersionRow;
  questions : list QuestionRow;
  options : list OptionRow;
  test_links : list LinkRow;
  submissions : list SubmissionRow;
  answers : list AnswerRow }.

Definition set_tests (s : Store) (x : list TestRow) : Store :=
  {| tests := x; test_versions := test_versions s; questions := questions s;
     options := options s; test_links := test_links s;
     submissions := submissions s; answers := answers s |}.
Definition set_test_versions (s : Store) (x : list VersionRow) : Store :=
  {| tests := tests s; test_versions := x; questions := questions s;
     options := options s; test_links := test_links s;
     submissions := submissions s; answers := answers s |}.
Definition set_questions (s : Store) (x : list QuestionRow) : Store :=
  {| tests := tests s; test_versions := test_versions s; questions := x;
     options := options s; test_links := test_links s;
     submissions := submissions s; answers := answers s |}.
Definition set_options (s : Store) (x : list OptionRow) : Store :=
  {| tests := tests s; test_versions := test_versions s; questions := questions s;
     options := x; test_links := test_links s;
     submissions := submissions s; answers := answers s |}.
Definition set_test_links (s : Store) (x : list LinkRow) : Store :=
  {| tests := tests s; test_versions := test_versions s; questions := questions s;
     options := options s; test_links := x;
     submissions := submissions s; answers := answers s |}.
Definition set_submissions (s : Store) (x : list SubmissionRow) : Store :=
  {| tests := tests s; test_versions := test_versions s; questions := questions s;
     options := options s; test_links := test_links s;
     submissions := x; answers := answers s |}.
Definition set_answers (s : Store) (x : list AnswerRow) : Store :=
  {| tests := tests s; test_versions := test_versions s; questions := questions s;
     options := options s; test_links := test_links s;
     submissions := submissions s; answers := x |}.

(** [.eq(column, value)] and [.in(column, values)] as row predicates. *)
Definition eqCol {R : Type} (col : R -> string) (value : string) (r : R) : bool :=
  bool_decide (col r = value).
Definition inCol {R : Type} (col : R -> string) (values : list string) (r : R) : bool :=
  bool_decide (col r ∈ values).

(** [.delete()] under a predicate keeps the rows that do not match. *)
Definition deleteWhere {R : Type} (p : R -> bool) (rows : list R) : list R :=
  filter (fun r => negb (p r) = true) rows.
Definition selectWhere {R : Type} (p : R -> bool) (rows : list R) : list R :=
  filter (fun r => p r = true) rows.

(** The error object of a failed statement.  [PGRST116] is the code the
    client reports when a single-row result shape meets another number
    of rows; every other failure carries some other code. *)
Inductive ErrCode := PGRST116 | OtherCode.
Record PgError := { code : ErrCode; message : string }.

(** The [{ data, error }] pair of a statement. *)
Inductive Response (A : Type) :=
| Data (a : A)
| Error (e : PgError).
Arguments Data {A} a.
Arguments Error {A} e.

Definition rowCountError : PgError :=
  {| code := PGRST116; message := "JSON object requested, multiple (or no) rows returned" |}.

(** [.single()]: exactly one row, otherwise an error. *)
Definition single {R : Type} (rows : list R) : Response R :=
  match rows with
  | [r] => Data r
  | _ => Error rowCountError
  end.

(** [.maybeSingle()]: no row is [null] without error, one row is the
    row, several rows are an error. *)
Definition maybeSingle {R : Type} (rows : list R) : Response (option R) :=
  match rows with
  | [] => Data None
  | [r] => Data (Some r)
  | _ => Error rowCountError
  end.

(** What a handler throws: a store error object or [new Error(msg)]. *)
Inductive Thrown :=
| PgThrown (e : PgError)
| JsError (msg : string).

Inductive Result (A : Type) :=
| Ok (a : A)
| Raised (t : Thrown).
Arguments Ok {A} a.
Arguments Raised {A} t.

(** Handlers run against the store and leave a log of the statements
    they issued; [L] is the page's type of statements. *)
Definition M (L A : Type) : Type := Store * list L -> Result A * (Store * list L).

Definition ret {L A : Type} (a : A) : M L A := fun c => (Ok a, c).
Definition throw {L A : Type} (t : Thrown) : M L A := fun c => (Raised t, c).
Definition bind {L A B : Type} (m : M L A) (k : A -> M L B) : M L B :=
  fun c =>
    match m c with
    | (Ok a, c') => k a c'
    | (Raised t, c') => (Raised t, c')
    end.

(** Which statements fail, and with which message. *)
Definition Faults (L : Type) : Type := L -> option string.
Definition noFaults {L : Type} : Faults L := fun _ => None.

(** One awaited statement: it is logged; when the oracle fails it the
    store is left as it was and the response is the error; otherwise
    [run] computes the response and the new store. *)
Definition exec {L A : Type} (faults : Faults L) (l : L)
    (run : Store -> Response A * Store) : M L (Response A) :=
  fun c =>
    let '(s, log) := c in
    match faults l with
    | Some msg => (Ok (Error {| code := OtherCode; message := msg |}), (s, log ++ [l]))
    | None => let '(r, s') := run s in (Ok r, (s', log ++ [l]))
    end.

(** [if (error) throw error], then the data. *)
Definition orThrow {L A : Type} (r : Response A) : M L A :=
  match r with
  | Data a => ret a
  | Error e => throw (PgThrown e)
  end.

(** [.order(column, { ascending, nullsFirst })] on a nullable numeric or
    timestamp column, as a comparator in the style of [Js.sort_by].
    Without [nullsFirst] the store sorts nulls last in ascending and
    first in descending order. *)
Definition cmpDesc (nullsFirst : bool) (a b : option Z) : Z :=
  match a, b with
  | Some x, Some y => y - x
  | None, None => 0
  | None, Some _ => if nullsFirst then -1 else 1
  | Some _, None => if nullsFirst then 1 else -1
  end.

Definition cmpAsc (nullsFirst : bool) (a b : option Z) : Z :=
  match a, b with
  | Some x, Some y => x - y
  | None, None => 0
  | None, Some _ => if nullsFirst then -1 else 1
  | Some _, None => if nullsFirst then 1 else -1
  end.

(** Two [.order] calls in a row: the second breaks the ties of the first. *)
Definition thenBy {R : Type} (c1 c2 : R -> R -> Z) (a b : R) : Z :=
  if decide (c1 a b = 0) then c2 a b else c1 a b.

(** Rows that tie on every key come in table order. *)
Definition orderBy {R : Type} (cmp : R -> R -> Z) (rows : list R) : list R :=
  Js.sort_by cmp rows.

(** The query both the share view and the statistics view use for the
    version of a test:
    [.eq('test_id', id).order('published_at', { ascending: false, nullsFirst: false })
     .order('version', { ascending: false }).limit(1).maybeSingle()]. *)
Definition versionOrder (a b : VersionRow) : Z :=
  thenBy (fun a b => cmpDesc false (v_published_at a) (v_published_at b))
         (fun a b => cmpDesc true (v_version a) (v_version b)) a b.

Definition versionsOf (testId : string) (s : Store) : list VersionRow :=
  selectWhere (eqCol v_test_id testId) (test_versions s).

Definition latestVersion (testId : string) (s : Store) : Response (option VersionRow) :=
  maybeSingle (take 1 (orderBy versionOrder (versionsOf testId s))).


(** [from('tests').select(...).eq('slug', slug).single()] *)
Definition testBySlug (slug : string) (s : Store) : Response TestRow :=
  single (selectWhere (eqCol t_slug slug) (tests s)).

End Db.

Import Db.

Notation "'let*' x ':=' m 'in' k" := (bind m (fun x => k))
  (at level 10, x name, m at level 100, k at level 200, only parsing).
Notation "m ';;;' k" := (bind m (fun _ => k))
  (at level 100, k at level 200, right associativity, only parsing).

(** ** Dashboard: cascade deletion of a test (app/dashboard/page.tsx) *)

Module Dashboard.

(** The statements [handleDeleteTest] can issue, with their arguments. *)
Inductive Stmt :=
| SelectVersionIds (testId : string)
| SelectSubmissionIds (versionIds : list string)
| DeleteAnswers (submissionIds : list string)
| DeleteSubmissions (submissionIds : list string)
| SelectQuestionIds (versionIds : list string)
| DeleteOptions (questionIds : list string)
| DeleteQuestions (questionIds : list string)
| DeleteLinks (versionIds : list string)
| DeleteVersions (versionIds : list string)
| DeleteTest (testId : string).

(** What each statement does to the store when it does not fail; the
    selects answer with the [id] column of the matching rows. *)
Definition run (st : Stmt) (s : Store) : Response (list string) * Store :=
  match st with
  | SelectVersionIds testId =>
      (Data (v_id <$> selectWhere (eqCol v_test_id testId) (test_versions s)), s)
  | SelectSubmissionIds versionIds =>
      (Data (s_id <$> selectWhere (inCol s_test_version_id versionIds) (submissions s)), s)
  | DeleteAnswers submissionIds =>
      (Data [], set_answers s (deleteWhere (inCol a_submission_id submissionIds) (answers s)))
  | DeleteSubmissions submissionIds =>
      (Data [], set_submissions s (deleteWhere (inCol s_id submissionIds) (submissions s)))
  | SelectQuestionIds versionIds =>
      (Data (q_id <$> selectWhere (inCol q_test_version_id versionIds) (questions s)), s)
  | DeleteOptions questionIds =>
      (Data [], set_options s (deleteWhere (inCol o_question_id questionIds) (options s)))
  | DeleteQuestions questionIds =>
      (Data [], set_questions s (deleteWhere (inCol q_id questionIds) (questions s)))
  | DeleteLinks versionIds =>
      (Data [], set_test_links s (deleteWhere (inCol l_test_version_id versionIds) (test_links s)))
  | DeleteVersions versionIds =>
      (Data [], set_test_versions s (deleteWhere (inCol v_id versionIds) (test_versions s)))
  | DeleteTest testId =>
      (Data [], set_tests s (deleteWhere (eqCol t_id testId) (tests s)))
  end.

(** [await supabase...], then [if (error) throw error]. *)
Definition await (faults : Faults Stmt) (st : Stmt) : M Stmt (list string) :=
  let* r := exec faults st (run st) in orThrow r.

(** [ids.length > 0] *)
Definition nonEmpty (ids : list string) : bool :=
  match ids with
  | [] => false
  | _ :: _ => true
  end.

(** The body of the [try] block. *)
Definition deleteCascade (faults : Faults Stmt) (test : TestRow) : M Stmt unit :=
  let* versionIds := await faults (SelectVersionIds (t_id test)) in
  (if nonEmpty versionIds then
     let* submissionIds := await faults (SelectSubmissionIds versionIds) in
     (if nonEmpty submissionIds then
        await faults (DeleteAnswers submissionIds) ;;;
        await faults (DeleteSubmissions submissionIds) ;;;
        ret ()
      else ret ()) ;;;
     let* questionIds := await faults (SelectQuestionIds versionIds) in
     (if nonEmpty questionIds then
        await faults (DeleteOptions questionIds) ;;;
        await faults (DeleteQuestions questionIds) ;;;
        ret ()
      else ret ()) ;;;
     await faults (DeleteLinks versionIds) ;;;
     await faults (DeleteVersions versionIds) ;;;
     ret ()
   else ret ()) ;;;
  await faults (DeleteTest (t_id test)) ;;;
  ret ().

(** How a click on the delete button ends. *)
Inductive Outcome :=
| NotConfirmed
| Deleted
| Failed (t : Thrown).

(** [handleDeleteTest(test)]: [confirmDelete] is the operator's answer to
    [window.confirm]; the result is the outcome, the store afterwards and
    the statements issued, in order.  The [catch] reports the failure and
    leaves the store as the failed run left it. *)
Definition handleDeleteTest (confirmDelete : bool) (faults : Faults Stmt)
    (test : TestRow) (s : Store) : Outcome * Store * list Stmt :=
  if negb confirmDelete then (NotConfirmed, s, [])
  else
    match deleteCascade faults test (s, []) with
    | (Ok _, (s', log)) => (Deleted, s', log)
    | (Raised t, (s', log)) => (Failed t, s', log)
    end.

(** *** The rows a test owns, and what the cascade should leave *)

Definition versionIdsOf (s : Store) (testId : string) : list string :=
  v_id <$> selectWhere (eqCol v_test_id testId) (test_versions s).
Definition submissionIdsOf (s : Store) (versionIds : list string) : list string :=
  s_id <$> selectWhere (inCol s_test_version_id versionIds) (submissions s).
Definition questionIdsOf (s : Store) (versionIds : list string) : list string :=
  q_id <$> selectWhere (inCol q_test_version_id versionIds) (questions s).

Definition isDelete (st : Stmt) : bool :=
  match st with
  | SelectVersionIds _ | SelectSubmissionIds _ | SelectQuestionIds _ => false
  | _ => true
  end.

(** The store with the test and everything it owns taken out. *)
Definition afterCascade (s : Store) (testId : string) : Store :=
  let vids := versionIdsOf s testId in
  let sids := submissionIdsOf s vids in
  let qids := questionIdsOf s vids in
  {| tests := deleteWhere (eqCol t_id testId) (tests s);
     test_versions := deleteWhere (inCol v_id vids) (test_versions s);
     questions := deleteWhere (inCol q_id qids) (questions s);
     options := deleteWhere (inCol o_question_id qids) (options s);
     test_links := deleteWhere (inCol l_test_version_id vids) (test_links s);
     submissions := deleteWhere (inCol s_id sids) (submissions s);
     answers := deleteWhere (inCol a_submission_id sids) (answers s) |}.

(** The deletes in dependency order, a pair being left out when its id
    set is empty. *)
Definition cascadeDeletes (s : Store) (testId : string) : list Stmt :=
  let vids := versionIdsOf s testId in
  let sids := submissionIdsOf s vids in
  let qids := questionIdsOf s vids in
  (if nonEmpty sids then [DeleteAnswers sids; DeleteSubmissions sids] else []) ++
  (if nonEmpty qids then [DeleteOptions qids; DeleteQuestions qids] else []) ++
  (if nonEmpty vids then [DeleteLinks vids; DeleteVersions vids] else []) ++
  [DeleteTest testId].

(** The store a run leaves when it stops after the first [n] deletes of
    the cascade, in the order answers, submissions, options, questions,
    links, versions. *)
Definition partway (n : nat) (s : Store) (testId : string) : Store :=
  let vids := versionIdsOf s testId in
  let sids := submissionIdsOf s vids in
  let qids := questionIdsOf s vids in
  let after (k : nat) {R : Type} (p : R -> bool) (rows : list R) :=
    if (k <=? n)%nat then deleteWhere p rows else rows in
  {| tests := tests s;
     test_versions := after 6%nat (inCol v_id vids) (test_versions s);
     questions := after 4%nat (inCol q_id qids) (questions s);
     options := after 3%nat (inCol o_question_id qids) (options s);
     test_links := after 5%nat (inCol l_test_version_id vids) (test_links s);
     submissions := after 2%nat (inCol s_id sids) (submissions s);
     answers := after 1%nat (inCol a_submission_id sids) (answers s) |}.

(** *** The list of tests *)

(** The three maps of [computed]. *)
Definition versionByTest (versions : list VersionRow) : gmap string (list VersionRow) :=
  foldl (fun (m : gmap string (list VersionRow)) version =>
           <[v_test_id version := default [] (m !! v_test_id version) ++ [version]]> m)
        ∅ versions.

Definition subCountByVersion (submissions : list SubmissionRow) : gmap string nat :=
  foldl (fun (m : gmap string nat) submission =>
           <[s_test_version_id submission :=
               (default 0 (m !! s_test_version_id submission) + 1)%nat]> m)
        ∅ submissions.

Definition subCountByTest (tests : list TestRow) (versions : list VersionRow)
    (submissions : list SubmissionRow) : gmap string nat :=
  foldl (fun (m : gmap string nat) test =>
           let testVersions := default [] (versionByTest versions !! t_id test) in
           <[t_id test :=
               foldl (fun sum version =>
                        (sum + default 0 (subCountByVersion submissions !! v_id version))%nat)
                     0%nat testVersions]> m)
        ∅ tests.

(** [computed.subCountByTest.get(test.id) ?? 0] *)
Definition submissionsCount (tests : list TestRow) (versions : list VersionRow)
    (submissions : list SubmissionRow) (test : TestRow) : nat :=
  default 0%nat (subCountByTest tests versions submissions !! t_id test).

(** [versions.some((version) => version.test_id === test.id)] *)
Definition hasAnyVersion (versions : list VersionRow) (test : TestRow) : bool :=
  existsb (fun version => bool_decide (v_test_id version = t_id test)) versions.

Definition filteredTests (tests : list TestRow) (searchTerm : string) : list TestRow :=
  if negb (Js.truthy (Js.trim searchTerm)) then tests
  else
    let term := Js.toLowerCase (Js.trim searchTerm) in
    filter (fun test => Js.includes (Js.toLowerCase (t_title test)) term = true) tests.

(** The submissions made on a version of the test. *)
Definition submissionsOfTest (versions : list VersionRow) (submissions : list SubmissionRow)
    (test : TestRow) : list SubmissionRow :=
  filter (fun sub =>
            s_test_version_id sub ∈
              v_id <$> filter (fun version => v_test_id version = t_id test) versions)
         submissions.

End Dashboard.

(** ** Share view: the public link of a test (tests/[slug]/links) *)

Module TestLinkPage.

Inductive Stmt :=
| SelectTest
| SelectVersion
| SelectLink
| InsertLink
| EncodeQr.

Record View := {
  test : TestRow;
  testVersion : VersionRow;
  link : LinkRow;
  qrUrl : string }.

(** [`${baseUrl}/t/${public_id}`] *)
Definition publicUrl (baseUrl publicId : string) : string :=
  baseUrl +:+ "/t/" +:+ publicId.

(** The row the store builds for
    [.insert([{ test_version_id, is_active: true }])]: [id] and
    [public_id] are generated by the store and given here as [fresh]. *)
Definition newLink (fresh : string * string) (versionId : string) : LinkRow :=
  {| l_id := fresh.1; l_test_version_id := versionId;
     l_public_id := fresh.2; l_is_active := true |}.

(** [load()] of the effect, for a non-empty [slug].  A [PGRST116] error
    of the link query is let through with [existingLink] null. *)
Definition load (faults : Faults Stmt) (fresh : string * string)
    (baseUrl slug : string) : M Stmt View :=
  let* testResp := exec faults SelectTest
    (fun s => (testBySlug slug s, s)) in
  let* testData := orThrow testResp in
  let* versionResp := exec faults SelectVersion
    (fun s => (latestVersion (t_id testData) s, s)) in
  let* versionOpt := orThrow versionResp in
  match versionOpt with
  | None => throw (JsError "Для теста нет ни одной версии.")
  | Some versionData =>
      let* linkResp := exec faults SelectLink
        (fun s => (maybeSingle (selectWhere (eqCol l_test_version_id (v_id versionData))
                                            (test_links s)), s)) in
      let existingLink :=
        match linkResp with
        | Data l => l
        | Error _ => None
        end in
      (match linkResp with
       | Error e =>
           match code e with
           | PGRST116 => ret ()
           | OtherCode => throw (PgThrown e)
           end
       | Data _ => ret ()
       end) ;;;
      let* ensuredLink :=
        match existingLink with
        | Some l => ret l
        | None =>
            let* created := exec faults InsertLink
              (fun s => let row := newLink fresh (v_id versionData) in
                        (Data row, set_test_links s (test_links s ++ [row]))) in
            orThrow created
        end in
      let url := publicUrl baseUrl (l_public_id ensuredLink) in
      let* qr := exec faults EncodeQr (fun s => (Data url, s)) in
      let* dataUrl := orThrow qr in
      ret {| test := testData; testVersion := versionData;
             link := ensuredLink; qrUrl := dataUrl |}
  end.

(** [toggleActive]: [.update({ is_active: nextValue }).eq('id', link.id)]. *)
Definition toggleActive (l : LinkRow) (s : Store) : Store :=
  set_test_links s
    ((fun r => if eqCol l_id (l_id l) r
               then {| l_id := l_id r; l_test_version_id := l_test_version_id r;
                       l_public_id := l_public_id r; l_is_active := negb (l_is_active l) |}
               else r) <$> test_links s).

(** [baseUrl]: the configured address without one trailing slash, or the
    default when nothing is configured. *)
Definition DEFAULT_BASE_URL : string := "http://localhost:3000".

(** [envValue.replace(/\/$/, '')] *)
Fixpoint stripTrailingSlash (value : string) : string :=
  match value with
  | EmptyString => EmptyString
  | String c EmptyString => if bool_decide (c = "/"%char) then EmptyString else value
  | String c rest => String c (stripTrailingSlash rest)
  end.

Definition baseUrl (envValue : option string) : string :=
  match envValue with
  | None => DEFAULT_BASE_URL
  | Some value =>
      if negb (Js.truthy value) || (length (Js.chars (Js.trim value)) =? 0)%nat
      then DEFAULT_BASE_URL
      else stripTrailingSlash value
  end.

Inductive ToggleStmt := UpdateLink.

(** The handler of the switch: the link the component holds afterwards
    and the store.  A failed update alerts and changes neither. *)
Definition handleToggle (faults : Faults ToggleStmt) (link : option LinkRow) (s : Store)
    : option LinkRow * Store :=
  match link with
  | None => (None, s)
  | Some l =>
      match faults UpdateLink with
      | Some _ => (Some l, s)
      | None =>
          (Some {| l_id := l_id l; l_test_version_id := l_test_version_id l;
                   l_public_id := l_public_id l; l_is_active := negb (l_is_active l) |},
           toggleActive l s)
      end
  end.

(** The links of a version, as the link query of [load] sees them. *)
Definition linksOf (versionId : string) (s : Store) : list LinkRow :=
  selectWhere (eqCol l_test_version_id versionId) (test_links s).

End TestLinkPage.

(** ** Statistics view (tests/[slug]/stats) *)

Module TestStatsPage.

Inductive Stmt :=
| SelectTest
| SelectVersion
| SelectQuestions
| SelectOptions
| SelectSubmissions
| SelectAnswers.

(** The component state the effect fills in. *)
Record Loaded := {
  test : TestRow;
  testVersion : VersionRow;
  questions : list QuestionRow;
  options : list OptionRow;
  submissions : list SubmissionRow;
  answers : list AnswerRow }.

Definition isSingle (q : QuestionRow) : bool :=
  match q_kind q with
  | SINGLE => true
  | TEXT => false
  end.

Definition byOrdAsc {R : Type} (ord : R -> option Z) (a b : R) : Z :=
  cmpAsc false (ord a) (ord b).

Definition byCreatedDesc (a b : SubmissionRow) : Z :=
  time (s_created_at b) - time (s_created_at a).

(** [load()] of the effect, for a non-empty [slug]. *)
Definition load (faults : Faults Stmt) (slug : string) : M Stmt Loaded :=
  let* testResp := exec faults SelectTest
    (fun s => (testBySlug slug s, s)) in
  let* testData := orThrow testResp in
  let* versionResp := exec faults SelectVersion
    (fun s => (latestVersion (t_id testData) s, s)) in
  let* versionOpt := orThrow versionResp in
  match versionOpt with
  | None => throw (JsError "Для теста нет ни одной версии.")
  | Some versionData =>
      let* questionsResp := exec faults SelectQuestions
        (fun s => (Data (orderBy (byOrdAsc q_ord)
                     (selectWhere (eqCol q_test_version_id (v_id versionData)) (Db.questions s))), s)) in
      let* questionsData := orThrow questionsResp in
      let singleQuestionIds := q_id <$> filter (fun q => isSingle q = true) questionsData in
      let* optionsData :=
        match singleQuestionIds with
        | [] => ret []
        | _ :: _ =>
            let* optionsResp := exec faults SelectOptions
              (fun s => (Data (orderBy (byOrdAsc o_ord)
                           (selectWhere (inCol o_question_id singleQuestionIds) (Db.options s))), s)) in
            orThrow optionsResp
        end in
      let* submissionsResp := exec faults SelectSubmissions
        (fun s => (Data (orderBy byCreatedDesc
                     (selectWhere (eqCol s_test_version_id (v_id versionData)) (Db.submissions s))), s)) in
      let* submissionsData := orThrow submissionsResp in
      let submissionIds := s_id <$> submissionsData in
      let* answersData :=
        match submissionIds with
        | [] => ret []
        | _ :: _ =>
            let* answersResp := exec faults SelectAnswers
              (fun s => (Data (selectWhere (inCol a_submission_id submissionIds) (Db.answers s)), s)) in
            orThrow answersResp
        end in
      ret {| test := testData; testVersion := versionData;
             questions := questionsData; options := optionsData;
             submissions := submissionsData; answers := answersData |}
  end.

(** *** Dates

    A date input holds the empty text or a day as [YYYY-MM-DD]; the day
    is kept here as its number counted from 1970-01-01, and [None] is the
    empty text.  [new Date(value)] with a date-only text is midnight UTC of that day.

    The browser's time zone is given by its rules: the offset from UTC,
    in minutes and positive to the east, that is in force at a time
    value, and the offset with which a local date and time is read.
    Where the clock is set forward or back the two differ: a local time
    that is skipped or occurs twice is read with the offset in force
    before the change. *)

Definition msPerDay : Z := 86400000.
Definition msPerMinute : Z := 60000.

Record Zone := {
  offsetAt : Z -> Z;
  offsetOfLocal : Z -> Z }.

(** A zone that keeps one offset, [tz] minutes east of UTC. *)
Definition fixedZone (tz : Z) : Zone :=
  {| offsetAt := fun _ => tz; offsetOfLocal := fun _ => tz |}.

(** [new Date(value)] for the value of a date input. *)
Definition dateOfInput (day : Z) : Z := day * msPerDay.

(** [date.setHours(h, m, s, ms)]: the local calendar day of [t] is kept,
    the local time of day is replaced, and the local date and time so
    made is read back as a time value. *)
Definition setHours (zone : Zone) (t h m sec ms : Z) : Z :=
  let localDay := (t + offsetAt zone t * msPerMinute) `div` msPerDay in
  let local := localDay * msPerDay + ((h * 60 + m) * 60 + sec) * 1000 + ms in
  local - offsetOfLocal zone local * msPerMinute.

(** The predicate of [submissions.filter(...)]. *)
Definition passesFilters (zone : Zone) (dateFrom dateTo : option Z)
    (participantQuery : string) (submission : SubmissionRow) : bool :=
  let createdAt := time (s_created_at submission) in
  (match dateFrom with
   | Some d => negb (bool_decide (createdAt < setHours zone (dateOfInput d) 0 0 0 0))
   | None => true
   end)
  &&
  (match dateTo with
   | Some d => negb (bool_decide (createdAt > setHours zone (dateOfInput d) 23 59 59 999))
   | None => true
   end)
  &&
  (if Js.truthy (Js.trim participantQuery)
   then Js.includes (Js.toLowerCase (s_participant submission))
                    (Js.toLowerCase (Js.trim participantQuery))
   else true).

Definition filteredSubmissions (zone : Zone) (submissions : list SubmissionRow)
    (dateFrom dateTo : option Z) (participantQuery : string) : list SubmissionRow :=
  filter (fun sub => passesFilters zone dateFrom dateTo participantQuery sub = true) submissions.

(** *** Charts *)

Record Chart := {
  question : QuestionRow;
  labels : list string;
  data : list nat }.

(** The [answers.forEach] that fills [answersByQuestion]. *)
Definition groupAnswers (submissionIdSet : gset string) (answers : list AnswerRow)
    : gmap string (list AnswerRow) :=
  foldl (fun (m : gmap string (list AnswerRow)) answer =>
           if decide (a_submission_id answer ∈ submissionIdSet)
           then <[a_question_id answer := default [] (m !! a_question_id answer) ++ [answer]]> m
           else m)
        ∅ answers.

Definition byOrdOrZero (a b : OptionRow) : Z := Js.orZero (o_ord a) - Js.orZero (o_ord b).

(** One step of [answersForQuestion.forEach]. *)
Definition countAnswer (questionOptions : list OptionRow) (counts : list nat)
    (answer : AnswerRow) : list nat :=
  if negb (Js.truthy_opt (a_option_id answer)) then counts
  else
    match Js.findIndex (fun o => bool_decide (Some (o_id o) = a_option_id answer)) questionOptions with
    | Some index => alter S index counts
    | None => counts
    end.

Definition chartFor (options : list OptionRow)
    (answersByQuestion : gmap string (list AnswerRow)) (q : QuestionRow) : Chart :=
  let questionOptions :=
    Js.sort_by byOrdOrZero (filter (fun o => o_question_id o = q_id q) options) in
  let counts := (fun _ => 0%nat) <$> questionOptions in
  let answersForQuestion := default [] (answersByQuestion !! q_id q) in
  {| question := q;
     labels := o_text <$> questionOptions;
     data := foldl (countAnswer questionOptions) counts answersForQuestion |}.

Definition charts (isAuthorized : bool) (questions : list QuestionRow)
    (options : list OptionRow) (answers : list AnswerRow)
    (filteredSubmissions : list SubmissionRow) : list Chart :=
  if negb isAuthorized then []
  else
    match questions with
    | [] => []
    | _ :: _ =>
        let submissionIdSet : gset string := list_to_set (s_id <$> filteredSubmissions) in
        let answersByQuestion := groupAnswers submissionIdSet answers in
        chartFor options answersByQuestion <$> filter (fun q => isSingle q = true) questions
    end.

(** *** The table of recent submissions *)

Definition latestSubmissions (isAuthorized : bool)
    (filteredSubmissions : list SubmissionRow) : list SubmissionRow :=
  if negb isAuthorized then []
  else take 20 (Js.sort_by byCreatedDesc filteredSubmissions).

(** *** CSV export *)

Definition dquote : ascii := "034"%char.
Definition newline : string := String "010"%char EmptyString.

(** [value.replace(/QUOTE/g, QUOTE QUOTE)]: every double quote is written twice. *)
Fixpoint doubleQuotes (value : string) : string :=
  match value with
  | EmptyString => EmptyString
  | String c rest =>
      if bool_decide (c = dquote)
      then String dquote (String dquote (doubleQuotes rest))
      else String c (doubleQuotes rest)
  end.

(** The template of the export: the escaped value between two double quotes. *)
Definition quoteField (value : string) : string :=
  String dquote (doubleQuotes value +:+ String dquote EmptyString).

Definition csvHeader : list string := ["submission_id"; "participant"; "created_at"].

Definition csvRow (submission : SubmissionRow) : list string :=
  [s_id submission; s_participant submission; iso (s_created_at submission)].

Definition csvLine (row : list string) : string := Js.join "," (quoteField <$> row).

(** [handleExportCsv]: the text handed to the [Blob], or [None] when the
    handler returns at its guard. *)
Definition handleExportCsv (filteredSubmissions : list SubmissionRow)
    (test : option TestRow) (testVersion : option VersionRow) : option string :=
  match filteredSubmissions, test, testVersion with
  | _ :: _, Some _, Some _ =>
      Some (Js.join newline (csvLine <$> (csvHeader :: (csvRow <$> filteredSubmissions))))
  | _, _, _ => None
  end.

(** *** Metrics and the filter inputs *)

(** The [reduce] of [metrics]; a timestamp of the store always has a
    time value, so the [NaN] branch is never taken. *)
Definition lastSubmissionTimestamp (filteredSubmissions : list SubmissionRow) : option Z :=
  foldl (fun (latest : option Z) submission =>
           let current := time (s_created_at submission) in
           match latest with
           | None => Some current
           | Some l => if decide (current > l) then Some current else latest
           end)
        None filteredSubmissions.

Record Metrics := {
  totalSubmissions : nat;
  lastSubmissionAt : option Z }.

Definition metrics (isAuthorized : bool) (filteredSubmissions : list SubmissionRow) : Metrics :=
  if negb isAuthorized then {| totalSubmissions := 0; lastSubmissionAt := None |}
  else {| totalSubmissions := length filteredSubmissions;
          lastSubmissionAt := lastSubmissionTimestamp filteredSubmissions |}.

Record Filters := {
  dateFrom : option Z;
  dateTo : option Z;
  participantQuery : string }.

Definition handleResetFilters (current : Filters) : Filters :=
  {| dateFrom := None; dateTo := None; participantQuery := EmptyString |}.

Definition applyFilters (zone : Zone) (filters : Filters) (submissions : list SubmissionRow)
    : list SubmissionRow :=
  filteredSubmissions zone submissions (dateFrom filters) (dateTo filters)
                      (participantQuery filters).

(** *** What the views above are meant to compute *)

(** The first and last millisecond of local calendar day [day]. *)
Definition localDayStart (tz day : Z) : Z := day * msPerDay - tz * msPerMinute.
Definition localDayEnd (tz day : Z) : Z := localDayStart tz day + msPerDay - 1.

(** [t] lies in the inclusive local-day range of the two inputs. *)
Definition inDateRange (tz : Z) (dateFrom dateTo : option Z) (t : Z) : Prop :=
  (forall d, dateFrom = Some d -> localDayStart tz d <= t) /\
  (forall d, dateTo = Some d -> t <= localDayEnd tz d).


(** The options of a question in chart order. *)
Definition optionsOf (options : list OptionRow) (q : QuestionRow) : list OptionRow :=
  Js.sort_by byOrdOrZero (filter (fun o => o_question_id o = q_id q) options).

(** [answer] is an answer of question [q], given within the filtered
    submissions, that selects option [o]. *)
Definition selects (filteredSubmissions : list SubmissionRow) (q : QuestionRow)
    (o : OptionRow) (answer : AnswerRow) : Prop :=
  a_submission_id answer ∈ s_id <$> filteredSubmissions /\
  a_question_id answer = q_id q /\
  Js.truthy_opt (a_option_id answer) = true /\
  a_option_id answer = Some (o_id o).

Definition countFor (filteredSubmissions : list SubmissionRow) (answers : list AnswerRow)
    (q : QuestionRow) (o : OptionRow) : nat :=
  length (filter (selects filteredSubmissions q o) answers).

(** What one answer adds to the count of one option. *)
Definition picks (answer : AnswerRow) (o : OptionRow) : Prop :=
  Js.truthy_opt (a_option_id answer) = true /\ a_option_id answer = Some (o_id o).

Definition tally (answer : AnswerRow) (o : OptionRow) : nat :=
  if decide (picks answer o) then 1%nat else 0%nat.

(** [a] was created no earlier than [b]. *)
Definition notOlder (a b : SubmissionRow) : Prop :=
  time (s_created_at b) <= time (s_created_at a).



(** Reading a whole export back.  Every field stands between quotes, a
    quote inside a field is written twice, a comma after a field starts
    the next field and a line feed after a field starts the next row.
    The reader is either in front of a field, inside one, or behind a
    quote that ends the field or is the first of a pair; the rows it
    answers with are those of the rest of the text, the field and the row
    being read standing first. *)
Inductive CsvMode := FieldStart | InField | AfterQuote.

Definition addChar (c : ascii) (rows : option (list (list string)))
    : option (list (list string)) :=
  match rows with
  | Some ((field :: row) :: rest) => Some ((String c field :: row) :: rest)
  | _ => None
  end.

Definition newField (rows : option (list (list string))) : option (list (list string)) :=
  match rows with
  | Some (row :: rest) => Some ((EmptyString :: row) :: rest)
  | _ => None
  end.

Definition newRow (rows : option (list (list string))) : option (list (list string)) :=
  match rows with
  | Some rest => Some ([EmptyString] :: rest)
  | None => None
  end.

Fixpoint parseCsv (mode : CsvMode) (text : string) : option (list (list string)) :=
  match text with
  | EmptyString =>
      match mode with
      | AfterQuote => Some [[EmptyString]]
      | _ => None
      end
  | String c rest =>
      match mode with
      | FieldStart => if bool_decide (c = dquote) then parseCsv InField rest else None
      | InField =>
          if bool_decide (c = dquote) then parseCsv AfterQuote rest
          else addChar c (parseCsv InField rest)
      | AfterQuote =>
          if bool_decide (c = dquote) then addChar dquote (parseCsv InField rest)
          else if bool_decide (c = ","%char) then newField (parseCsv FieldStart rest)
          else if bool_decide (c = "010"%char) then newRow (parseCsv FieldStart rest)
          else None
      end
  end.


Definition rowLine (sub : SubmissionRow) : string :=
  quoteField (s_id sub) +:+ "," +:+ quoteField (s_participant sub) +:+ "," +:+
  quoteField (iso (s_created_at sub)).

End TestStatsPage.

Coercion TestStatsPage.fixedZone : Z >-> TestStatsPage.Zone.

(** ** Anonymous page (t/[publicId]) *)

Module PublicTestPage.

Inductive Stmt :=
| SelectLink
| SelectTest
| SelectQuestions
| SelectOptions
| InsertSubmission
| InsertAnswers.

(** [SupabaseQuestion & { options?: SupabaseOption[] }] *)
Record Question := {
  id : string;
  kind : QuestionKind;
  text : string;
  ord : option Z;
  options : option (list OptionRow) }.

Definition ERROR_MESSAGE : string := "Ссылка недействительна или тест отключён.".

Record State := {
  isLoading : bool;
  loadError : option string;
  testTitle : string;
  testDescription : option string;
  testVersionId : option string;
  questions : list Question;
  participant : string;
  answersState : gmap string string }.

(** The state of a freshly mounted component. *)
Definition initialState : State :=
  {| isLoading := true; loadError := None; testTitle := EmptyString;
     testDescription := None; testVersionId := None; questions := [];
     participant := EmptyString; answersState := ∅ |}.

(** What [loadData] has gathered when no step failed. *)
Record Fetched := {
  f_title : string;
  f_description : option string;
  f_versionId : string;
  f_questions : list Question }.

(** The rows of
    [from('test_links').select('..., test_versions!inner(...)')
     .eq('public_id', publicId).eq('is_active', true)]:
    the matching links, each with the version it points to; a link whose
    version is missing is left out by the inner join. *)
Definition activeLinks (publicId : string) (s : Store) : list (LinkRow * VersionRow) :=
  omap (fun l =>
          match selectWhere (eqCol v_id (l_test_version_id l)) (test_versions s) with
          | v :: _ => Some (l, v)
          | [] => None
          end)
       (selectWhere (fun l => eqCol l_public_id publicId l && l_is_active l) (test_links s)).

(** The [typedOptions.forEach] that fills [optionsByQuestionId]. *)
Definition groupOptions (typedOptions : list OptionRow) : gmap string (list OptionRow) :=
  foldl (fun (m : gmap string (list OptionRow)) option =>
           match m !! o_question_id option with
           | Some existing => <[o_question_id option := existing ++ [option]]> m
           | None => <[o_question_id option := [option]]> m
           end)
        ∅ typedOptions.

Definition normalize (optionsByQuestionId : gmap string (list OptionRow))
    (q : QuestionRow) : Question :=
  match q_kind q with
  | SINGLE =>
      {| id := q_id q; kind := q_kind q; text := q_text q; ord := q_ord q;
         options := Some (default [] (optionsByQuestionId !! q_id q)) |}
  | TEXT =>
      {| id := q_id q; kind := q_kind q; text := q_text q; ord := q_ord q;
         options := None |}
  end.

(** The [try] block of [loadData]: every failure is thrown as
    [new Error(ERROR_MESSAGE)]. *)
Definition fetch (faults : Faults Stmt) (publicId : string) : M Stmt Fetched :=
  let failure := JsError ERROR_MESSAGE in
  let* linkResp := exec faults SelectLink (fun s => (single (activeLinks publicId s), s)) in
  match linkResp with
  | Error _ => throw failure
  | Data (linkData, testVersionRaw) =>
      if negb (l_is_active linkData) then throw failure
      else
        let* testResp := exec faults SelectTest
          (fun s => (single (selectWhere (eqCol t_id (v_test_id testVersionRaw)) (tests s)), s)) in
        match testResp with
        | Error _ => throw failure
        | Data testRow =>
            let* questionsResp := exec faults SelectQuestions
              (fun s => (Data (orderBy (TestStatsPage.byOrdAsc q_ord)
                           (selectWhere (eqCol q_test_version_id (v_id testVersionRaw))
                                        (Db.questions s))), s)) in
            match questionsResp with
            | Error _ => throw failure
            | Data typedQuestions =>
                let singleQuestionIds :=
                  q_id <$> filter (fun q => TestStatsPage.isSingle q = true) typedQuestions in
                let* optionsByQuestionId :=
                  match singleQuestionIds with
                  | [] => ret ∅
                  | _ :: _ =>
                      let* optionsResp := exec faults SelectOptions
                        (fun s => (Data (orderBy (TestStatsPage.byOrdAsc o_ord)
                                     (selectWhere (inCol o_question_id singleQuestionIds)
                                                  (Db.options s))), s)) in
                      match optionsResp with
                      | Error _ => throw failure
                      | Data typedOptions => ret (groupOptions typedOptions)
                      end
                  end in
                ret {| f_title := t_title testRow;
                       f_description := t_description testRow;
                       f_versionId := v_id testVersionRaw;
                       f_questions := normalize optionsByQuestionId <$> typedQuestions |}
            end
        end
  end.

(** The effect on [publicId]: the state it leaves once [loadData] has
    settled.  [isMounted] is the flag at that moment; an unmounted
    component keeps the state the start of [loadData] has set. *)
Definition loadEffect (faults : Faults Stmt) (publicId : option string)
    (isMounted : bool) (s : Store) (st : State) : State :=
  match publicId with
  | Some pid =>
      if Js.truthy pid then
        let started :=
          {| isLoading := true; loadError := None; testTitle := testTitle st;
             testDescription := testDescription st; testVersionId := testVersionId st;
             questions := questions st; participant := participant st;
             answersState := answersState st |} in
        if negb isMounted then started
        else
          match fetch faults pid (s, []) with
          | (Ok f, _) =>
              {| isLoading := false; loadError := None; testTitle := f_title f;
                 testDescription := f_description f; testVersionId := Some (f_versionId f);
                 questions := f_questions f; participant := participant st;
                 answersState := ∅ |}
          | (Raised _, _) =>
              {| isLoading := false; loadError := Some ERROR_MESSAGE;
                 testTitle := testTitle st; testDescription := testDescription st;
                 testVersionId := testVersionId st; questions := questions st;
                 participant := participant st; answersState := answersState st |}
          end
      else
        {| isLoading := false; loadError := Some ERROR_MESSAGE; testTitle := testTitle st;
           testDescription := testDescription st; testVersionId := testVersionId st;
           questions := questions st; participant := participant st;
           answersState := answersState st |}
  | None =>
      {| isLoading := false; loadError := Some ERROR_MESSAGE; testTitle := testTitle st;
         testDescription := testDescription st; testVersionId := testVersionId st;
         questions := questions st; participant := participant st;
         answersState := answersState st |}
  end.

(** What the component renders. *)
Inductive Rendered :=
| LoadingView
| ErrorView (msg : string)
| FormView (title : string) (description : option string) (qs : list Question).

Definition render (st : State) : Rendered :=
  if isLoading st then LoadingView
  else if Js.truthy_opt (loadError st) || negb (Js.truthy_opt (testVersionId st))
  then ErrorView ERROR_MESSAGE
  else FormView (testTitle st) (testDescription st) (questions st).

(** *** Submission *)

(** [obj[key]] read for truthiness. *)
Definition answered (answers : gmap string string) (key : string) : bool :=
  Js.truthy_opt (answers !! key).

(** One step of the [questions.forEach] that fills in defaults. *)
Definition ensureAnswer (ensuredAnswers : gmap string string) (q : Question)
    : gmap string string :=
  match kind q with
  | TEXT => ensuredAnswers
  | SINGLE =>
      if answered ensuredAnswers (id q) then ensuredAnswers
      else
        match Js.sort_by TestStatsPage.byOrdOrZero (default [] (options q)) with
        | firstOption :: _ => <[id q := o_id firstOption]> ensuredAnswers
        | [] => ensuredAnswers
        end
  end.

Definition ensureAnswers (questions : list Question) (answersState : gmap string string)
    : gmap string string :=
  foldl ensureAnswer answersState questions.

Definition missingSingleChoice (questions : list Question)
    (ensuredAnswers : gmap string string) : bool :=
  existsb (fun q =>
             match kind q with
             | SINGLE => negb (answered ensuredAnswers (id q))
             | TEXT => false
             end) questions.

Definition missingTextAnswer (questions : list Question)
    (ensuredAnswers : gmap string string) : bool :=
  existsb (fun q =>
             match kind q with
             | TEXT => negb (Js.truthy (default EmptyString (Js.trim <$> ensuredAnswers !! id q)))
             | SINGLE => false
             end) questions.

Definition answersPayload (submissionId : string) (questions : list Question)
    (ensuredAnswers : gmap string string) : list AnswerRow :=
  (fun q =>
     let answer := ensuredAnswers !! id q in
     match kind q with
     | SINGLE =>
         {| a_submission_id := submissionId; a_question_id := id q;
            a_option_id := answer; a_free_text := None |}
     | TEXT =>
         {| a_submission_id := submissionId; a_question_id := id q;
            a_option_id := None;
            a_free_text := Some (default EmptyString (Js.trim <$> answer)) |}
     end) <$> questions.

Inductive Outcome :=
| Ignored
| Alerted (msg : string)
| Redirected (url : string).

(** The two writes of [handleSubmit]; [fresh] is the id the store gives
    the submission and [now] its [created_at]. *)
Definition record (faults : Faults Stmt) (fresh : string) (now : Timestamp)
    (versionId trimmedParticipant : string) (questions : list Question)
    (ensuredAnswers : gmap string string) : M Stmt (Response unit) :=
  let* submissionResp := exec faults InsertSubmission
    (fun s =>
       let row := {| s_id := fresh; s_test_version_id := versionId;
                     s_participant := trimmedParticipant; s_created_at := now |} in
       (Data fresh, set_submissions s (Db.submissions s ++ [row]))) in
  let* submissionId := orThrow submissionResp in
  exec faults InsertAnswers
    (fun s => (Data (), set_answers s
                 (answers s ++ answersPayload submissionId questions ensuredAnswers))).

(** [handleSubmit]: the outcome shown to the participant, the answers
    kept in the component state, the store afterwards and the statements
    issued. *)
Definition handleSubmit (faults : Faults Stmt) (fresh : string) (now : Timestamp)
    (publicId : option string) (st : State) (s : Store)
    : Outcome * gmap string string * Store * list Stmt :=
  match testVersionId st, publicId with
  | Some versionId, Some pid =>
      if negb (Js.truthy versionId && Js.truthy pid) then (Ignored, answersState st, s, [])
      else
        let trimmedParticipant := Js.trim (participant st) in
        if negb (Js.truthy trimmedParticipant)
        then (Alerted "Введите ФИО или код участника.", answersState st, s, [])
        else
          let ensuredAnswers := ensureAnswers (questions st) (answersState st) in
          if missingSingleChoice (questions st) ensuredAnswers
          then (Alerted "Пожалуйста, ответьте на все вопросы с вариантами.", ensuredAnswers, s, [])
          else if missingTextAnswer (questions st) ensuredAnswers
          then (Alerted "Пожалуйста, заполните все текстовые ответы.", ensuredAnswers, s, [])
          else
            match record faults fresh now versionId trimmedParticipant (questions st)
                         ensuredAnswers (s, []) with
            | (Ok (Data _), (s', log)) =>
                (Redirected ("/t/" +:+ pid +:+ "/done"), ensuredAnswers, s', log)
            | (Ok (Error e), (s', log)) =>
                (Alerted ("Ошибка сохранения ответов: " +:+ message e), ensuredAnswers, s', log)
            | (Raised _, (s', log)) =>
                (Alerted "Не удалось отправить ответы. Попробуйте ещё раз.", ensuredAnswers, s', log)
            end
  | _, _ => (Ignored, answersState st, s, [])
  end.

(** [setAnswersState(answers)] *)
Definition setAnswersState (st : State) (answers : gmap string string) : State :=
  {| isLoading := isLoading st; loadError := loadError st; testTitle := testTitle st;
     testDescription := testDescription st; testVersionId := testVersionId st;
     questions := questions st; participant := participant st; answersState := answers |}.

(** *** What the page is meant to show *)

(** The questions of a version and the options of a question, in
    ascending [ord] with nulls last. *)
Definition questionsOfVersion (versionId : string) (s : Store) : list QuestionRow :=
  orderBy (TestStatsPage.byOrdAsc q_ord)
          (selectWhere (eqCol q_test_version_id versionId) (Db.questions s)).

Definition optionsOfQuestion (questionId : string) (s : Store) : list OptionRow :=
  orderBy (TestStatsPage.byOrdAsc o_ord)
          (selectWhere (eqCol o_question_id questionId) (Db.options s)).

Definition formQuestion (s : Store) (q : QuestionRow) : Question :=
  {| id := q_id q; kind := q_kind q; text := q_text q; ord := q_ord q;
     options := match q_kind q with
                | SINGLE => Some (optionsOfQuestion (q_id q) s)
                | TEXT => None
                end |}.

Definition formOf (versionId : string) (s : Store) : list Question :=
  formQuestion s <$> questionsOfVersion versionId s.

(** No row of [test_links] has this public id with [is_active] true. *)
Definition noActiveLink (publicId : string) (s : Store) : Prop :=
  forall l, l ∈ test_links s -> l_public_id l = publicId -> l_is_active l = false.

(** The option the defaulting picks for a question. *)
Definition firstOption (q : Question) : option OptionRow :=
  head (Js.sort_by TestStatsPage.byOrdOrZero (default [] (options q))).

(** The number, kind, text and option texts the page shows of a question. *)
Definition shape (q : Question) : option Z * QuestionKind * string * list string :=
  (ord q, kind q, text q, o_text <$> default [] (options q)).

End PublicTestPage.

(** ** Authoring: the slug of a new test (tests/new) *)

Module CreateTestPage.

Definition hyphen : Js.Char := 45%N.

(** The characters [/[^a-z0-9\s-]/g] leaves in place. *)
Definition keptInSlug (c : Js.Char) : bool :=
  Js.isLower c || Js.isDigit c || Js.isSpace c || bool_decide (c = hyphen).

(** [.replace(/\s+/g, '-')]: every maximal run of white space becomes
    one hyphen.  [inRun] says that the character before was white space. *)
Fixpoint hyphenate (inRun : bool) (l : list Js.Char) : list Js.Char :=
  match l with
  | [] => []
  | c :: l' =>
      if Js.isSpace c
      then if inRun then hyphenate true l' else hyphen :: hyphenate true l'
      else c :: hyphenate false l'
  end.

(** [title.trim().toLowerCase().replace(...).replace(...)], on the
    characters of the title. *)
Definition slugChars (title : list Js.Char) : list Js.Char :=
  hyphenate false (filter (fun c => keptInSlug c = true)
                     (Js.lowerChars false (Js.trimChars title))).

Definition slugBase (title : string) : string := Js.text (slugChars (Js.chars title)).

(** [createSlug(title)]; [shortId] is the text
    [Math.random().toString(36).slice(2, 8)] drawn by this call. *)
Definition createSlug (shortId : string) (title : string) : string :=
  slugBase title +:+ "-" +:+ shortId.






(** *** The authoring form *)

Record QuestionForm := {
  id : string;
  text : string;
  kind : QuestionKind;
  options : list string }.

(** [defaultQuestion()]; [uuid] is what [crypto.randomUUID()] gives. *)
Definition defaultQuestion (uuid : string) : QuestionForm :=
  {| id := uuid; text := EmptyString; kind := SINGLE;
     options := [EmptyString; EmptyString] |}.

(** [!value.trim()] *)
Definition blank (value : string) : bool := negb (Js.truthy (Js.trim value)).

(** The [for] loop of [validationError]. *)
Fixpoint questionsError (questions : list QuestionForm) : option string :=
  match questions with
  | [] => None
  | question :: rest =>
      if blank (text question) then Some "Заполните все тексты вопросов."
      else
        match kind question with
        | SINGLE =>
            if (length (options question) <? 2)%nat
            then Some "У вопросов с вариантами должно быть минимум два ответа."
            else if existsb blank (options question)
            then Some "Заполните все варианты ответов."
            else questionsError rest
        | TEXT => questionsError rest
        end
  end.

Definition validationError (title : string) (questions : list QuestionForm) : option string :=
  if blank title then Some "Введите название теста."
  else
    match questions with
    | [] => Some "Добавьте хотя бы один вопрос."
    | _ :: _ => questionsError questions
    end.

Definition handleAddQuestion (uuid : string) (prev : list QuestionForm) : list QuestionForm :=
  prev ++ [defaultQuestion uuid].

Definition handleRemoveQuestion (questionId : string) (prev : list QuestionForm)
    : list QuestionForm :=
  filter (fun question => id question <> questionId) prev.

Inductive Direction := up | down.

(** [next.splice(index, 1)] and [next.splice(targetIndex, 0, moved)] *)
Definition spliceOut {A : Type} (index : nat) (l : list A) : list A := delete index l.
Definition spliceIn {A : Type} (index : nat) (x : A) (l : list A) : list A :=
  take index l ++ x :: drop index l.

Definition handleMoveQuestion (questionId : string) (direction : Direction)
    (prev : list QuestionForm) : list QuestionForm :=
  match Js.findIndex (fun question => bool_decide (id question = questionId)) prev with
  | None => prev
  | Some index =>
      let targetIndex : Z :=
        match direction with
        | up => Z.of_nat index - 1
        | down => Z.of_nat index + 1
        end in
      if decide (targetIndex < 0 \/ targetIndex >= Z.of_nat (length prev)) then prev
      else
        match prev !! index with
        | Some moved => spliceIn (Z.to_nat targetIndex) moved (spliceOut index prev)
        | None => prev
        end
  end.

Definition handleKindChange (questionId : string) (newKind : QuestionKind)
    (prev : list QuestionForm) : list QuestionForm :=
  (fun question =>
     if decide (id question = questionId)
     then {| id := id question; text := text question; kind := newKind;
             options := match newKind with
                        | SINGLE =>
                            match options question with
                            | [] => [EmptyString; EmptyString]
                            | _ :: _ => options question
                            end
                        | TEXT => []
                        end |}
     else question) <$> prev.

Definition handleAddOption (questionId : string) (prev : list QuestionForm)
    : list QuestionForm :=
  (fun question =>
     if decide (id question = questionId)
     then {| id := id question; text := text question; kind := kind question;
             options := options question ++ [EmptyString] |}
     else question) <$> prev.

Definition handleRemoveOption (questionId : string) (optionIndex : nat)
    (prev : list QuestionForm) : list QuestionForm :=
  (fun question =>
     if decide (id question = questionId)
     then
       let nextOptions := delete optionIndex (options question) in
       {| id := id question; text := text question; kind := kind question;
          options := match nextOptions with
                     | [] => [EmptyString]
                     | _ :: _ => nextOptions
                     end |}
     else question) <$> prev.

(** *** Creating the test *)

Inductive Stmt :=
| InsertTest
| InsertVersion
| InsertQuestions
| InsertOptions.

(** What the store and the browser generate for one submission of the
    form: the token of the slug, the ids of the test and of the version,
    and the id of the row at each position of the two batch inserts. *)
Record Fresh := {
  shortId : string;
  testId : string;
  versionId : string;
  questionId : nat -> string;
  optionId : nat -> string }.

(** [questionPayload] with the ids the store returns for it, in order. *)
Definition questionRows (fresh : Fresh) (questions : list QuestionForm) : list QuestionRow :=
  imap (fun index question =>
          {| q_id := questionId fresh index; q_test_version_id := versionId fresh;
             q_kind := kind question; q_text := Js.trim (text question);
             q_ord := Some (Z.of_nat index + 1) |}) questions.

(** [singleQuestionPairs]: the SINGLE forms, each with its inserted id. *)
Definition singleQuestionPairs (fresh : Fresh) (questions : list QuestionForm)
    : list (QuestionForm * string) :=
  filter (fun pair => kind pair.1 = SINGLE)
         (imap (fun index question => (question, questionId fresh index)) questions).

(** [optionPayload] with the ids the store gives its rows, in order. *)
Definition optionRows (fresh : Fresh) (questions : list QuestionForm) : list OptionRow :=
  imap (fun position (row : string * string * Z) =>
          {| o_id := optionId fresh position; o_question_id := row.1.1;
             o_text := row.1.2; o_ord := Some row.2 |})
       (singleQuestionPairs fresh questions ≫=
          (fun pair =>
             imap (fun index option => (pair.2, Js.trim option, Z.of_nat index + 1))
                  (options pair.1))).

Definition testRow (fresh : Fresh) (title description : string) : TestRow :=
  {| t_id := testId fresh;
     t_slug := createSlug (shortId fresh) title;
     t_title := Js.trim title;
     t_description := if Js.truthy (Js.trim description)
                      then Some (Js.trim description) else None |}.

Definition versionRow (fresh : Fresh) : VersionRow :=
  {| v_id := versionId fresh; v_test_id := testId fresh;
     v_version := Some 1; v_published_at := None |}.

(** The [try] block of [handleSubmit].  The columns of [tests] the model
    of the store does not carry ([status], [created_at]) are left out; a
    column an insert does not give is null. *)
Definition create (faults : Faults Stmt) (fresh : Fresh) (title description : string)
    (questions : list QuestionForm) : M Stmt unit :=
  let* testResp := exec faults InsertTest
    (fun s => (Data (testId fresh),
               set_tests s (tests s ++ [testRow fresh title description]))) in
  let* _ := orThrow testResp in
  let* versionResp := exec faults InsertVersion
    (fun s => (Data (versionId fresh),
               set_test_versions s (test_versions s ++ [versionRow fresh]))) in
  let* _ := orThrow versionResp in
  let* questionsResp := exec faults InsertQuestions
    (fun s => (Data (),
               set_questions s (Db.questions s ++ questionRows fresh questions))) in
  let* _ := orThrow questionsResp in
  match singleQuestionPairs fresh questions with
  | [] => ret ()
  | _ :: _ =>
      let* optionsResp := exec faults InsertOptions
        (fun s => (Data (),
                   set_options s (Db.options s ++ optionRows fresh questions))) in
      orThrow optionsResp
  end.

Inductive Outcome :=
| Alerted (msg : string)
| Failed (t : Thrown)
| Navigated (url : string).

(** [handleSubmit]: the outcome, the store afterwards and the statements
    issued.  A failed run alerts with a text built from the error, kept
    here as the error itself. *)
Definition handleSubmit (faults : Faults Stmt) (fresh : Fresh) (title description : string)
    (questions : list QuestionForm) (s : Store) : Outcome * Store * list Stmt :=
  match validationError title questions with
  | Some msg => (Alerted msg, s, [])
  | None =>
      match create faults fresh title description questions (s, []) with
      | (Ok _, (s', log)) => (Navigated "/dashboard", s', log)
      | (Raised t, (s', log)) => (Failed t, s', log)
      end
  end.

(** *** What the form handlers are meant to keep *)

(** A question the validation lets through. *)
Definition wellFormed (question : QuestionForm) : Prop :=
  blank (text question) = false /\
  (kind question = SINGLE ->
   (2 <= length (options question))%nat /\
   forall option, option ∈ options question -> blank option = false).

(** A choice question shows at least one option field. *)
Definition hasOptionField (question : QuestionForm) : Prop :=
  kind question = SINGLE -> options question <> [].


(** The slug and the ids of one submission of the form are new to the
    store: no row has them and no row refers to them, and the question
    rows get distinct ids. *)
Definition freshFor (fresh : Fresh) (title : string) (questions : list QuestionForm)
    (s : Store) : Prop :=
  (createSlug (shortId fresh) title ∉ t_slug <$> tests s) /\
  (testId fresh ∉ t_id <$> tests s) /\
  (versionId fresh ∉ v_id <$> test_versions s) /\
  (testId fresh ∉ v_test_id <$> test_versions s) /\
  (versionId fresh ∉ q_test_version_id <$> Db.questions s) /\
  (versionId fresh ∉ l_test_version_id <$> test_links s) /\
  Forall (fun index => questionId fresh index ∉ o_question_id <$> Db.options s)
         (seq 0 (length questions)) /\
  NoDup (questionId fresh <$> seq 0 (length questions)).

(** What a participant is meant to see of the question at position
    [index] of the form: its number, kind, text and option texts. *)
Definition shown (index : nat) (question : QuestionForm)
    : option Z * QuestionKind * string * list string :=
  (Some (Z.of_nat index + 1), kind question, Js.trim (text question),
   match kind question with
   | SINGLE => Js.trim <$> options question
   | TEXT => []
   end).

End CreateTestPage.

(** ** Access guard (hooks/useAdminGuard.ts) *)

Module AdminGuard.

(** A row of [profiles]; the table is read by the guard only. *)
Record ProfileRow := {
  p_id : string;
  p_is_admin : option bool }.

Inductive GuardState := loading | authorized.

(** [router.replace(path)] *)
Inductive Effect := Replace (path : string).

(** [profile?.is_admin] read for truthiness. *)
Definition isAdmin (profile : option ProfileRow) : bool :=
  match profile with
  | Some row => default false (p_is_admin row)
  | None => false
  end.

(** [checkAccess()]: [session] is the user id of the current session, if
    any; [fault] says whether the profile query fails; the result is the
    state of the hook and what it asked of the router.  The error of the
    profile query is not looked at, only its data. *)
Definition checkAccess (session : option string) (profiles : list ProfileRow)
    (fault : option string) (pathname : string) (isMounted : bool)
    : GuardState * list Effect :=
  let toLogin := if bool_decide (pathname <> "/login") then [Replace "/login"] else [] in
  match session with
  | None => (loading, toLogin)
  | Some userId =>
      let profile :=
        match fault with
        | Some _ => None
        | None =>
            match maybeSingle (selectWhere (eqCol p_id userId) profiles) with
            | Data row => row
            | Error _ => None
            end
        end in
      if negb (isAdmin profile) then (loading, toLogin)
      else if isMounted then (authorized, [])
      else (loading, [])
  end.

(** [isAuthorized] as the pages read it. *)
Definition isAuthorized (state : GuardState) : bool :=
  match state with
  | authorized => true
  | loading => false
  end.

(** The session belongs to a user whose profile is read without failure
    as exactly one row, and the row has the flag set. *)
Definition administrator (session : option string) (profiles : list ProfileRow)
    (fault : option string) : Prop :=
  fault = None /\
  exists userId row,
    session = Some userId /\
    selectWhere (eqCol p_id userId) profiles = [row] /\
    p_is_admin row = Some true.

End AdminGuard.

(** ** One submission (tests/[slug]/submissions/[submissionId]) *)

Module SubmissionDetailsPage.

Inductive Stmt :=
| SelectTest
| SelectSubmission
| SelectAnswers
| SelectQuestions
| SelectOptions.

Record Loaded := {
  submission : SubmissionRow;
  answers : list AnswerRow;
  questions : list QuestionRow;
  options : list OptionRow }.

(** The rows of
    [from('submissions').select('..., test_versions!inner(id, test_id)')
     .eq('id', submissionId)]: each with the version it was made on. *)
Definition submissionsById (submissionId : string) (s : Store)
    : list (SubmissionRow * VersionRow) :=
  omap (fun sub =>
          match selectWhere (eqCol v_id (s_test_version_id sub)) (test_versions s) with
          | v :: _ => Some (sub, v)
          | [] => None
          end)
       (selectWhere (eqCol s_id submissionId) (Db.submissions s)).

Definition FOREIGN_SUBMISSION : string := "Прохождение не принадлежит указанному тесту.".

(** [load()] of the effect, for non-empty [slug] and [submissionId]. *)
Definition load (faults : Faults Stmt) (slug submissionId : string) : M Stmt Loaded :=
  let* testResp := exec faults SelectTest (fun s => (testBySlug slug s, s)) in
  let* testData := orThrow testResp in
  let* submissionResp := exec faults SelectSubmission
    (fun s => (single (submissionsById submissionId s), s)) in
  let* submissionData := orThrow submissionResp in
  if negb (bool_decide (v_test_id submissionData.2 = t_id testData))
  then throw (JsError FOREIGN_SUBMISSION)
  else
    let versionId := s_test_version_id submissionData.1 in
    let* answersResp := exec faults SelectAnswers
      (fun s => (Data (selectWhere (eqCol a_submission_id (s_id submissionData.1))
                                   (Db.answers s)), s)) in
    let* answersData := orThrow answersResp in
    let* questionsResp := exec faults SelectQuestions
      (fun s => (Data (orderBy (TestStatsPage.byOrdAsc q_ord)
                   (selectWhere (eqCol q_test_version_id versionId) (Db.questions s))), s)) in
    let* questionsData := orThrow questionsResp in
    let singleQuestionIds :=
      q_id <$> filter (fun q => TestStatsPage.isSingle q = true) questionsData in
    let* optionsData :=
      match singleQuestionIds with
      | [] => ret []
      | _ :: _ =>
          let* optionsResp := exec faults SelectOptions
            (fun s => (Data (orderBy (TestStatsPage.byOrdAsc o_ord)
                         (selectWhere (inCol o_question_id singleQuestionIds) (Db.options s))), s)) in
          orThrow optionsResp
      end in
    ret {| submission := submissionData.1; answers := answersData;
           questions := questionsData; options := optionsData |}.

(** [optionById] and [answersByQuestion]: a later row replaces an earlier
    one under the same key. *)
Definition optionById (options : list OptionRow) : gmap string OptionRow :=
  foldl (fun (m : gmap string OptionRow) option => <[o_id option := option]> m) ∅ options.

Definition answersByQuestion (answers : list AnswerRow) : gmap string AnswerRow :=
  foldl (fun (m : gmap string AnswerRow) answer => <[a_question_id answer := answer]> m)
        ∅ answers.

Definition DASH : string := "—".

(** The text shown under one question. *)
Definition valueOf (loaded : Loaded) (question : QuestionRow) : string :=
  let answer := answersByQuestion (answers loaded) !! q_id question in
  match q_kind question, answer with
  | SINGLE, Some a =>
      if Js.truthy_opt (a_option_id a)
      then
        match a_option_id a ≫= (fun optionId => optionById (options loaded) !! optionId) with
        | Some option => o_text option
        | None => DASH
        end
      else DASH
  | TEXT, Some a =>
      if Js.truthy_opt (a_free_text a) then default DASH (a_free_text a) else DASH
  | _, None => DASH
  end.

(** The body of the page: nothing when there is no answer at all,
    otherwise one entry per question with its number, its text and the
    value shown. *)
Definition entries (loaded : Loaded) : option (list (Z * string * string)) :=
  match answers loaded with
  | [] => None
  | _ :: _ =>
      Some (imap (fun index question =>
                    (default (Z.of_nat index + 1) (q_ord question),
                     q_text question, valueOf loaded question))
                 (questions loaded))
  end.

End SubmissionDetailsPage.

(** ** A small store used to run the definitions *)

Module Sample.

Definition quiz : TestRow :=
  {| t_id := "t1"; t_slug := "quiz-k3x9ab"; t_title := "Quiz"; t_description := None |}.
Definition poll : TestRow :=
  {| t_id := "t2"; t_slug := "poll-zz81qa"; t_title := "Poll"; t_description := Some "Weekly" |}.

(** [v1] is published, [v2] is a later draft of the same test. *)
Definition v1 : VersionRow :=
  {| v_id := "v1"; v_test_id := "t1"; v_version := Some 1; v_published_at := Some 1700000000000 |}.
Definition v2 : VersionRow :=
  {| v_id := "v2"; v_test_id := "t1"; v_version := Some 2; v_published_at := None |}.
Definition v3 : VersionRow :=
  {| v_id := "v3"; v_test_id := "t2"; v_version := Some 1; v_published_at := Some 1690000000000 |}.

Definition q1 : QuestionRow :=
  {| q_id := "q1"; q_test_version_id := "v1"; q_kind := SINGLE; q_text := "Ready?"; q_ord := Some 1 |}.
Definition q2 : QuestionRow :=
  {| q_id := "q2"; q_test_version_id := "v1"; q_kind := TEXT; q_text := "Why?"; q_ord := Some 2 |}.
Definition q3 : QuestionRow :=
  {| q_id := "q3"; q_test_version_id := "v3"; q_kind := SINGLE; q_text := "Again?"; q_ord := Some 1 |}.

Definition oYes : OptionRow :=
  {| o_id := "o1"; o_question_id := "q1"; o_text := "Yes"; o_ord := Some 1 |}.
Definition oNo : OptionRow :=
  {| o_id := "o2"; o_question_id := "q1"; o_text := "No"; o_ord := Some 2 |}.
Definition oMaybe : OptionRow :=
  {| o_id := "o3"; o_question_id := "q1"; o_text := "Maybe"; o_ord := Some 3 |}.
Definition oAgain : OptionRow :=
  {| o_id := "o4"; o_question_id := "q3"; o_text := "Sure"; o_ord := Some 1 |}.
Definition oNever : OptionRow :=
  {| o_id := "o5"; o_question_id := "q3"; o_text := "Never"; o_ord := Some 2 |}.

Definition link1 : LinkRow :=
  {| l_id := "l1"; l_test_version_id := "v1"; l_public_id := "pub1"; l_is_active := true |}.
(** The link of the poll is switched off. *)
Definition link3 : LinkRow :=
  {| l_id := "l3"; l_test_version_id := "v3"; l_public_id := "pub3"; l_is_active := false |}.

Definition at_ (text : string) (t : Z) : Timestamp := {| iso := text; time := t |}.

Definition ann : SubmissionRow :=
  {| s_id := "s1"; s_test_version_id := "v1"; s_participant := "Ann";
     s_created_at := at_ "2024-01-15T09:00:00+00:00" 1705309200000 |}.
Definition bob : SubmissionRow :=
  {| s_id := "s2"; s_test_version_id := "v1"; s_participant := "Bob";
     s_created_at := at_ "2024-01-15T10:30:00+00:00" 1705314600000 |}.
Definition cy : SubmissionRow :=
  {| s_id := "s3"; s_test_version_id := "v1"; s_participant := "Cy";
     s_created_at := at_ "2024-01-16T08:00:00+00:00" 1705392000000 |}.
Definition dee : SubmissionRow :=
  {| s_id := "s4"; s_test_version_id := "v3"; s_participant := "Dee";
     s_created_at := at_ "2023-08-01T12:00:00+00:00" 1690891200000 |}.

Definition choice (sub q o : string) : AnswerRow :=
  {| a_submission_id := sub; a_question_id := q; a_option_id := Some o; a_free_text := None |}.
Definition words (sub q t : string) : AnswerRow :=
  {| a_submission_id := sub; a_question_id := q; a_option_id := None; a_free_text := Some t |}.

Definition store : Store :=
  {| tests := [quiz; poll];
     test_versions := [v1; v2; v3];
     questions := [q1; q2; q3];
     options := [oYes; oNo; oMaybe; oAgain; oNever];
     test_links := [link1; link3];
     submissions := [ann; bob; cy; dee];
     answers := [choice "s1" "q1" "o1"; words "s1" "q2" "because";
                 choice "s2" "q1" "o1"; words "s2" "q2" "why not";
                 choice "s3" "q1" "o2"; words "s3" "q2" "no time";
                 choice "s4" "q3" "o4"] |}.

(** The statements the deletion of [quiz] issues on [store]. *)
Definition quizLog : list Dashboard.Stmt :=
  [Dashboard.SelectVersionIds "t1";
   Dashboard.SelectSubmissionIds ["v1"; "v2"];
   Dashboard.DeleteAnswers ["s1"; "s2"; "s3"];
   Dashboard.DeleteSubmissions ["s1"; "s2"; "s3"];
   Dashboard.SelectQuestionIds ["v1"; "v2"];
   Dashboard.DeleteOptions ["q1"; "q2"];
   Dashboard.DeleteQuestions ["q1"; "q2"];
   Dashboard.DeleteLinks ["v1"; "v2"];
   Dashboard.DeleteVersions ["v1"; "v2"];
   Dashboard.DeleteTest "t1"].

(** What is left of [store] without [quiz]. *)
Definition storeWithoutQuiz : Store :=
  {| tests := [poll];
     test_versions := [v3];
     questions := [q3];
     options := [oAgain; oNever];
     test_links := [link3];
     submissions := [dee];
     answers := [choice "s4" "q3" "o4"] |}.

(** The store before anybody answered [poll], and the statements its
    deletion issues there: no submission, so no delete for answers or
    submissions. *)
Definition quietStore : Store :=
  set_answers (set_submissions store [ann; bob; cy])
    [choice "s1" "q1" "o1"; words "s1" "q2" "because";
     choice "s2" "q1" "o1"; words "s2" "q2" "why not";
     choice "s3" "q1" "o2"; words "s3" "q2" "no time"].
Definition pollLog : list Dashboard.Stmt :=
  [Dashboard.SelectVersionIds "t2";
   Dashboard.SelectSubmissionIds ["v3"];
   Dashboard.SelectQuestionIds ["v3"];
   Dashboard.DeleteOptions ["q3"];
   Dashboard.DeleteQuestions ["q3"];
   Dashboard.DeleteLinks ["v3"];
   Dashboard.DeleteVersions ["v3"];
   Dashboard.DeleteTest "t2"].
Definition quietStoreWithoutPoll : Store :=
  {| tests := [quiz];
     test_versions := [v1; v2];
     questions := [q1; q2];
     options := [oYes; oNo; oMaybe];
     test_links := [link1];
     submissions := [ann; bob; cy];
     answers := answers quietStore |}.

(** A test whose creation stopped before its version was written. *)
Definition stub : TestRow :=
  {| t_id := "t3"; t_slug := "stub-aa11bb"; t_title := "Stub"; t_description := None |}.
Definition storeWithStub : Store := set_tests store [quiz; poll; stub].

(** The share view of [quiz], visited when the store has no link for
    [v1] yet and then once more. *)
Definition baseUrl : string := "https://kid.example".
Definition storeNoLink : Store := set_test_links store [link3].
Definition link9 : LinkRow := TestLinkPage.newLink ("l9", "pub9") "v1".
Definition storeLinked : Store := set_test_links store [link3; link9].
Definition shareView : TestLinkPage.View :=
  {| TestLinkPage.test := quiz; TestLinkPage.testVersion := v1;
     TestLinkPage.link := link9; TestLinkPage.qrUrl := "https://kid.example/t/pub9" |}.
Definition firstVisitLog : list TestLinkPage.Stmt :=
  [TestLinkPage.SelectTest; TestLinkPage.SelectVersion; TestLinkPage.SelectLink;
   TestLinkPage.InsertLink; TestLinkPage.EncodeQr].
Definition secondVisitLog : list TestLinkPage.Stmt :=
  [TestLinkPage.SelectTest; TestLinkPage.SelectVersion; TestLinkPage.SelectLink;
   TestLinkPage.EncodeQr].

(** The store after two share views of [quiz] were opened at the same
    time on a version without link: each found none and inserted its
    own. *)
Definition link1b : LinkRow :=
  {| l_id := "l2"; l_test_version_id := "v1"; l_public_id := "pub2"; l_is_active := true |}.
Definition storeTwoLinks : Store := set_test_links store [link1; link1b; link3].
Definition link10 : LinkRow := TestLinkPage.newLink ("l10", "pub10") "v1".

(** Two stores as an anonymous visitor of [pub3] may meet them: in
    [store] the link exists and is switched off, in [storeNoLink3] there
    is no such link at all. *)
Definition storeNoLink3 : Store := set_test_links store [link1].

(** The form the visitor of [pub1] is shown. *)
Definition formReady : PublicTestPage.Question :=
  {| PublicTestPage.id := "q1"; PublicTestPage.kind := SINGLE;
     PublicTestPage.text := "Ready?"; PublicTestPage.ord := Some 1;
     PublicTestPage.options := Some [oYes; oNo; oMaybe] |}.
Definition formWhy : PublicTestPage.Question :=
  {| PublicTestPage.id := "q2"; PublicTestPage.kind := TEXT;
     PublicTestPage.text := "Why?"; PublicTestPage.ord := Some 2;
     PublicTestPage.options := None |}.
Definition quizForm : list PublicTestPage.Question := [formReady; formWhy].

(** A participant who wrote the free text and left the choice of
    [q1] open. *)
Definition eveState : PublicTestPage.State :=
  {| PublicTestPage.isLoading := false; PublicTestPage.loadError := None;
     PublicTestPage.testTitle := "Quiz"; PublicTestPage.testDescription := None;
     PublicTestPage.testVersionId := Some "v1"; PublicTestPage.questions := quizForm;
     PublicTestPage.participant := " Eve ";
     PublicTestPage.answersState := {[ "q2" := "because" ]} |}.

(** An option of [q1] added without a position: the store lists it
    after the others, and both the form and the chart put it first. *)
Definition oLater : OptionRow :=
  {| o_id := "o9"; o_question_id := "q1"; o_text := "Later"; o_ord := None |}.
Definition storeLater : Store :=
  set_options store [oYes; oNo; oMaybe; oAgain; oNever; oLater].
Definition formReadyLater : PublicTestPage.Question :=
  {| PublicTestPage.id := "q1"; PublicTestPage.kind := SINGLE;
     PublicTestPage.text := "Ready?"; PublicTestPage.ord := Some 1;
     PublicTestPage.options := Some [oYes; oNo; oMaybe; oLater] |}.
Definition eveStateLater : PublicTestPage.State :=
  {| PublicTestPage.isLoading := false; PublicTestPage.loadError := None;
     PublicTestPage.testTitle := "Quiz"; PublicTestPage.testDescription := None;
     PublicTestPage.testVersionId := Some "v1";
     PublicTestPage.questions := [formReadyLater; formWhy];
     PublicTestPage.participant := " Eve ";
     PublicTestPage.answersState := {[ "q2" := "because" ]} |}.

Definition eveTime : Timestamp := at_ "2024-01-17T07:00:00+00:00" 1705474800000.

(** A browser five hours west of UTC, the day 2024-01-15 (number 19737)
    in the date input, and a submission made on that local day at
    23:59:59. *)
Definition newYork : Z := -300.
Definition jan15 : Z := 19737.
Definition lateJan15 : SubmissionRow :=
  {| s_id := "s7"; s_test_version_id := "v1"; s_participant := "Flo";
     s_created_at := at_ "2024-01-16T04:59:59+00:00" 1705381199000 |}.


(** A participant whose name holds a double quote. *)
Definition john : SubmissionRow :=
  {| s_id := "s8"; s_test_version_id := "v1";
     s_participant := "Jo" +:+ String TestStatsPage.dquote "hn";
     s_created_at := at_ "2024-01-15T11:00:00+00:00" 1705316400000 |}.

(** An authoring form with three questions. *)
Definition draftReady : CreateTestPage.QuestionForm :=
  {| CreateTestPage.id := "a"; CreateTestPage.text := " Ready? ";
     CreateTestPage.kind := SINGLE; CreateTestPage.options := ["Yes"; " No "] |}.
Definition draftWhy : CreateTestPage.QuestionForm :=
  {| CreateTestPage.id := "b"; CreateTestPage.text := "Why?";
     CreateTestPage.kind := TEXT; CreateTestPage.options := [] |}.
Definition draftAgain : CreateTestPage.QuestionForm :=
  {| CreateTestPage.id := "c"; CreateTestPage.text := "Again?";
     CreateTestPage.kind := SINGLE; CreateTestPage.options := ["Sure"; "Never"] |}.
Definition draft : list CreateTestPage.QuestionForm := [draftReady; draftWhy; draftAgain].

(** The ids the store hands out when [draft] is submitted. *)
Definition draftIds : CreateTestPage.Fresh :=
  {| CreateTestPage.shortId := "k3x9ab"; CreateTestPage.testId := "t9";
     CreateTestPage.versionId := "v9";
     CreateTestPage.questionId :=
       (fun n => match n with 0 => "q7" | 1 => "q8" | _ => "q9" end%nat);
     CreateTestPage.optionId :=
       (fun n => match n with 0 => "o6" | 1 => "o7" | 2 => "o8" | _ => "o9" end%nat) |}.

End Sample.

(** * Properties *)

(** ** Appending strings *)


Lemma string_app_assoc (a b c : string) : (a +:+ b) +:+ c = a +:+ (b +:+ c).
Proof.
  induction a as [|ch a IH]; [done|].
  change (String ch ((a +:+ b) +:+ c) = String ch (a +:+ (b +:+ c))). by rewrite IH.
Qed.

Lemma string_app_nil_r (a : string) : a +:+ EmptyString = a.
Proof.
  induction a as [|ch a IH]; [done|].
  change (String ch (a +:+ EmptyString) = String ch a). by rewrite IH.
Qed.

Lemma string_app_nil_l (a : string) : EmptyString +:+ a = a.
Proof. reflexivity. Qed.

Lemma string_app_cons (c : ascii) (a b : string) : String c a +:+ b = String c (a +:+ b).
Proof. reflexivity. Qed.

(** ** Rows, selections and deletions *)

Lemma deleteWhere_spec {R : Type} (p : R -> bool) (rows : list R) (r : R) :
  r ∈ deleteWhere p rows <-> r ∈ rows /\ p r = false.
Proof.
  unfold deleteWhere. rewrite list_elem_of_filter.
  destruct (p r); simpl; intuition congruence.
Qed.

Lemma selectWhere_spec {R : Type} (p : R -> bool) (rows : list R) (r : R) :
  r ∈ selectWhere p rows <-> r ∈ rows /\ p r = true.
Proof. unfold selectWhere. rewrite list_elem_of_filter. intuition. Qed.

Lemma selectWhere_none {R : Type} (p : R -> bool) (rows : list R) :
  (forall r, r ∈ rows -> p r = false) -> selectWhere p rows = [].
Proof.
  intros H. destruct (selectWhere p rows) as [|r rest] eqn:E; [done|].
  assert (r ∈ selectWhere p rows) as Hr by (rewrite E; left).
  apply selectWhere_spec in Hr as [Hin Hp]. rewrite H in Hp; done.
Qed.

Lemma selectWhere_inCol_nil {R : Type} (col : R -> string) (rows : list R) :
  selectWhere (inCol col []) rows = [].
Proof.
  apply selectWhere_none. intros r _. unfold inCol.
  apply bool_decide_eq_false_2, not_elem_of_nil.
Qed.

Lemma deleteWhere_inCol_nil {R : Type} (col : R -> string) (rows : list R) :
  deleteWhere (inCol col []) rows = rows.
Proof.
  induction rows as [|r rows IH]; [done|].
  unfold deleteWhere in *. rewrite filter_cons, IH.
  unfold inCol. rewrite bool_decide_eq_false_2 by apply not_elem_of_nil.
  by case_decide.
Qed.

Lemma inCol_ids {R : Type} (col : R -> string) (p : R -> bool) (rows : list R) (r : R) :
  r ∈ rows -> p r = true -> inCol col (col <$> selectWhere p rows) r = true.
Proof.
  intros Hin Hp. unfold inCol. apply bool_decide_eq_true_2.
  apply list_elem_of_fmap_2. by apply selectWhere_spec.
Qed.

(** ** The model of [Array.prototype.sort] *)

Section SortBy.
Context {A : Type} (cmp : A -> A -> Z).

Lemma insert_by_perm (x : A) (l : list A) : Js.insert_by cmp x l ≡ₚ x :: l.
Proof.
  induction l as [|y l IH]; simpl; [done|].
  case_decide; [done|]. rewrite IH. apply Permutation_swap.
Qed.

Lemma sort_by_perm (l : list A) : Js.sort_by cmp l ≡ₚ l.
Proof.
  induction l as [|x l IH]; simpl; [done|].
  by rewrite insert_by_perm, IH.
Qed.

Lemma sort_by_elem_of (x : A) (l : list A) : x ∈ Js.sort_by cmp l <-> x ∈ l.
Proof. by rewrite sort_by_perm. Qed.

Lemma sort_by_length (l : list A) : length (Js.sort_by cmp l) = length l.
Proof. by rewrite sort_by_perm. Qed.

Lemma sort_by_nonempty (l : list A) :
  l <> [] -> exists x rest, Js.sort_by cmp l = x :: rest.
Proof.
  intros Hl. destruct (Js.sort_by cmp l) as [|x rest] eqn:Hs; [|eauto].
  apply (f_equal length) in Hs. rewrite sort_by_length in Hs. by destruct l.
Qed.

(** For a comparator that is a total preorder the result is sorted. *)
Hypothesis before_total : forall x y, Js.before cmp x y \/ Js.before cmp y x.
Hypothesis before_trans :
  forall x y z, Js.before cmp x y -> Js.before cmp y z -> Js.before cmp x z.

Lemma insert_by_sorted (x : A) (l : list A) :
  StronglySorted (Js.before cmp) l -> StronglySorted (Js.before cmp) (Js.insert_by cmp x l).
Proof.
  induction 1 as [|y l Hl IH Hy]; simpl.
  - repeat constructor.
  - case_decide as Hxy.
    + constructor; [by constructor|].
      constructor; [done|].
      eapply Forall_impl; [exact Hy|]. intros z Hz. by eapply before_trans.
    + constructor; [done|].
      rewrite insert_by_perm. constructor; [|done].
      by destruct (before_total x y).
Qed.

Lemma sort_by_sorted (l : list A) : StronglySorted (Js.before cmp) (Js.sort_by cmp l).
Proof.
  induction l as [|x l IH]; simpl; [constructor|].
  by apply insert_by_sorted.
Qed.

(** The head of the sorted list is a member that may stand in front of
    every member. *)
Lemma sort_by_head (x : A) (rest l : list A) :
  Js.sort_by cmp l = x :: rest -> x ∈ l /\ forall y, y ∈ l -> Js.before cmp x y.
Proof.
  intros Hs. split.
  - apply sort_by_elem_of. rewrite Hs. left.
  - intros y Hy. apply sort_by_elem_of in Hy. rewrite Hs in Hy.
    pose proof (sort_by_sorted l) as Hsorted. rewrite Hs in Hsorted.
    apply StronglySorted_inv in Hsorted as [_ Hall].
    apply elem_of_cons in Hy as [->|Hy].
    + by destruct (before_total x x).
    + by eapply Forall_forall in Hall.
Qed.

End SortBy.

Lemma StronglySorted_weaken {A : Type} (R R' : A -> A -> Prop) (l : list A) :
  (forall x y, R x y -> R' x y) -> StronglySorted R l -> StronglySorted R' l.
Proof.
  intros HR. induction 1 as [|x l Hl IH Hx]; constructor; [done|].
  eapply Forall_impl; eauto.
Qed.

(** ** Cascade deletion *)

Section Cascade.
Import Dashboard.

Ltac awaited H st := destruct st eqn:?; simpl in H; [discriminate|].

(** A run that reports success has issued exactly the cascade and left
    the store without the test and its rows. *)
Lemma handleDeleteTest_success faults test s s' log :
  handleDeleteTest true faults test s = (Deleted, s', log) ->
  s' = afterCascade s (t_id test) /\
  filter (fun st => isDelete st = true) log = cascadeDeletes s (t_id test).
Proof.
  intros H.
  unfold handleDeleteTest, deleteCascade, await, bind, exec, orThrow, ret, throw in H.
  simpl in H.
  unfold afterCascade, cascadeDeletes.
  fold (versionIdsOf s (t_id test)) in H.
  awaited H (faults (SelectVersionIds (t_id test))).
  destruct (versionIdsOf s (t_id test)) as [|v vids] eqn:Hv; simpl in H.
  - awaited H (faults (DeleteTest (t_id test))).
    injection H as <- <-.
    unfold submissionIdsOf, questionIdsOf.
    rewrite !selectWhere_inCol_nil. simpl. rewrite !deleteWhere_inCol_nil.
    by destruct s.
  - awaited H (faults (SelectSubmissionIds (v :: vids))).
    fold (submissionIdsOf s (v :: vids)) in H.
    fold (questionIdsOf s (v :: vids)) in H.
    destruct (submissionIdsOf s (v :: vids)) as [|sb sids] eqn:Hs; simpl in H.
    + awaited H (faults (SelectQuestionIds (v :: vids))).
      fold (questionIdsOf s (v :: vids)) in H.
      destruct (questionIdsOf s (v :: vids)) as [|q qids] eqn:Hq; simpl in H.
      * awaited H (faults (DeleteLinks (v :: vids))).
        awaited H (faults (DeleteVersions (v :: vids))).
        awaited H (faults (DeleteTest (t_id test))).
        injection H as <- <-. by rewrite !deleteWhere_inCol_nil.
      * awaited H (faults (DeleteOptions (q :: qids))).
        awaited H (faults (DeleteQuestions (q :: qids))).
        awaited H (faults (DeleteLinks (v :: vids))).
        awaited H (faults (DeleteVersions (v :: vids))).
        awaited H (faults (DeleteTest (t_id test))).
        injection H as <- <-. by rewrite !deleteWhere_inCol_nil.
    + awaited H (faults (DeleteAnswers (sb :: sids))).
      awaited H (faults (DeleteSubmissions (sb :: sids))).
      awaited H (faults (SelectQuestionIds (v :: vids))).
      fold (questionIdsOf s (v :: vids)) in H.
      destruct (questionIdsOf s (v :: vids)) as [|q qids] eqn:Hq; simpl in H.
      * awaited H (faults (DeleteLinks (v :: vids))).
        awaited H (faults (DeleteVersions (v :: vids))).
        awaited H (faults (DeleteTest (t_id test))).
        injection H as <- <-. by rewrite !deleteWhere_inCol_nil.
      * awaited H (faults (DeleteOptions (q :: qids))).
        awaited H (faults (DeleteQuestions (q :: qids))).
        awaited H (faults (DeleteLinks (v :: vids))).
        awaited H (faults (DeleteVersions (v :: vids))).
        awaited H (faults (DeleteTest (t_id test))).
        by injection H as <- <-.
Qed.

(** When no statement fails the run reports success: an empty id set
    is passed over, it is not an error. *)
Lemma handleDeleteTest_noFaults test s :
  exists s' log, handleDeleteTest true noFaults test s = (Deleted, s', log).
Proof.
  unfold handleDeleteTest, deleteCascade, await, bind, exec, orThrow, ret, throw, noFaults.
  simpl.
  repeat (match goal with |- context [nonEmpty ?l] => destruct l; simpl end).
  all: eauto.
Qed.

(** Without the operator's confirmation nothing is issued. *)
Lemma handleDeleteTest_declined faults test s :
  handleDeleteTest false faults test s = (NotConfirmed, s, []).
Proof. done. Qed.

(** What is left after the cascade refers to none of the test's rows. *)
Lemma afterCascade_absent s testId :
  let vids := versionIdsOf s testId in
  let sids := submissionIdsOf s vids in
  let qids := questionIdsOf s vids in
  let s' := afterCascade s testId in
  (forall t, t ∈ tests s' -> t_id t <> testId) /\
  (forall v, v ∈ test_versions s' -> v_test_id v <> testId /\ (v_id v ∉ vids)) /\
  (forall q, q ∈ questions s' -> (q_test_version_id q ∉ vids) /\ (q_id q ∉ qids)) /\
  (forall o, o ∈ options s' -> o_question_id o ∉ qids) /\
  (forall l, l ∈ test_links s' -> l_test_version_id l ∉ vids) /\
  (forall sb, sb ∈ submissions s' -> (s_test_version_id sb ∉ vids) /\ (s_id sb ∉ sids)) /\
  (forall a, a ∈ answers s' -> a_submission_id a ∉ sids).
Proof.
  intros vids sids qids s'. subst s'. unfold afterCascade. simpl.
  fold vids. fold sids. fold qids. unfold eqCol, inCol.
  split_and!.
  - intros t [_ H]%deleteWhere_spec. by apply bool_decide_eq_false in H.
  - intros v [Hin H]%deleteWhere_spec. apply bool_decide_eq_false in H.
    split; [|done]. intros E. apply H.
    apply list_elem_of_fmap_2, selectWhere_spec.
    split; [done|]. by apply bool_decide_eq_true_2.
  - intros q [Hin H]%deleteWhere_spec. apply bool_decide_eq_false in H.
    split; [|done]. intros E. apply H.
    apply list_elem_of_fmap_2, selectWhere_spec.
    split; [done|]. by apply bool_decide_eq_true_2.
  - intros o [_ H]%deleteWhere_spec. by apply bool_decide_eq_false in H.
  - intros l [_ H]%deleteWhere_spec. by apply bool_decide_eq_false in H.
  - intros sb [Hin H]%deleteWhere_spec. apply bool_decide_eq_false in H.
    split; [|done]. intros E. apply H.
    apply list_elem_of_fmap_2, selectWhere_spec.
    split; [done|]. by apply bool_decide_eq_true_2.
  - intros a [_ H]%deleteWhere_spec. by apply bool_decide_eq_false in H.
Qed.

End Cascade.

(** C1.  Cascade deletion.  When no statement fails, the deletion of a
    test reports success.  Every run that reports success has issued its
    deletes in the order answers, submissions, options, questions, links,
    versions, test; for a test without submissions the two deletes of
    answers and submissions are not issued, for one without questions
    those of options and questions, for one without versions those of
    links and versions.  The run has left a store in which the test is
    gone and no version, question, option, link, submission or answer of
    it remains. *)
Theorem handleDeleteTest_cascade (test : TestRow) (s : Store) :
  (exists s' log, Dashboard.handleDeleteTest true noFaults test s = (Dashboard.Deleted, s', log)) /\
  forall faults s' log,
    Dashboard.handleDeleteTest true faults test s = (Dashboard.Deleted, s', log) ->
    let vids := Dashboard.versionIdsOf s (t_id test) in
    let sids := Dashboard.submissionIdsOf s vids in
    let qids := Dashboard.questionIdsOf s vids in
    filter (fun st => Dashboard.isDelete st = true) log =
      match sids with
      | [] => []
      | _ :: _ => [Dashboard.DeleteAnswers sids; Dashboard.DeleteSubmissions sids]
      end ++
      match qids with
      | [] => []
      | _ :: _ => [Dashboard.DeleteOptions qids; Dashboard.DeleteQuestions qids]
      end ++
      match vids with
      | [] => []
      | _ :: _ => [Dashboard.DeleteLinks vids; Dashboard.DeleteVersions vids]
      end ++
      [Dashboard.DeleteTest (t_id test)] /\
    (forall t, t ∈ tests s' -> t_id t <> t_id test) /\
    (forall v, v ∈ test_versions s' -> v_test_id v <> t_id test /\ (v_id v ∉ vids)) /\
    (forall q, q ∈ questions s' -> (q_test_version_id q ∉ vids) /\ (q_id q ∉ qids)) /\
    (forall o, o ∈ options s' -> o_question_id o ∉ qids) /\
    (forall l, l ∈ test_links s' -> l_test_version_id l ∉ vids) /\
    (forall sb, sb ∈ submissions s' -> (s_test_version_id sb ∉ vids) /\ (s_id sb ∉ sids)) /\
    (forall a, a ∈ answers s' -> a_submission_id a ∉ sids).
Proof.
  split; [apply handleDeleteTest_noFaults|].
  intros faults s' log [-> Hlog]%handleDeleteTest_success.
  intros vids sids qids. split; [|apply afterCascade_absent].
  rewrite Hlog. unfold Dashboard.cascadeDeletes. fold vids. fold sids. fold qids.
  by destruct sids, qids, vids.
Qed.

(** Three deletions: a test with submissions, questions and versions; a
    test nobody answered; a test without a version. *)
Lemma handleDeleteTest_cascade_witness :
  (Dashboard.handleDeleteTest true noFaults Sample.quiz Sample.store =
     (Dashboard.Deleted, Sample.storeWithoutQuiz, Sample.quizLog) /\
   filter (fun st => Dashboard.isDelete st = true) Sample.quizLog =
     [Dashboard.DeleteAnswers ["s1"; "s2"; "s3"]; Dashboard.DeleteSubmissions ["s1"; "s2"; "s3"];
      Dashboard.DeleteOptions ["q1"; "q2"]; Dashboard.DeleteQuestions ["q1"; "q2"];
      Dashboard.DeleteLinks ["v1"; "v2"]; Dashboard.DeleteVersions ["v1"; "v2"];
      Dashboard.DeleteTest "t1"] /\
   forall a, a ∈ answers Sample.storeWithoutQuiz -> a_submission_id a ∉ ["s1"; "s2"; "s3"]) /\
  (Dashboard.handleDeleteTest true noFaults Sample.poll Sample.quietStore =
     (Dashboard.Deleted, Sample.quietStoreWithoutPoll, Sample.pollLog) /\
   filter (fun st => Dashboard.isDelete st = true) Sample.pollLog =
     [Dashboard.DeleteOptions ["q3"]; Dashboard.DeleteQuestions ["q3"];
      Dashboard.DeleteLinks ["v3"]; Dashboard.DeleteVersions ["v3"];
      Dashboard.DeleteTest "t2"]) /\
  (Dashboard.handleDeleteTest true noFaults Sample.stub Sample.storeWithStub =
     (Dashboard.Deleted, Sample.store,
      [Dashboard.SelectVersionIds "t3"; Dashboard.DeleteTest "t3"]) /\
   filter (fun st => Dashboard.isDelete st = true)
     [Dashboard.SelectVersionIds "t3"; Dashboard.DeleteTest "t3"]
   = [Dashboard.DeleteTest "t3"]).
Proof.
  split_and!.
  - reflexivity.
  - exact (proj1 (proj2 (handleDeleteTest_cascade Sample.quiz Sample.store)
                    noFaults Sample.storeWithoutQuiz Sample.quizLog eq_refl)).
  - pose proof (proj2 (handleDeleteTest_cascade Sample.quiz Sample.store)
                  noFaults Sample.storeWithoutQuiz Sample.quizLog eq_refl) as H.
    exact (proj2 (proj2 (proj2 (proj2 (proj2 (proj2 (proj2 H))))))).
  - reflexivity.
  - exact (proj1 (proj2 (handleDeleteTest_cascade Sample.poll Sample.quietStore)
                    noFaults Sample.quietStoreWithoutPoll Sample.pollLog eq_refl)).
  - reflexivity.
  - exact (proj1 (proj2 (handleDeleteTest_cascade Sample.stub Sample.storeWithStub)
                    noFaults Sample.store
                    [Dashboard.SelectVersionIds "t3"; Dashboard.DeleteTest "t3"] eq_refl)).
Defined.

(** ** The version a view resolves *)

Lemma versionOrder_total (a b : VersionRow) :
  Js.before versionOrder a b \/ Js.before versionOrder b a.
Proof.
  unfold Js.before, versionOrder, thenBy, cmpDesc.
  destruct (v_published_at a), (v_published_at b), (v_version a), (v_version b);
    repeat case_decide; lia.
Qed.

Lemma versionOrder_trans (a b c : VersionRow) :
  Js.before versionOrder a b -> Js.before versionOrder b c -> Js.before versionOrder a c.
Proof.
  unfold Js.before, versionOrder, thenBy, cmpDesc.
  destruct (v_published_at a), (v_published_at b), (v_published_at c),
    (v_version a), (v_version b), (v_version c);
    repeat case_decide; lia.
Qed.

Lemma versionsOf_spec (testId : string) (s : Store) (v : VersionRow) :
  v ∈ versionsOf testId s <-> v ∈ test_versions s /\ v_test_id v = testId.
Proof.
  unfold versionsOf. rewrite selectWhere_spec. unfold eqCol.
  by rewrite bool_decide_eq_true.
Qed.

(** [limit(1).maybeSingle()] never meets two rows: the query answers
    with the head of the ordered versions. *)
Lemma latestVersion_head (testId : string) (s : Store) :
  latestVersion testId s = Data (head (Js.sort_by versionOrder (versionsOf testId s))).
Proof.
  unfold latestVersion, orderBy.
  by destruct (Js.sort_by versionOrder (versionsOf testId s)) as [|v [|v' l]].
Qed.

Lemma latestVersion_max (testId : string) (s : Store) (v : VersionRow) :
  latestVersion testId s = Data (Some v) ->
  v ∈ versionsOf testId s /\ forall v', v' ∈ versionsOf testId s -> versionOrder v v' <= 0.
Proof.
  rewrite latestVersion_head. intros [= H].
  destruct (Js.sort_by versionOrder (versionsOf testId s)) as [|x rest] eqn:Hs; [done|].
  simpl in H. injection H as ->.
  eapply sort_by_head; eauto using versionOrder_total, versionOrder_trans.
Qed.

Lemma latestVersion_some (testId : string) (s : Store) (v0 : VersionRow) :
  v0 ∈ versionsOf testId s -> exists v, latestVersion testId s = Data (Some v).
Proof.
  intros H0. rewrite latestVersion_head.
  destruct (sort_by_nonempty versionOrder (versionsOf testId s)) as (x & rest & Hs).
  { intros E. rewrite E in H0. by apply elem_of_nil in H0. }
  rewrite Hs. eauto.
Qed.


(** What a successful [load] of the share view has done. *)
Lemma TestLinkPage_load_ok faults fresh baseUrl slug s view s' log :
  TestLinkPage.load faults fresh baseUrl slug (s, []) = (Ok view, (s', log)) ->
  testBySlug slug s = Data (TestLinkPage.test view) /\
  latestVersion (t_id (TestLinkPage.test view)) s = Data (Some (TestLinkPage.testVersion view)) /\
  TestLinkPage.qrUrl view =
    TestLinkPage.publicUrl baseUrl (l_public_id (TestLinkPage.link view)) /\
  let versionId := v_id (TestLinkPage.testVersion view) in
  ((TestLinkPage.linksOf versionId s = [TestLinkPage.link view] /\ s' = s /\
    (TestLinkPage.InsertLink ∉ log)) \/
   ((forall l, TestLinkPage.linksOf versionId s <> [l]) /\
    TestLinkPage.link view = TestLinkPage.newLink fresh versionId /\
    s' = set_test_links s (test_links s ++ [TestLinkPage.link view]) /\
    (TestLinkPage.InsertLink ∈ log))).
Proof.
  unfold TestLinkPage.load, bind, exec, orThrow, ret, throw. simpl.
  destruct (faults TestLinkPage.SelectTest); simpl; [done|].
  destruct (testBySlug slug s) as [t|e] eqn:Ht; simpl; [|done].
  destruct (faults TestLinkPage.SelectVersion); simpl; [done|].
  destruct (latestVersion (t_id t) s) as [[v|]|e] eqn:Hv; simpl; [|done|done].
  fold (TestLinkPage.linksOf (v_id v) s).
  destruct (faults TestLinkPage.SelectLink); simpl; [done|].
  destruct (TestLinkPage.linksOf (v_id v) s) as [|l [|l' ls]] eqn:Hl; simpl.
  - destruct (faults TestLinkPage.InsertLink); simpl; [done|].
    destruct (faults TestLinkPage.EncodeQr); simpl; [done|].
    intros [= <- <- <-]. simpl. do 3 (split; [done|]). right.
    split_and!; try done; [by intros ?; rewrite Hl|].
    rewrite !elem_of_cons. tauto.
  - destruct (faults TestLinkPage.EncodeQr); simpl; [done|].
    intros [= <- <- <-]. simpl. do 3 (split; [done|]). left.
    split_and!; try done.
    rewrite !not_elem_of_cons. split_and!; try discriminate. apply not_elem_of_nil.
  - destruct (faults TestLinkPage.InsertLink); simpl; [done|].
    destruct (faults TestLinkPage.EncodeQr); simpl; [done|].
    intros [= <- <- <-]. simpl. do 3 (split; [done|]). right.
    split_and!; try done; [by intros ?; rewrite Hl|].
    rewrite !elem_of_cons. tauto.
Qed.

(** What a successful [load] of the statistics view has resolved. *)
Lemma TestStatsPage_load_ok faults slug s loaded c :
  TestStatsPage.load faults slug (s, []) = (Ok loaded, c) ->
  testBySlug slug s = Data (TestStatsPage.test loaded) /\
  latestVersion (t_id (TestStatsPage.test loaded)) s =
    Data (Some (TestStatsPage.testVersion loaded)).
Proof.
  unfold TestStatsPage.load, bind, exec, orThrow, ret, throw. simpl.
  destruct (faults TestStatsPage.SelectTest); simpl; [done|].
  destruct (testBySlug slug s) as [t|e] eqn:Ht; simpl; [|done].
  destruct (faults TestStatsPage.SelectVersion); simpl; [done|].
  destruct (latestVersion (t_id t) s) as [[v|]|e] eqn:Hv; simpl; [|done|done].
  destruct (faults TestStatsPage.SelectQuestions); simpl; [done|].
  repeat match goal with
  | |- context [faults ?x] => destruct (faults x); simpl; [done|]
  | |- context [match ?l with [] => _ | _ :: _ => _ end] => destruct l; simpl
  end.
  all: by intros [= <-].
Qed.



(** ** Issuing the public link *)

Lemma linksOf_app (versionId : string) (s : Store) (rows : list LinkRow) :
  TestLinkPage.linksOf versionId (set_test_links s (test_links s ++ rows)) =
  TestLinkPage.linksOf versionId s ++ selectWhere (eqCol l_test_version_id versionId) rows.
Proof. unfold TestLinkPage.linksOf, selectWhere. simpl. apply filter_app. Qed.

Lemma linksOf_newLink (fresh : string * string) (versionId : string) :
  selectWhere (eqCol l_test_version_id versionId) [TestLinkPage.newLink fresh versionId] =
  [TestLinkPage.newLink fresh versionId].
Proof.
  unfold selectWhere. rewrite filter_cons, filter_nil. unfold eqCol. simpl.
  rewrite bool_decide_eq_true_2 by done. by case_decide.
Qed.

(** With several links of one version the link query fails with
    [PGRST116], which [load] lets through: it then inserts one more. *)
Lemma TestLinkPage_load_duplicates faults fresh baseUrl slug s view s' log l1 l2 rest :
  TestLinkPage.load faults fresh baseUrl slug (s, []) = (Ok view, (s', log)) ->
  TestLinkPage.linksOf (v_id (TestLinkPage.testVersion view)) s = l1 :: l2 :: rest ->
  test_links s' = test_links s ++ [TestLinkPage.newLink fresh (v_id (TestLinkPage.testVersion view))].
Proof.
  intros (_ & _ & _ & [(Hl & _)|(_ & Hnew & -> & _)])%TestLinkPage_load_ok Hdup.
  - simpl in Hl. rewrite Hl in Hdup. discriminate.
  - simpl. by rewrite Hnew.
Qed.

(** The share view keeps the data model's invariant: a store with at
    most one link per version has at most one link per version after a
    successful load. *)
Lemma TestLinkPage_load_keeps_one_link faults fresh baseUrl slug s view s' log :
  (forall versionId, (length (TestLinkPage.linksOf versionId s) <= 1)%nat) ->
  TestLinkPage.load faults fresh baseUrl slug (s, []) = (Ok view, (s', log)) ->
  forall versionId, (length (TestLinkPage.linksOf versionId s') <= 1)%nat.
Proof.
  intros Hinv (_ & _ & _ & Hl)%TestLinkPage_load_ok versionId. simpl in Hl.
  destruct Hl as [(_ & -> & _)|(Hno & Hnew & -> & _)]; [apply Hinv|].
  rewrite linksOf_app, length_app, Hnew.
  set (v := v_id (TestLinkPage.testVersion view)) in *.
  destruct (decide (v = versionId)) as [<-|Hne].
  - rewrite linksOf_newLink. simpl.
    specialize (Hinv v). destruct (TestLinkPage.linksOf v s) as [|l [|l' ls]] eqn:E.
    + simpl. lia.
    + by destruct (Hno l).
    + simpl in Hinv. lia.
  - rewrite selectWhere_none.
    + simpl. specialize (Hinv versionId). lia.
    + intros r ->%list_elem_of_singleton. unfold eqCol. simpl.
      by apply bool_decide_eq_false_2.
Qed.

(** Issuing the public link is idempotent on a store that holds at most
    one link for the version the share view resolves.  Two successful
    loads in a row show the same link, hence the same public_id, and the
    second one inserts nothing.  In the first, a link that exists is
    shown as it is and the store is left alone; a link is inserted,
    active, exactly when the version has none. *)
Lemma load_twice_same_public_id faults1 faults2 fresh1 fresh2 baseUrl slug
    s view1 s1 log1 view2 s2 log2 :
  TestLinkPage.load faults1 fresh1 baseUrl slug (s, []) = (Ok view1, (s1, log1)) ->
  TestLinkPage.load faults2 fresh2 baseUrl slug (s1, []) = (Ok view2, (s2, log2)) ->
  (length (TestLinkPage.linksOf (v_id (TestLinkPage.testVersion view1)) s) <= 1)%nat ->
  l_public_id (TestLinkPage.link view2) = l_public_id (TestLinkPage.link view1) /\
  TestLinkPage.link view2 = TestLinkPage.link view1 /\
  s2 = s1 /\ (TestLinkPage.InsertLink ∉ log2) /\
  match TestLinkPage.linksOf (v_id (TestLinkPage.testVersion view1)) s with
  | [] => (TestLinkPage.InsertLink ∈ log1) /\
          l_is_active (TestLinkPage.link view1) = true /\
          test_links s1 = test_links s ++ [TestLinkPage.link view1]
  | existing :: _ => (TestLinkPage.InsertLink ∉ log1) /\
                     TestLinkPage.link view1 = existing /\ s1 = s
  end.
Proof.
  intros H1 H2 Hinv.
  apply TestLinkPage_load_ok in H1 as (Ht1 & Hv1 & _ & Hl1).
  apply TestLinkPage_load_ok in H2 as (Ht2 & Hv2 & _ & Hl2).
  simpl in Hl1, Hl2.
  assert (Hsame : tests s1 = tests s /\ test_versions s1 = test_versions s).
  { by destruct Hl1 as [(_ & -> & _)|(_ & _ & -> & _)]. }
  destruct Hsame as [Hts Hvs].
  assert (TestLinkPage.test view2 = TestLinkPage.test view1) as Et.
  { unfold testBySlug in *. rewrite Hts, Ht1 in Ht2. congruence. }
  assert (TestLinkPage.testVersion view2 = TestLinkPage.testVersion view1) as Ev.
  { unfold latestVersion, versionsOf in *. rewrite Hvs, Et, Hv1 in Hv2. congruence. }
  rewrite Ev in Hl2.
  set (vid := v_id (TestLinkPage.testVersion view1)) in *.
  assert (Hone : TestLinkPage.linksOf vid s1 = [TestLinkPage.link view1]).
  { destruct Hl1 as [(Hl & -> & _)|(Hno & Hnew & -> & _)]; [done|].
    rewrite linksOf_app.
    destruct (TestLinkPage.linksOf vid s) as [|l [|l' ls]] eqn:Hl.
    - rewrite Hnew. simpl. apply linksOf_newLink.
    - by destruct (Hno l).
    - simpl in Hinv. lia. }
  destruct Hl2 as [(Hl & -> & Hlog)|(Hno & _)];
    [|by destruct (Hno (TestLinkPage.link view1))].
  rewrite Hone in Hl. injection Hl as Hl.
  do 4 (split; [by rewrite ?Hl|]).
  destruct Hl1 as [(Hl1 & -> & Hlog1)|(Hno & Hnew & -> & Hlog1)].
  - by rewrite Hl1.
  - destruct (TestLinkPage.linksOf vid s) as [|l [|l' ls]] eqn:Hl'.
    + by rewrite Hnew.
    + by destruct (Hno l).
    + simpl in Hinv. lia.
Qed.

Lemma load_twice_same_public_id_witness :
  TestLinkPage.load noFaults ("l9", "pub9") Sample.baseUrl "quiz-k3x9ab" (Sample.storeNoLink, [])
    = (Ok Sample.shareView, (Sample.storeLinked, Sample.firstVisitLog)) /\
  TestLinkPage.load noFaults ("l10", "pub10") Sample.baseUrl "quiz-k3x9ab" (Sample.storeLinked, [])
    = (Ok Sample.shareView, (Sample.storeLinked, Sample.secondVisitLog)) /\
  l_public_id (TestLinkPage.link Sample.shareView) = "pub9" /\
  (TestLinkPage.InsertLink ∉ Sample.secondVisitLog) /\
  (TestLinkPage.InsertLink ∈ Sample.firstVisitLog).
Proof.
  split; [reflexivity|]. split; [reflexivity|]. split; [reflexivity|].
  pose proof (load_twice_same_public_id noFaults noFaults ("l9", "pub9") ("l10", "pub10")
                Sample.baseUrl "quiz-k3x9ab" Sample.storeNoLink
                Sample.shareView Sample.storeLinked Sample.firstVisitLog
                Sample.shareView Sample.storeLinked Sample.secondVisitLog
                eq_refl eq_refl (le_S 0 0 (le_n 0))) as H.
  split; [exact (proj1 (proj2 (proj2 (proj2 H))))|].
  exact (proj1 (proj2 (proj2 (proj2 (proj2 H))))).
Defined.

(** C2.  Issuing the public link on a store that holds two links for the
    version of the test.  The link query asks for at most one row and
    fails with [PGRST116]; [load] lets this failure through with no link
    in hand and inserts: the share view shows a third link with a new
    public_id, and the next visit a fourth one with yet another.  The
    claim asks for the public_id of the existing link and for no
    insert. *)
Theorem load_with_two_links_inserts_again :
  TestLinkPage.linksOf "v1" Sample.storeTwoLinks = [Sample.link1; Sample.link1b] /\
  TestLinkPage.load noFaults ("l9", "pub9") Sample.baseUrl "quiz-k3x9ab"
    (Sample.storeTwoLinks, [])
  = (Ok Sample.shareView,
     (set_test_links Sample.store [Sample.link1; Sample.link1b; Sample.link3; Sample.link9],
      Sample.firstVisitLog)) /\
  TestLinkPage.load noFaults ("l10", "pub10") Sample.baseUrl "quiz-k3x9ab"
    (set_test_links Sample.store [Sample.link1; Sample.link1b; Sample.link3; Sample.link9], [])
  = (Ok {| TestLinkPage.test := Sample.quiz; TestLinkPage.testVersion := Sample.v1;
           TestLinkPage.link := Sample.link10;
           TestLinkPage.qrUrl := "https://kid.example/t/pub10" |},
     (set_test_links Sample.store
        [Sample.link1; Sample.link1b; Sample.link3; Sample.link9; Sample.link10],
      Sample.firstVisitLog)) /\
  (TestLinkPage.InsertLink ∈ Sample.firstVisitLog) /\
  l_public_id Sample.link9 <> l_public_id Sample.link10 /\
  (l_public_id Sample.link9 ∉ l_public_id <$> [Sample.link1; Sample.link1b]).
Proof.
  split_and!; try reflexivity.
  - unfold Sample.firstVisitLog. rewrite !elem_of_cons. auto.
  - discriminate.
  - simpl. rewrite !not_elem_of_cons. split_and!; try discriminate. apply not_elem_of_nil.
Qed.

(** ** The anonymous page *)

Lemma activeLinks_none (publicId : string) (s : Store) :
  PublicTestPage.noActiveLink publicId s -> PublicTestPage.activeLinks publicId s = [].
Proof.
  intros Hno. unfold PublicTestPage.activeLinks.
  rewrite selectWhere_none; [done|].
  intros l Hl. unfold eqCol. case_bool_decide as Hp; [|done]. simpl. by apply Hno.
Qed.

Lemma fetch_none faults (publicId : string) (s : Store) :
  PublicTestPage.noActiveLink publicId s ->
  exists c, PublicTestPage.fetch faults publicId (s, []) =
            (Raised (JsError PublicTestPage.ERROR_MESSAGE), c).
Proof.
  intros Hno. unfold PublicTestPage.fetch, bind, exec, throw. simpl.
  rewrite (activeLinks_none _ _ Hno). simpl.
  destruct (faults PublicTestPage.SelectLink); simpl; eauto.
Qed.

(** Whatever fails while loading, a mounted page shows the one message. *)
Lemma loadEffect_failure_message faults publicId s st msg :
  PublicTestPage.render (PublicTestPage.loadEffect faults publicId true s st)
    = PublicTestPage.ErrorView msg ->
  msg = PublicTestPage.ERROR_MESSAGE.
Proof.
  unfold PublicTestPage.render.
  repeat match goal with |- context [if ?b then _ else _] => destruct b end;
    by intros [= <-].
Qed.

(** A page with an active link and a complete test shows the form. *)
Example loadEffect_sample_form :
  PublicTestPage.render
    (PublicTestPage.loadEffect noFaults (Some "pub1") true Sample.store
       PublicTestPage.initialState)
  = PublicTestPage.FormView "Quiz" None Sample.quizForm.
Proof. vm_compute. reflexivity. Qed.

(** C4.  An anonymous request by a public id for which no link row is
    active.  Whatever the statements of the store do and whatever the
    page held before, the mounted page shows ERROR_MESSAGE; the
    page of a link that does not exist and the page of a link that was
    switched off are equal. *)
Theorem public_page_generic_failure faults (publicId : option string)
    (s : Store) (st : PublicTestPage.State) :
  (forall pid, publicId = Some pid -> PublicTestPage.noActiveLink pid s) ->
  PublicTestPage.render (PublicTestPage.loadEffect faults publicId true s st)
    = PublicTestPage.ErrorView PublicTestPage.ERROR_MESSAGE /\
  forall faults' s' st',
    (forall pid, publicId = Some pid -> PublicTestPage.noActiveLink pid s') ->
    PublicTestPage.render (PublicTestPage.loadEffect faults' publicId true s' st')
    = PublicTestPage.render (PublicTestPage.loadEffect faults publicId true s st).
Proof.
  assert (H : forall f s0 st0,
            (forall pid, publicId = Some pid -> PublicTestPage.noActiveLink pid s0) ->
            PublicTestPage.render (PublicTestPage.loadEffect f publicId true s0 st0)
            = PublicTestPage.ErrorView PublicTestPage.ERROR_MESSAGE).
  { intros f s0 st0 Hno. unfold PublicTestPage.loadEffect.
    destruct publicId as [pid|]; [|done].
    destruct (Js.truthy pid); [|done]. simpl.
    by destruct (fetch_none f pid s0 (Hno pid eq_refl)) as [c ->]. }
  intros Hno. split; [by apply H|].
  intros f' s' st' Hno'. by rewrite !H.
Qed.

Lemma noActiveLink_sample_disabled : PublicTestPage.noActiveLink "pub3" Sample.store.
Proof.
  intros l Hl Hp. unfold Sample.store in Hl. simpl in Hl.
  apply elem_of_cons in Hl as [->|Hl]; [discriminate Hp|].
  apply elem_of_cons in Hl as [->|Hl]; [reflexivity|].
  by apply elem_of_nil in Hl.
Defined.

Lemma noActiveLink_sample_missing : PublicTestPage.noActiveLink "pub3" Sample.storeNoLink3.
Proof.
  intros l Hl Hp. unfold Sample.storeNoLink3 in Hl. simpl in Hl.
  apply elem_of_cons in Hl as [->|Hl]; [discriminate Hp|].
  by apply elem_of_nil in Hl.
Defined.

Lemma public_page_generic_failure_witness :
  PublicTestPage.render
    (PublicTestPage.loadEffect noFaults (Some "pub3") true Sample.store
       PublicTestPage.initialState)
  = PublicTestPage.ErrorView PublicTestPage.ERROR_MESSAGE /\
  PublicTestPage.render
    (PublicTestPage.loadEffect noFaults (Some "pub3") true Sample.storeNoLink3
       PublicTestPage.initialState)
  = PublicTestPage.render
      (PublicTestPage.loadEffect noFaults (Some "pub3") true Sample.store
         PublicTestPage.initialState).
Proof.
  pose proof (public_page_generic_failure noFaults (Some "pub3") Sample.store
                PublicTestPage.initialState) as H.
  assert (Hd : forall pid, Some "pub3" = Some pid -> PublicTestPage.noActiveLink pid Sample.store).
  { intros pid E. injection E as <-. exact noActiveLink_sample_disabled. }
  destruct (H Hd) as [H1 H2]. split; [exact H1|].
  apply H2. intros pid E. injection E as <-. exact noActiveLink_sample_missing.
Defined.

(** ** Submitting the form *)

Lemma ensureAnswer_other (m : gmap string string) (q : PublicTestPage.Question) (key : string) :
  PublicTestPage.id q <> key -> PublicTestPage.ensureAnswer m q !! key = m !! key.
Proof.
  intros Hne. unfold PublicTestPage.ensureAnswer.
  destruct (PublicTestPage.kind q); [|done].
  destruct (PublicTestPage.answered m (PublicTestPage.id q)); [done|].
  destruct (Js.sort_by _ _); [done|].
  by rewrite lookup_insert_ne.
Qed.

Lemma ensureAnswers_other (qs : list PublicTestPage.Question) (m : gmap string string)
    (key : string) :
  key ∉ PublicTestPage.id <$> qs -> PublicTestPage.ensureAnswers qs m !! key = m !! key.
Proof.
  unfold PublicTestPage.ensureAnswers. revert m.
  induction qs as [|q qs IH]; intros m Hk; simpl; [done|].
  rewrite fmap_cons, not_elem_of_cons in Hk. destruct Hk as [Hne Hk].
  rewrite IH by done. by apply ensureAnswer_other.
Qed.

(** An explicit selection is never replaced. *)
Lemma ensureAnswers_keeps (qs : list PublicTestPage.Question) (m : gmap string string)
    (key : string) :
  PublicTestPage.answered m key = true -> PublicTestPage.ensureAnswers qs m !! key = m !! key.
Proof.
  unfold PublicTestPage.ensureAnswers. revert m.
  induction qs as [|q qs IH]; intros m Hk; simpl; [done|].
  assert (Hstep : PublicTestPage.ensureAnswer m q !! key = m !! key).
  { destruct (decide (PublicTestPage.id q = key)) as [<-|Hne]; [|by apply ensureAnswer_other].
    unfold PublicTestPage.ensureAnswer. destruct (PublicTestPage.kind q); [|done].
    by rewrite Hk. }
  rewrite IH; [done|]. unfold PublicTestPage.answered in *. by rewrite Hstep.
Qed.

Lemma ensureAnswers_default (qs : list PublicTestPage.Question) (m : gmap string string)
    (q : PublicTestPage.Question) (o : OptionRow) :
  NoDup (PublicTestPage.id <$> qs) -> q ∈ qs -> PublicTestPage.kind q = SINGLE ->
  PublicTestPage.answered m (PublicTestPage.id q) = false ->
  PublicTestPage.firstOption q = Some o ->
  PublicTestPage.ensureAnswers qs m !! PublicTestPage.id q = Some (o_id o).
Proof.
  unfold PublicTestPage.ensureAnswers. revert m.
  induction qs as [|x qs IH]; intros m Hnd Hq Hk Hna Hfirst; [by apply elem_of_nil in Hq|].
  rewrite fmap_cons in Hnd. apply NoDup_cons in Hnd as [Hx Hnd].
  simpl. apply elem_of_cons in Hq as [<-|Hq].
  - fold (PublicTestPage.ensureAnswers qs (PublicTestPage.ensureAnswer m q)).
    rewrite ensureAnswers_other by done.
    unfold PublicTestPage.ensureAnswer. rewrite Hk, Hna.
    unfold PublicTestPage.firstOption in Hfirst.
    destruct (Js.sort_by _ _) as [|o' rest]; [done|]. injection Hfirst as ->.
    apply lookup_insert_eq.
  - apply IH; try done.
    unfold PublicTestPage.answered. rewrite ensureAnswer_other; [done|].
    intros E. apply Hx. rewrite E. by apply list_elem_of_fmap_2.
Qed.

Lemma byOrdOrZero_total (a b : OptionRow) :
  Js.before TestStatsPage.byOrdOrZero a b \/ Js.before TestStatsPage.byOrdOrZero b a.
Proof. unfold Js.before, TestStatsPage.byOrdOrZero. lia. Qed.

Lemma byOrdOrZero_trans (a b c : OptionRow) :
  Js.before TestStatsPage.byOrdOrZero a b -> Js.before TestStatsPage.byOrdOrZero b c ->
  Js.before TestStatsPage.byOrdOrZero a c.
Proof. unfold Js.before, TestStatsPage.byOrdOrZero. lia. Qed.

(** The option picked is one of the question's with the least [ord]. *)
Lemma firstOption_least (q : PublicTestPage.Question) (o : OptionRow) :
  PublicTestPage.firstOption q = Some o ->
  o ∈ default [] (PublicTestPage.options q) /\
  forall o', o' ∈ default [] (PublicTestPage.options q) ->
             default 0 (o_ord o) <= default 0 (o_ord o').
Proof.
  unfold PublicTestPage.firstOption. intros H.
  destruct (Js.sort_by _ _) as [|x rest] eqn:Hs; [done|]. injection H as ->.
  destruct (sort_by_head _ byOrdOrZero_total byOrdOrZero_trans _ _ _ Hs) as [Hin Hmin].
  split; [done|]. intros o' Ho'. specialize (Hmin o' Ho').
  unfold Js.before, TestStatsPage.byOrdOrZero, Js.orZero in Hmin. lia.
Qed.

(** A question with an option has a first option. *)
Lemma firstOption_some (q : PublicTestPage.Question) :
  default [] (PublicTestPage.options q) <> [] -> is_Some (PublicTestPage.firstOption q).
Proof.
  intros H. unfold PublicTestPage.firstOption.
  destruct (sort_by_nonempty TestStatsPage.byOrdOrZero _ H) as (x & rest & ->). by eexists.
Qed.

(** A submission that ends on the confirmation page passed both checks
    on the answers with the defaults filled in, and then made its two
    writes. *)
Lemma handleSubmit_redirected faults fresh now publicId st s url ens s' log :
  PublicTestPage.handleSubmit faults fresh now publicId st s
    = (PublicTestPage.Redirected url, ens, s', log) ->
  ens = PublicTestPage.ensureAnswers (PublicTestPage.questions st)
                                     (PublicTestPage.answersState st) /\
  PublicTestPage.missingSingleChoice (PublicTestPage.questions st) ens = false /\
  PublicTestPage.missingTextAnswer (PublicTestPage.questions st) ens = false /\
  log = [PublicTestPage.InsertSubmission; PublicTestPage.InsertAnswers] /\
  answers s' = answers s ++ PublicTestPage.answersPayload fresh (PublicTestPage.questions st) ens.
Proof.
  unfold PublicTestPage.handleSubmit.
  destruct (PublicTestPage.testVersionId st) as [vid|]; [|done].
  destruct publicId as [pid|]; [|done].
  destruct (negb _); [done|].
  destruct (negb _); [done|].
  destruct (PublicTestPage.missingSingleChoice _ _) eqn:H1; [done|].
  destruct (PublicTestPage.missingTextAnswer _ _) eqn:H2; [done|].
  unfold PublicTestPage.record, bind, exec, orThrow, ret, throw. simpl.
  destruct (faults PublicTestPage.InsertSubmission); simpl; [done|].
  destruct (faults PublicTestPage.InsertAnswers); simpl; [done|].
  by intros [= _ <- <- <-].
Qed.

(** A submission that is turned away has written nothing. *)
Lemma handleSubmit_rejected_no_write faults fresh now publicId st s out ens s' :
  PublicTestPage.handleSubmit faults fresh now publicId st s = (out, ens, s', []) -> s' = s.
Proof.
  unfold PublicTestPage.handleSubmit.
  destruct (PublicTestPage.testVersionId st) as [vid|]; [|by intros [= _ _ <-]].
  destruct publicId as [pid|]; [|by intros [= _ _ <-]].
  destruct (negb _); [by intros [= _ _ <-]|].
  destruct (negb _); [by intros [= _ _ <-]|].
  destruct (PublicTestPage.missingSingleChoice _ _); [by intros [= _ _ <-]|].
  destruct (PublicTestPage.missingTextAnswer _ _); [by intros [= _ _ <-]|].
  unfold PublicTestPage.record, bind, exec, orThrow, ret, throw. simpl.
  destruct (faults PublicTestPage.InsertSubmission); simpl; [by intros [= ]|].
  destruct (faults PublicTestPage.InsertAnswers); simpl; by intros [= ].
Qed.

(** The first element of the sorted list stands in the list behind
    elements that come strictly after it only: among equals the sort
    keeps the order of the list. *)
Lemma sort_by_head_first {A : Type} (cmp : A -> A -> Z) (l : list A) (h : A) (rest : list A) :
  Js.sort_by cmp l = h :: rest ->
  exists front back, l = front ++ h :: back /\ forall y, y ∈ front -> 0 < cmp y h.
Proof.
  revert h rest. induction l as [|a l IH]; intros h rest; simpl; [done|].
  destruct (Js.sort_by cmp l) as [|x sorted] eqn:Es; simpl.
  - intros [= <- <-]. exists [], l. split; [done|]. by intros y ?%elem_of_nil.
  - case_decide as Hax.
    + intros [= <- <-]. exists [], l. split; [done|]. by intros y ?%elem_of_nil.
    + intros [= <- <-]. destruct (IH x sorted eq_refl) as (front & back & -> & Hfront).
      exists (a :: front), back. split; [done|].
      intros y [->|Hy]%elem_of_cons; [lia|auto].
Qed.

(** The answer of a text question is not touched by the defaulting. *)
Lemma ensureAnswers_text (qs : list PublicTestPage.Question) (m : gmap string string)
    (q : PublicTestPage.Question) :
  NoDup (PublicTestPage.id <$> qs) -> q ∈ qs -> PublicTestPage.kind q = TEXT ->
  PublicTestPage.ensureAnswers qs m !! PublicTestPage.id q = m !! PublicTestPage.id q.
Proof.
  unfold PublicTestPage.ensureAnswers. revert m.
  induction qs as [|x qs IH]; intros m Hnd Hq Hk; [by apply elem_of_nil in Hq|].
  rewrite fmap_cons in Hnd. apply NoDup_cons in Hnd as [Hx Hnd].
  simpl. apply elem_of_cons in Hq as [<-|Hq].
  - fold (PublicTestPage.ensureAnswers qs (PublicTestPage.ensureAnswer m q)).
    rewrite ensureAnswers_other by done.
    unfold PublicTestPage.ensureAnswer. by rewrite Hk.
  - rewrite IH by done. apply ensureAnswer_other.
    intros E. apply Hx. rewrite E. by apply list_elem_of_fmap_2.
Qed.

(** With every choice question answered or holding an option, and every
    text question answered, the form passes both checks on the answers
    with the defaults filled in. *)
Lemma ensureAnswers_passes (qs : list PublicTestPage.Question) (m : gmap string string) :
  NoDup (PublicTestPage.id <$> qs) ->
  (forall q, q ∈ qs -> PublicTestPage.kind q = SINGLE ->
     PublicTestPage.answered m (PublicTestPage.id q) = true \/
     (default [] (PublicTestPage.options q) <> [] /\
      forall o, o ∈ default [] (PublicTestPage.options q) -> Js.truthy (o_id o) = true)) ->
  (forall q, q ∈ qs -> PublicTestPage.kind q = TEXT ->
     Js.truthy (default EmptyString (Js.trim <$> m !! PublicTestPage.id q)) = true) ->
  PublicTestPage.missingSingleChoice qs (PublicTestPage.ensureAnswers qs m) = false /\
  PublicTestPage.missingTextAnswer qs (PublicTestPage.ensureAnswers qs m) = false.
Proof.
  intros Hnd Hsingle Htext.
  unfold PublicTestPage.missingSingleChoice, PublicTestPage.missingTextAnswer.
  split; apply not_true_is_false; intros (q & Hq%list_elem_of_In & H)%existsb_exists.
  - destruct (PublicTestPage.kind q) eqn:Hk; [|done]. apply negb_true_iff in H.
    destruct (PublicTestPage.answered m (PublicTestPage.id q)) eqn:Ha.
    + unfold PublicTestPage.answered in *. rewrite ensureAnswers_keeps in H by done.
      congruence.
    + destruct (Hsingle q Hq Hk) as [?|[Hne Hids]]; [congruence|].
      destruct (firstOption_some q Hne) as [o Ho].
      destruct (firstOption_least q o Ho) as [Hin _].
      unfold PublicTestPage.answered in H.
      rewrite (ensureAnswers_default qs m q o) in H by done. simpl in H.
      rewrite (Hids o Hin) in H. done.
  - destruct (PublicTestPage.kind q) eqn:Hk; [done|]. apply negb_true_iff in H.
    rewrite ensureAnswers_text in H by done. rewrite (Htext q Hq Hk) in H. done.
Qed.

(** C5.  Defaulting at submission.  Let [q] be a SINGLE question of the
    form that has an option and for which the participant selected
    nothing.  The defaulting picks the first of its options by [ord], an
    [ord] that is not set counting as 0: an option [o] such that the
    options in front of it in the form have a greater [ord] and those
    behind it none that is less.  The answers that are validated hold the
    id of [o] for [q], so the open question does not stop the submission:
    a form whose other questions are answered, or open with options to
    fall back on, goes through when no write fails.  A submission that
    goes through has recorded the answer of [q] with the id of [o], after
    its own submission row. *)
Theorem default_first_option faults fresh now publicId
    (st : PublicTestPage.State) (s : Store) (q : PublicTestPage.Question) :
  NoDup (PublicTestPage.id <$> PublicTestPage.questions st) ->
  q ∈ PublicTestPage.questions st -> PublicTestPage.kind q = SINGLE ->
  PublicTestPage.answered (PublicTestPage.answersState st) (PublicTestPage.id q) = false ->
  default [] (PublicTestPage.options q) <> [] ->
  exists o front back,
    default [] (PublicTestPage.options q) = front ++ o :: back /\
    (forall o', o' ∈ front -> default 0 (o_ord o) < default 0 (o_ord o')) /\
    (forall o', o' ∈ back -> default 0 (o_ord o) <= default 0 (o_ord o')) /\
    PublicTestPage.ensureAnswers (PublicTestPage.questions st) (PublicTestPage.answersState st)
      !! PublicTestPage.id q = Some (o_id o) /\
    (forall pid versionId,
       publicId = Some pid -> PublicTestPage.testVersionId st = Some versionId ->
       Js.truthy pid = true -> Js.truthy versionId = true ->
       Js.truthy (Js.trim (PublicTestPage.participant st)) = true ->
       (forall q', q' ∈ PublicTestPage.questions st -> PublicTestPage.kind q' = SINGLE ->
          PublicTestPage.answered (PublicTestPage.answersState st) (PublicTestPage.id q') = true \/
          (default [] (PublicTestPage.options q') <> [] /\
           forall o', o' ∈ default [] (PublicTestPage.options q') ->
                      Js.truthy (o_id o') = true)) ->
       (forall q', q' ∈ PublicTestPage.questions st -> PublicTestPage.kind q' = TEXT ->
          Js.truthy (default EmptyString
                       (Js.trim <$> PublicTestPage.answersState st !! PublicTestPage.id q'))
          = true) ->
       exists s',
         PublicTestPage.handleSubmit noFaults fresh now publicId st s
         = (PublicTestPage.Redirected ("/t/" +:+ pid +:+ "/done"),
            PublicTestPage.ensureAnswers (PublicTestPage.questions st)
                                         (PublicTestPage.answersState st),
            s', [PublicTestPage.InsertSubmission; PublicTestPage.InsertAnswers])) /\
    forall url ens s' log,
      PublicTestPage.handleSubmit faults fresh now publicId st s
        = (PublicTestPage.Redirected url, ens, s', log) ->
      ens !! PublicTestPage.id q = Some (o_id o) /\
      log = [PublicTestPage.InsertSubmission; PublicTestPage.InsertAnswers] /\
      {| a_submission_id := fresh; a_question_id := PublicTestPage.id q;
         a_option_id := Some (o_id o); a_free_text := None |} ∈ answers s'.
Proof.
  intros Hnd Hq Hk Hna Hne.
  destruct (firstOption_some q Hne) as [o Hfirst].
  pose proof (ensureAnswers_default _ _ _ _ Hnd Hq Hk Hna Hfirst) as He.
  unfold PublicTestPage.firstOption in Hfirst.
  destruct (Js.sort_by _ _) as [|h rest] eqn:Es; [done|]. injection Hfirst as ->.
  destruct (sort_by_head_first _ _ _ _ Es) as (front & back & E & Hfront).
  destruct (sort_by_head _ byOrdOrZero_total byOrdOrZero_trans _ _ _ Es) as [_ Hmin].
  exists o, front, back. split_and!.
  - done.
  - intros o' Ho'. specialize (Hfront o' Ho').
    unfold TestStatsPage.byOrdOrZero, Js.orZero in Hfront. lia.
  - intros o' Ho'. assert (Hin : o' ∈ default [] (PublicTestPage.options q)).
    { rewrite E. apply elem_of_app. right. by right. }
    specialize (Hmin o' Hin).
    unfold Js.before, TestStatsPage.byOrdOrZero, Js.orZero in Hmin. lia.
  - done.
  - intros pid versionId -> Hv Hpid Hvid Hp Hsingle Htext.
    destruct (ensureAnswers_passes _ _ Hnd Hsingle Htext) as [H1 H2].
    unfold PublicTestPage.handleSubmit. rewrite Hv, Hpid, Hvid, Hp. cbn [andb negb].
    rewrite H1, H2.
    unfold PublicTestPage.record, bind, exec, orThrow, ret, throw, noFaults. cbn.
    by eexists.
  - intros url ens s' log (-> & _ & _ & Hlog & Hans)%handleSubmit_redirected.
    do 2 (split; [done|]). rewrite Hans. apply elem_of_app. right.
    unfold PublicTestPage.answersPayload. apply list_elem_of_fmap. exists q. split; [|done].
    by rewrite Hk, He.
Qed.

(** The participant left [q1] open.  Its options are listed as Yes (1),
    No (2), Maybe (3) and Later, without a position: the answer recorded
    is Later, and the submission goes through. *)
Lemma default_first_option_witness :
  PublicTestPage.ensureAnswers (PublicTestPage.questions Sample.eveStateLater)
    {[ "q2" := "because" ]} !! "q1" = Some "o9" /\
  exists s',
    PublicTestPage.handleSubmit noFaults "s9" Sample.eveTime (Some "pub1")
      Sample.eveStateLater Sample.storeLater
      = (PublicTestPage.Redirected "/t/pub1/done",
         PublicTestPage.ensureAnswers (PublicTestPage.questions Sample.eveStateLater)
           {[ "q2" := "because" ]},
         s', [PublicTestPage.InsertSubmission; PublicTestPage.InsertAnswers]) /\
    Sample.choice "s9" "q1" "o9" ∈ answers s'.
Proof.
  destruct (default_first_option noFaults "s9" Sample.eveTime (Some "pub1")
              Sample.eveStateLater Sample.storeLater Sample.formReadyLater)
    as (o & front & back & E & Hfront & Hback & Hens & Hpass & Hrec).
  - apply (bool_decide_unpack _). vm_compute. exact I.
  - left.
  - reflexivity.
  - vm_compute. reflexivity.
  - discriminate.
  - assert (Hid : o_id o = "o9").
    { assert (Some (o_id o) = Some "o9") as [= ->]; [|done].
      rewrite <- Hens. vm_compute. reflexivity. }
    rewrite Hid in Hens, Hrec.
    split; [exact Hens|].
    destruct (Hpass "pub1" "v1" eq_refl eq_refl eq_refl eq_refl) as [s' Hs'].
    + vm_compute. reflexivity.
    + intros q' Hq' Hk. right.
      assert (q' = Sample.formReadyLater) as ->.
      { simpl in Hq'. rewrite !elem_of_cons in Hq'.
        destruct Hq' as [->|[->|?%elem_of_nil]]; done. }
      split; [discriminate|]. intros o'. simpl. rewrite !elem_of_cons.
      intros [->|[->|[->|[->|?%elem_of_nil]]]]; done.
    + intros q' Hq' Hk.
      assert (q' = Sample.formWhy) as ->.
      { simpl in Hq'. rewrite !elem_of_cons in Hq'.
        destruct Hq' as [->|[->|?%elem_of_nil]]; done. }
      vm_compute. reflexivity.
    + exists s'. split; [exact Hs'|]. exact (proj2 (proj2 (Hrec _ _ _ _ Hs'))).
Defined.

(** ** Charts *)

(** The answers grouped under a question are the answers of that
    question given within the filtered submissions, in order. *)
Lemma groupAnswers_acc (ids : gset string) (answers : list AnswerRow)
    (m : gmap string (list AnswerRow)) (k : string) :
  default [] (foldl (fun (m : gmap string (list AnswerRow)) answer =>
                       if decide (a_submission_id answer ∈ ids)
                       then <[a_question_id answer :=
                               default [] (m !! a_question_id answer) ++ [answer]]> m
                       else m) m answers !! k)
  = default [] (m !! k) ++
    filter (fun a => a_submission_id a ∈ ids /\ a_question_id a = k) answers.
Proof.
  revert m. induction answers as [|a answers IH]; intros m; simpl.
  - by rewrite filter_nil, app_nil_r.
  - rewrite IH, filter_cons. case_decide as Hin.
    + destruct (decide (a_question_id a = k)) as [<-|Hne].
      * rewrite lookup_insert_eq. simpl. rewrite decide_True by done.
        by rewrite <- app_assoc.
      * rewrite lookup_insert_ne by done. rewrite decide_False by tauto. done.
    + rewrite decide_False by tauto. done.
Qed.

Lemma groupAnswers_lookup (ids : gset string) (answers : list AnswerRow) (k : string) :
  default [] (TestStatsPage.groupAnswers ids answers !! k)
  = filter (fun a => a_submission_id a ∈ ids /\ a_question_id a = k) answers.
Proof. unfold TestStatsPage.groupAnswers. by rewrite groupAnswers_acc, lookup_empty. Qed.

Lemma zip_with_add_zero (counts : list nat) (zs : list nat) :
  length zs = length counts -> Forall (fun z => z = 0%nat) zs ->
  zip_with Nat.add counts zs = counts.
Proof.
  revert zs. induction counts as [|c counts IH]; intros [|z zs] Hlen Hz; try done.
  apply Forall_cons in Hz as [-> Hz]. simpl. rewrite IH by (simpl in Hlen; auto with lia).
  by rewrite Nat.add_0_r.
Qed.

Lemma countAnswer_tally (opts : list OptionRow) (counts : list nat) (a : AnswerRow) :
  NoDup (o_id <$> opts) -> length counts = length opts ->
  TestStatsPage.countAnswer opts counts a = zip_with Nat.add counts (TestStatsPage.tally a <$> opts).
Proof.
  unfold TestStatsPage.countAnswer.
  destruct (Js.truthy_opt (a_option_id a)) eqn:Ht; simpl.
  2:{ intros _ Hlen. symmetry. apply zip_with_add_zero; [by rewrite length_fmap|].
      apply Forall_fmap, Forall_forall. intros o _. unfold TestStatsPage.tally, TestStatsPage.picks. simpl.
      rewrite decide_False; [done|]. rewrite Ht. intros [? _]. done. }
  revert counts. induction opts as [|o opts IH]; intros counts Hnd Hlen.
  { destruct counts; done. }
  destruct counts as [|c counts]; [done|].
  rewrite fmap_cons in Hnd. apply NoDup_cons in Hnd as [Ho Hnd].
  simpl in Hlen. injection Hlen as Hlen. simpl.
  case_bool_decide as Hid.
  - simpl. unfold TestStatsPage.tally at 1, TestStatsPage.picks. rewrite decide_True by done.
    rewrite zip_with_add_zero; [f_equal; lia|by rewrite length_fmap|].
    apply Forall_fmap, Forall_forall. intros o' Ho'. unfold TestStatsPage.tally, TestStatsPage.picks. simpl.
    rewrite decide_False; [done|]. intros [_ E]. apply Ho.
    assert (o_id o = o_id o') as -> by congruence. by apply list_elem_of_fmap_2.
  - unfold TestStatsPage.tally at 1, TestStatsPage.picks. rewrite decide_False by (intros [_ E]; congruence).
    rewrite Nat.add_0_r. specialize (IH counts Hnd Hlen).
    destruct (Js.findIndex _ opts) as [i|]; simpl in *; by f_equal.
Qed.

Lemma countAnswer_length (opts : list OptionRow) (counts : list nat) (a : AnswerRow) :
  length (TestStatsPage.countAnswer opts counts a) = length counts.
Proof.
  unfold TestStatsPage.countAnswer. destruct (negb _); [done|].
  destruct (Js.findIndex _ _); [|done]. apply length_alter.
Qed.

Lemma foldl_countAnswer (opts : list OptionRow) (counts : list nat) (l : list AnswerRow) :
  NoDup (o_id <$> opts) -> length counts = length opts ->
  foldl (TestStatsPage.countAnswer opts) counts l
  = zip_with Nat.add counts ((fun o => length (filter (fun a => TestStatsPage.picks a o) l)) <$> opts).
Proof.
  intros Hnd. revert counts. induction l as [|a l IH]; intros counts Hlen; simpl.
  - symmetry. apply zip_with_add_zero; [by rewrite length_fmap|].
    apply Forall_fmap, Forall_forall. by intros o _.
  - rewrite IH by (by rewrite countAnswer_length).
    rewrite countAnswer_tally by done.
    clear IH. revert counts Hlen. induction opts as [|o opts IHo]; intros counts Hlen.
    { by destruct counts. }
    destruct counts as [|c counts]; [done|]. simpl in Hlen. injection Hlen as Hlen.
    rewrite fmap_cons in Hnd. apply NoDup_cons in Hnd as [_ Hnd].
    simpl. rewrite IHo by done. f_equal.
    rewrite filter_cons. unfold TestStatsPage.tally. case_decide; simpl; lia.
Qed.

Lemma optionsOf_perm (options : list OptionRow) (q : QuestionRow) :
  TestStatsPage.optionsOf options q ≡ₚ filter (fun o => o_question_id o = q_id q) options.
Proof. apply sort_by_perm. Qed.

Lemma optionsOf_NoDup (options : list OptionRow) (q : QuestionRow) :
  NoDup (o_id <$> options) -> NoDup (o_id <$> TestStatsPage.optionsOf options q).
Proof.
  intros Hnd. rewrite optionsOf_perm.
  eapply sublist_NoDup; [exact Hnd|]. apply fmap_sublist, sublist_filter.
Qed.

Lemma optionsOf_sorted (options : list OptionRow) (q : QuestionRow) :
  StronglySorted (fun a b => default 0 (o_ord a) <= default 0 (o_ord b))
                 (TestStatsPage.optionsOf options q).
Proof.
  eapply StronglySorted_weaken;
    [|apply (sort_by_sorted _ byOrdOrZero_total byOrdOrZero_trans)].
  unfold Js.before, TestStatsPage.byOrdOrZero, Js.orZero. intros; lia.
Qed.

Lemma chartFor_counts (options : list OptionRow) (answers : list AnswerRow)
    (filtered : list SubmissionRow) (q : QuestionRow) :
  NoDup (o_id <$> options) ->
  TestStatsPage.chartFor options
    (TestStatsPage.groupAnswers (list_to_set (s_id <$> filtered)) answers) q
  = {| TestStatsPage.question := q;
       TestStatsPage.labels := o_text <$> TestStatsPage.optionsOf options q;
       TestStatsPage.data :=
         TestStatsPage.countFor filtered answers q <$> TestStatsPage.optionsOf options q |}.
Proof.
  intros Hnd. unfold TestStatsPage.chartFor.
  fold (TestStatsPage.optionsOf options q). f_equal.
  rewrite groupAnswers_lookup.
  rewrite foldl_countAnswer; [|by apply optionsOf_NoDup|by rewrite length_fmap].
  set (opts := TestStatsPage.optionsOf options q).
  assert (Hz : forall (l : list OptionRow) (f : OptionRow -> nat),
             zip_with Nat.add ((fun _ => 0%nat) <$> l) (f <$> l) = f <$> l).
  { induction l as [|o l IH]; intros f; simpl; [done|]. by rewrite IH. }
  rewrite Hz. apply list_fmap_ext. intros _ o _.
  unfold TestStatsPage.countFor. f_equal.
  rewrite list_filter_filter. apply list_filter_iff. intros a.
  unfold TestStatsPage.picks, TestStatsPage.selects. rewrite elem_of_list_to_set. tauto.
Qed.

(** C6.  Bar data.  With option ids unique, the statistics view draws
    one chart per SINGLE question, in question order, and none for a TEXT
    question.  The categories of a chart are the options of its question
    in [ord] order (an [ord] that is not set counting as 0), each present
    whatever its count; the count of an option is the number of answers
    to the question that select it and belong to a filtered submission,
    so an option nobody selected counts 0 and answers of other
    submissions are not counted. *)
Theorem charts_count_by_option (questions : list QuestionRow) (options : list OptionRow)
    (answers : list AnswerRow) (filtered : list SubmissionRow) :
  NoDup (o_id <$> options) ->
  TestStatsPage.charts true questions options answers filtered
  = (fun q =>
       {| TestStatsPage.question := q;
          TestStatsPage.labels := o_text <$> TestStatsPage.optionsOf options q;
          TestStatsPage.data :=
            TestStatsPage.countFor filtered answers q <$> TestStatsPage.optionsOf options q |})
    <$> filter (fun q => q_kind q = SINGLE) questions /\
  forall q,
    TestStatsPage.optionsOf options q ≡ₚ filter (fun o => o_question_id o = q_id q) options /\
    StronglySorted (fun a b => default 0 (o_ord a) <= default 0 (o_ord b))
                   (TestStatsPage.optionsOf options q).
Proof.
  intros Hnd. split; [|intros q; split; [apply optionsOf_perm|apply optionsOf_sorted]].
  unfold TestStatsPage.charts. simpl.
  assert (Hk : filter (fun q => TestStatsPage.isSingle q = true) questions
               = filter (fun q => q_kind q = SINGLE) questions).
  { apply list_filter_iff. intros q. unfold TestStatsPage.isSingle.
    by destruct (q_kind q). }
  destruct questions as [|q0 questions]; [done|].
  rewrite Hk. apply list_fmap_ext. intros _ q _. by apply chartFor_counts.
Qed.

(** Two of the three filtered submissions chose Yes, one chose No and
    nobody Maybe or Later; the answer of the fourth submission is not
    counted.  Later, listed last without a position, is the first
    category. *)
Lemma charts_count_by_option_witness :
  TestStatsPage.charts true [Sample.q1; Sample.q2] (Db.options Sample.storeLater)
    (Db.answers Sample.storeLater) [Sample.ann; Sample.bob; Sample.cy]
  = [ {| TestStatsPage.question := Sample.q1;
         TestStatsPage.labels := ["Later"; "Yes"; "No"; "Maybe"];
         TestStatsPage.data := [0; 2; 1; 0]%nat |} ] /\
  StronglySorted (fun a b => default 0 (o_ord a) <= default 0 (o_ord b))
    (TestStatsPage.optionsOf (Db.options Sample.storeLater) Sample.q1) /\
  TestStatsPage.optionsOf (Db.options Sample.storeLater) Sample.q1
  = [Sample.oLater; Sample.oYes; Sample.oNo; Sample.oMaybe].
Proof.
  destruct (charts_count_by_option [Sample.q1; Sample.q2] (Db.options Sample.storeLater)
              (Db.answers Sample.storeLater) [Sample.ann; Sample.bob; Sample.cy]) as [H Hs].
  - apply (bool_decide_unpack _). vm_compute. exact I.
  - split; [rewrite H; vm_compute; reflexivity|].
    split; [exact (proj2 (Hs Sample.q1))|reflexivity].
Defined.

(** ** The date filter *)

(** [setHours] works on the local calendar day of the parsed input, which
    is the day of the input shifted by the whole days in the zone offset. *)
Lemma setHours_local_day (tz day h m sec ms : Z) :
  TestStatsPage.setHours tz (TestStatsPage.dateOfInput day) h m sec ms =
  TestStatsPage.localDayStart tz
    (day + (tz * TestStatsPage.msPerMinute) `div` TestStatsPage.msPerDay)
    + ((h * 60 + m) * 60 + sec) * 1000 + ms.
Proof.
  unfold TestStatsPage.setHours, TestStatsPage.dateOfInput, TestStatsPage.localDayStart.
  cbn [TestStatsPage.offsetAt TestStatsPage.offsetOfLocal TestStatsPage.fixedZone].
  replace (day * TestStatsPage.msPerDay + tz * TestStatsPage.msPerMinute)
    with (tz * TestStatsPage.msPerMinute + day * TestStatsPage.msPerDay) by lia.
  rewrite Z.div_add by done. lia.
Qed.

(** At UTC and east of it the filter is the inclusive local-day range. *)
Lemma passesFilters_east (tz : Z) (dateFrom dateTo : option Z) (sub : SubmissionRow) :
  0 <= tz < 1440 ->
  TestStatsPage.passesFilters tz dateFrom dateTo EmptyString sub = true <->
  TestStatsPage.inDateRange tz dateFrom dateTo (time (s_created_at sub)).
Proof.
  intros Htz.
  assert (Hd : (tz * TestStatsPage.msPerMinute) `div` TestStatsPage.msPerDay = 0).
  { apply Z.div_small. unfold TestStatsPage.msPerMinute, TestStatsPage.msPerDay. lia. }
  unfold TestStatsPage.passesFilters, TestStatsPage.inDateRange. simpl.
  rewrite andb_true_r, andb_true_iff.
  assert (Hs : forall d h m sec ms,
             TestStatsPage.setHours tz (TestStatsPage.dateOfInput d) h m sec ms =
             TestStatsPage.localDayStart tz d + ((h * 60 + m) * 60 + sec) * 1000 + ms).
  { intros. rewrite setHours_local_day, Hd. by rewrite Z.add_0_r. }
  split.
  - intros [H1 H2]. split; intros d ->; rewrite Hs in *.
    + apply negb_true_iff, bool_decide_eq_false in H1. lia.
    + apply negb_true_iff, bool_decide_eq_false in H2.
      unfold TestStatsPage.localDayEnd, TestStatsPage.msPerDay. lia.
  - intros [H1 H2]. split.
    + destruct dateFrom as [d|]; [|done]. rewrite Hs.
      apply negb_true_iff, bool_decide_eq_false. specialize (H1 d eq_refl). lia.
    + destruct dateTo as [d|]; [|done]. rewrite Hs.
      apply negb_true_iff, bool_decide_eq_false. specialize (H2 d eq_refl).
      unfold TestStatsPage.localDayEnd, TestStatsPage.msPerDay in H2. lia.
Qed.

(** West of UTC both bounds fall on the local day before the input's. *)
Lemma setHours_west (tz day h m sec ms : Z) :
  -1440 < tz < 0 ->
  TestStatsPage.setHours tz (TestStatsPage.dateOfInput day) h m sec ms =
  TestStatsPage.localDayStart tz (day - 1) + ((h * 60 + m) * 60 + sec) * 1000 + ms.
Proof.
  intros Htz. rewrite setHours_local_day.
  assert ((tz * TestStatsPage.msPerMinute) `div` TestStatsPage.msPerDay = -1) as ->; [|done].
  symmetry. apply (Z.div_unique_pos _ _ _ (tz * TestStatsPage.msPerMinute + TestStatsPage.msPerDay));
    unfold TestStatsPage.msPerMinute, TestStatsPage.msPerDay; lia.
Qed.

(** C7.  The date filter, run five hours west of UTC with 2024-01-15 as
    [dateTo].  A submission made at 23:59:59 of that local day lies in
    the inclusive local-day range, and the filter drops it: its upper
    bound is the last millisecond of the local day before. *)
Theorem dateTo_boundary_west_of_utc :
  TestStatsPage.inDateRange Sample.newYork None (Some Sample.jan15)
    (time (s_created_at Sample.lateJan15)) /\
  time (s_created_at Sample.lateJan15)
    = TestStatsPage.localDayStart Sample.newYork Sample.jan15 + ((23 * 60 + 59) * 60 + 59) * 1000 /\
  TestStatsPage.passesFilters Sample.newYork None (Some Sample.jan15) EmptyString
    Sample.lateJan15 = false /\
  TestStatsPage.filteredSubmissions Sample.newYork [Sample.lateJan15]
    None (Some Sample.jan15) EmptyString = [] /\
  TestStatsPage.setHours Sample.newYork (TestStatsPage.dateOfInput Sample.jan15) 23 59 59 999
    = TestStatsPage.localDayEnd Sample.newYork (Sample.jan15 - 1).
Proof.
  split_and!; try reflexivity.
  split; [done|]. intros d [= <-]. vm_compute. by intros [=].
Qed.

(** ** CSV export *)



Lemma csvLine_row (sub : SubmissionRow) :
  TestStatsPage.csvLine (TestStatsPage.csvRow sub) = TestStatsPage.rowLine sub.
Proof. reflexivity. Qed.




(** An empty filtered set exports nothing. *)
Lemma handleExportCsv_empty test version :
  TestStatsPage.handleExportCsv [] test version = None.
Proof. done. Qed.

(** ** The table of recent submissions *)

Lemma byCreatedDesc_total (a b : SubmissionRow) :
  Js.before TestStatsPage.byCreatedDesc a b \/ Js.before TestStatsPage.byCreatedDesc b a.
Proof. unfold Js.before, TestStatsPage.byCreatedDesc. lia. Qed.

Lemma byCreatedDesc_trans (a b c : SubmissionRow) :
  Js.before TestStatsPage.byCreatedDesc a b -> Js.before TestStatsPage.byCreatedDesc b c ->
  Js.before TestStatsPage.byCreatedDesc a c.
Proof. unfold Js.before, TestStatsPage.byCreatedDesc. lia. Qed.

(** C10.  The table of recent submissions shows the filtered submissions
    sorted by creation time, latest first, cut after 20 entries: it has
    min(20, number of filtered submissions) rows, it is sorted, and the
    filtered submissions it leaves out are none of them more recent than
    one it shows. *)
Theorem latestSubmissions_top20 (filtered : list SubmissionRow) :
  let shown := TestStatsPage.latestSubmissions true filtered in
  shown = take 20 (Js.sort_by TestStatsPage.byCreatedDesc filtered) /\
  length shown = Nat.min 20 (length filtered) /\
  StronglySorted TestStatsPage.notOlder shown /\
  exists rest, shown ++ rest ≡ₚ filtered /\
    forall x y, x ∈ shown -> y ∈ rest -> TestStatsPage.notOlder x y.
Proof.
  unfold TestStatsPage.latestSubmissions. simpl.
  pose proof (sort_by_sorted TestStatsPage.byCreatedDesc
                byCreatedDesc_total byCreatedDesc_trans filtered) as Hs.
  pose proof (sort_by_perm TestStatsPage.byCreatedDesc filtered) as Hp.
  set (sorted := Js.sort_by TestStatsPage.byCreatedDesc filtered) in *.
  assert (Hs' : StronglySorted TestStatsPage.notOlder sorted).
  { eapply StronglySorted_weaken; [|exact Hs].
    unfold Js.before, TestStatsPage.byCreatedDesc, TestStatsPage.notOlder. intros; lia. }
  split; [done|]. split.
  { by rewrite length_take, <- (Permutation_length Hp). }
  rewrite <- (take_drop 20 sorted) in Hs', Hp.
  apply StronglySorted_app in Hs' as (Hcross & Hs1 & _).
  split; [done|]. exists (drop 20 sorted). split; [done|]. auto.
Qed.

Example latestSubmissions_sample :
  TestStatsPage.latestSubmissions true [Sample.ann; Sample.cy; Sample.bob]
  = [Sample.cy; Sample.bob; Sample.ann].
Proof. reflexivity. Qed.

(** ** Text: reading and writing characters *)

Section Text.
Local Open Scope N_scope.


Lemma accepts_ascii (lead : N) (conts : list N) (b : N) :
  b < 0x80 -> Js.accepts lead conts b = false.
Proof.
  intros Hb. unfold Js.accepts.
  destruct conts; repeat case_match; apply andb_false_iff; left; apply N.leb_gt; lia.
Qed.

(** A byte of the ASCII range ends whatever was being read and is a
    character of its own. *)
Lemma step_ascii (r : Js.Reading) (b : N) :
  b < 0x80 -> Js.step r b = (None, Js.flush r ++ [b]).
Proof.
  intros Hb.
  assert (Hs : Js.start b = (None, [b])).
  { unfold Js.start. by rewrite (proj2 (N.ltb_lt _ _) Hb). }
  destruct r as [[lead conts]|]; simpl; [|done].
  by rewrite accepts_ascii, Hs.
Qed.

Lemma decode_ascii (r : Js.Reading) (s : string) (a : ascii) (t : string) :
  N_of_ascii a < 0x80 ->
  Js.decode r (s +:+ String a t) = Js.decode r s ++ N_of_ascii a :: Js.chars t.
Proof.
  intros Ha. revert r. induction s as [|x s IH]; intros r.
  - rewrite string_app_nil_l. cbn [Js.decode]. rewrite step_ascii by done.
    cbn [fst snd]. by rewrite <- app_assoc.
  - rewrite string_app_cons. cbn [Js.decode]. by rewrite IH, app_assoc.
Qed.

Lemma chars_ascii (s : string) (a : ascii) (t : string) :
  N_of_ascii a < 0x80 ->
  Js.chars (s +:+ String a t) = Js.chars s ++ N_of_ascii a :: Js.chars t.
Proof. apply decode_ascii. Qed.

Lemma step_progress (r : Js.Reading) (b : N) :
  snd (Js.step r b) <> [] \/ fst (Js.step r b) <> None.
Proof.
  assert (Hs : snd (Js.start b) <> [] \/ fst (Js.start b) <> None).
  { unfold Js.start. repeat case_match; simpl; auto. }
  destruct r as [[lead conts]|]; [|done]. cbn [Js.step].
  repeat case_match; cbn [fst snd]; auto.
Qed.

Lemma decode_nil (r : Js.Reading) (s : string) :
  Js.decode r s = [] -> r = None /\ s = EmptyString.
Proof.
  revert r. induction s as [|a s IH]; intros r; cbn [Js.decode].
  - by destruct r as [[? ?]|].
  - intros [H1 H2]%app_eq_nil. apply IH in H2 as [H2 _].
    by destruct (step_progress r (N_of_ascii a)).
Qed.

(** The empty string is the only one without a character. *)
Lemma chars_nil (s : string) : Js.chars s = [] <-> s = EmptyString.
Proof. split; [by intros [_ ?]%decode_nil|by intros ->]. Qed.

Lemma bytes_app (l1 l2 : list ascii) :
  string_of_list_ascii (l1 ++ l2) = string_of_list_ascii l1 +:+ string_of_list_ascii l2.
Proof.
  induction l1 as [|c l1 IH]; [done|].
  change (String c (string_of_list_ascii (l1 ++ l2))
          = String c (string_of_list_ascii l1 +:+ string_of_list_ascii l2)).
  by rewrite IH.
Qed.

Lemma text_app (l1 l2 : list Js.Char) : Js.text (l1 ++ l2) = Js.text l1 +:+ Js.text l2.
Proof. unfold Js.text. by rewrite bind_app, fmap_app, bytes_app. Qed.


Lemma text_nil (l : list Js.Char) : Js.text l = EmptyString -> l = [].
Proof.
  destruct l as [|c l]; [done|]. change (c :: l) with ([c] ++ l). rewrite text_app.
  unfold Js.text at 1. simpl. unfold Js.encode. repeat case_match; simpl; done.
Qed.


(** *** White space *)

Lemma dropSpaces_split (l : list Js.Char) :
  exists ws, l = ws ++ Js.dropSpaces l /\ Js.spaces ws.
Proof.
  induction l as [|c l (ws & E & Hws)]; [exists []; split; [done|constructor]|]. simpl.
  destruct (Js.isSpace c) eqn:Hc.
  - exists (c :: ws). split; [simpl; by f_equal|by constructor].
  - exists []. split; [done|constructor].
Qed.



Lemma trimChars_split (l : list Js.Char) :
  exists ws1 ws2, l = ws1 ++ Js.trimChars l ++ ws2 /\ Js.spaces ws1 /\ Js.spaces ws2.
Proof.
  destruct (dropSpaces_split l) as (ws1 & E1 & H1).
  destruct (dropSpaces_split (reverse (Js.dropSpaces l))) as (ws2 & E2 & H2).
  exists ws1, (reverse ws2). split_and!; [|done|by apply Forall_reverse].
  unfold Js.trimChars. rewrite <- reverse_app, <- E2, reverse_involutive. done.
Qed.

Lemma dropSpaces_all (l : list Js.Char) : Js.spaces l -> Js.dropSpaces l = [].
Proof. induction 1 as [|c l Hc _ IH]; [done|]. simpl. by rewrite Hc. Qed.






(** *** Lower case *)




(** The white space and the lower case of a few texts outside the ASCII
    range: a no-break space, an ideographic space and a byte order mark
    are trimmed; Cyrillic and Greek letters have a lower case, the sigma
    at the end of a word its final form; the Kelvin sign becomes the
    letter k and the capital I with a dot an i and a combining dot. *)
Example trim_sample :
  Js.trim (Js.text [0xA0; 0x3000] +:+ "Eve" +:+ Js.text [0xFEFF; 0x2028; 0x20]) = "Eve" /\
  Js.trim (Js.text [0xA0]) = EmptyString /\
  Js.trim (Js.text [0x200B; 0x41; 0x85]) = Js.text [0x200B; 0x41; 0x85].
Proof. split_and!; vm_compute; reflexivity. Qed.

Example toLowerCase_sample :
  Js.toLowerCase "Иван ПЕТРОВ" = "иван петров" /\
  Js.toLowerCase "ΟΔΟΣ ΣΟΦΟΣ" = "οδος σοφος" /\
  Js.toLowerCase (Js.text [0x212A; 0x130]) = Js.text [0x6B; 0x69; 0x307] /\
  Js.includes (Js.toLowerCase "Иван Петров") (Js.toLowerCase (Js.trim " ПЕТР ")) = true.
Proof. split_and!; vm_compute; reflexivity. Qed.

End Text.

(** *** Reading back what was written *)

Section ReadBack.
Local Open Scope N_scope.

Lemma encode_two (lead b : N) :
  0xC2 <= lead <= 0xDF -> 0x80 <= b <= 0xBF ->
  Js.encode ((lead - 0xC0) * 64 + (b - 0x80)) = [lead; b].
Proof.
  intros Hl Hb. unfold Js.encode.
  rewrite (proj2 (N.ltb_ge _ 0x80)), (proj2 (N.ltb_lt _ 0x800)) by lia.
  f_equal; [|f_equal].
  - assert (((lead - 0xC0) * 64 + (b - 0x80)) / 64 = lead - 0xC0) as ->; [|lia].
    symmetry. apply (N.div_unique _ _ _ (b - 0x80)); lia.
  - assert (((lead - 0xC0) * 64 + (b - 0x80)) mod 64 = b - 0x80) as ->; [|lia].
    symmetry. apply (N.mod_unique _ _ (lead - 0xC0)); lia.
Qed.

Lemma encode_three (lead b1 b2 : N) :
  0xE0 <= lead <= 0xEF -> 0x80 <= b1 <= 0xBF -> 0x80 <= b2 <= 0xBF ->
  (lead = 0xE0 -> 0xA0 <= b1) ->
  Js.encode (((lead - 0xE0) * 64 + (b1 - 0x80)) * 64 + (b2 - 0x80)) = [lead; b1; b2].
Proof.
  intros Hl H1 H2 Hlow. unfold Js.encode.
  set (cp := ((lead - 0xE0) * 64 + (b1 - 0x80)) * 64 + (b2 - 0x80)).
  assert (Hd : cp / 64 = (lead - 0xE0) * 64 + (b1 - 0x80)).
  { symmetry. apply (N.div_unique _ _ _ (b2 - 0x80)); subst cp; lia. }
  assert (Hm : cp mod 64 = b2 - 0x80).
  { symmetry. apply (N.mod_unique _ _ ((lead - 0xE0) * 64 + (b1 - 0x80))); subst cp; lia. }
  assert (Hd2 : cp / 4096 = lead - 0xE0).
  { symmetry. apply (N.div_unique _ _ _ ((b1 - 0x80) * 64 + (b2 - 0x80))); subst cp; lia. }
  assert (Hm2 : (cp / 64) mod 64 = b1 - 0x80).
  { rewrite Hd. symmetry. apply (N.mod_unique _ _ (lead - 0xE0)); lia. }
  rewrite (proj2 (N.ltb_ge cp 0x80)), (proj2 (N.ltb_ge cp 0x800)),
    (proj2 (N.ltb_lt cp 0x10000)) by (subst cp; lia).
  rewrite Hd2, Hm2, Hm. repeat f_equal; lia.
Qed.

Lemma encode_four (lead b1 b2 b3 : N) :
  0xF0 <= lead <= 0xF4 -> 0x80 <= b1 <= 0xBF -> 0x80 <= b2 <= 0xBF -> 0x80 <= b3 <= 0xBF ->
  (lead = 0xF0 -> 0x90 <= b1) -> (lead = 0xF4 -> b1 <= 0x8F) ->
  Js.encode ((((lead - 0xF0) * 64 + (b1 - 0x80)) * 64 + (b2 - 0x80)) * 64 + (b3 - 0x80))
  = [lead; b1; b2; b3].
Proof.
  intros Hl H1 H2 H3 Hlow Hhigh. unfold Js.encode.
  set (cp := (((lead - 0xF0) * 64 + (b1 - 0x80)) * 64 + (b2 - 0x80)) * 64 + (b3 - 0x80)).
  assert (Hd : cp / 64 = ((lead - 0xF0) * 64 + (b1 - 0x80)) * 64 + (b2 - 0x80)).
  { symmetry. apply (N.div_unique _ _ _ (b3 - 0x80)); subst cp; lia. }
  assert (Hm : cp mod 64 = b3 - 0x80).
  { symmetry.
    apply (N.mod_unique _ _ (((lead - 0xF0) * 64 + (b1 - 0x80)) * 64 + (b2 - 0x80)));
      subst cp; lia. }
  assert (Hd2 : cp / 4096 = (lead - 0xF0) * 64 + (b1 - 0x80)).
  { symmetry. apply (N.div_unique _ _ _ ((b2 - 0x80) * 64 + (b3 - 0x80))); subst cp; lia. }
  assert (Hd3 : cp / 262144 = lead - 0xF0).
  { symmetry.
    apply (N.div_unique _ _ _ (((b1 - 0x80) * 64 + (b2 - 0x80)) * 64 + (b3 - 0x80)));
      subst cp; lia. }
  assert (Hm2 : (cp / 64) mod 64 = b2 - 0x80).
  { rewrite Hd. symmetry.
    apply (N.mod_unique _ _ ((lead - 0xF0) * 64 + (b1 - 0x80))); lia. }
  assert (Hm3 : (cp / 4096) mod 64 = b1 - 0x80).
  { rewrite Hd2. symmetry. apply (N.mod_unique _ _ (lead - 0xF0)); lia. }
  rewrite (proj2 (N.ltb_ge cp 0x80)), (proj2 (N.ltb_ge cp 0x800)),
    (proj2 (N.ltb_ge cp 0x10000)), (proj2 (N.ltb_lt cp 0x110000)) by (subst cp; lia).
  rewrite Hd3, Hm3, Hm2, Hm. repeat f_equal; lia.
Qed.

Lemma encode_stray (b : N) : b < 256 -> Js.encode (Js.stray b) = [b].
Proof.
  intros Hb. unfold Js.encode, Js.stray.
  rewrite !(proj2 (N.ltb_ge _ _)) by lia.
  f_equal. replace (0x110000 + b - 0x110000) with b by lia. by apply N.mod_small.
Qed.

Lemma encode_strays (l : list N) :
  Forall (fun b => b < 256) l -> (Js.stray <$> l) ≫= Js.encode = l.
Proof.
  induction 1 as [|b l Hb _ IH]; [done|].
  rewrite fmap_cons. change ((Js.stray b :: (Js.stray <$> l)) ≫= Js.encode)
    with (Js.encode (Js.stray b) ++ ((Js.stray <$> l) ≫= Js.encode)).
  by rewrite IH, encode_stray.
Qed.

(** What a byte is accepted for: the range of a byte that follows, with
    the narrower first byte of four lead bytes. *)
Lemma accepts_range (lead : N) (conts : list N) (b : N) :
  Js.accepts lead conts b = true ->
  0x80 <= b <= 0xBF /\
  (conts = [] -> (lead = 0xE0 -> 0xA0 <= b) /\ (lead = 0xF0 -> 0x90 <= b) /\
                 (lead = 0xF4 -> b <= 0x8F)).
Proof.
  unfold Js.accepts. destruct conts as [|c conts].
  - repeat case_match; rewrite andb_true_iff, !N.leb_le;
      repeat match goal with H : (_ =? _) = true |- _ => apply N.eqb_eq in H
                        | H : (_ =? _) = false |- _ => apply N.eqb_neq in H end;
      intros [? ?]; (split; [lia|]); intros _; split_and!; intros; subst; lia.
  - rewrite andb_true_iff, !N.leb_le. intros [? ?]. split; [lia|done].
Qed.

(** One byte more: what was read before the byte, and the byte, is what
    is written for the characters given out, and what is still held. *)
Lemma step_bytes (r : Js.Reading) (b : N) :
  Js.wellRead r -> b < 256 ->
  Js.wellRead (fst (Js.step r b)) /\
  (snd (Js.step r b) ≫= Js.encode) ++ Js.pending (fst (Js.step r b)) = Js.pending r ++ [b].
Proof.
  intros Hr Hb.
  assert (Hstart : Js.wellRead (fst (Js.start b)) /\
                   (snd (Js.start b) ≫= Js.encode) ++ Js.pending (fst (Js.start b)) = [b]).
  { unfold Js.start. destruct (b <? 0x80) eqn:E1; [|destruct (Js.isLead b) eqn:E2]; simpl.
    - split; [done|]. unfold Js.encode. by rewrite E1.
    - split; [|done]. split; [done|]. split; [|done]. by apply Forall_singleton.
    - split; [done|]. by rewrite encode_stray. }
  destruct r as [[lead conts]|]; [|exact Hstart]. cbn [Js.step].
  destruct Hr as (Hlead & Hsmall & Hshape).
  assert (Hl : 0xC2 <= lead <= 0xF4).
  { unfold Js.isLead in Hlead. rewrite andb_true_iff, !N.leb_le in Hlead. lia. }
  destruct (Js.accepts lead conts b) eqn:Hacc.
  - destruct (accepts_range _ _ _ Hacc) as [Hbr Hfirst].
    assert (Hsmall' : Forall (fun b => b < 256) (lead :: conts ++ [b])).
    { change (lead :: conts ++ [b]) with ((lead :: conts) ++ [b]).
      apply Forall_app. split; [done|]. by apply Forall_singleton. }
    destruct (lead <? 0xE0) eqn:E1; [|destruct (lead <? 0xF0) eqn:E2].
    + assert (Hexp : Js.expect lead = 1%nat) by (unfold Js.expect; by rewrite E1).
      assert (Hbits : Js.leadBits lead = lead - 0xC0) by (unfold Js.leadBits; by rewrite E1).
      apply N.ltb_lt in E1. rewrite Hexp in *. unfold Js.codePoint. rewrite Hbits.
      destruct conts as [|b1 [|b2 [|? ?]]]; simpl in Hshape |- *.
      * split; [done|]. rewrite app_nil_r. change ([?x] ≫= Js.encode) with (Js.encode x ++ []).
        rewrite app_nil_r. apply encode_two; lia.
      * lia.
      * lia.
      * done.
    + assert (Hexp : Js.expect lead = 2%nat) by (unfold Js.expect; by rewrite E1, E2).
      assert (Hbits : Js.leadBits lead = lead - 0xE0)
        by (unfold Js.leadBits; by rewrite E1, E2).
      apply N.ltb_ge in E1. apply N.ltb_lt in E2.
      destruct conts as [|b1 [|b2 [|? ?]]]; simpl in Hshape |- *.
      * rewrite Hexp. simpl. split; [|done]. split; [done|]. split; [done|]. split; [done|lia].
      * rewrite Hexp. simpl. unfold Js.codePoint. rewrite Hbits. simpl.
        destruct Hshape as [H1 _]. destruct (accepts_range lead [] b1 H1) as [H1r H1f].
        split; [done|]. rewrite app_nil_r. change ([?x] ≫= Js.encode) with (Js.encode x ++ []).
        rewrite app_nil_r. apply encode_three; try lia. by apply H1f.
      * lia.
      * done.
    + assert (Hexp : Js.expect lead = 3%nat) by (unfold Js.expect; by rewrite E1, E2).
      assert (Hbits : Js.leadBits lead = lead - 0xF0)
        by (unfold Js.leadBits; by rewrite E1, E2).
      apply N.ltb_ge in E1, E2.
      destruct conts as [|b1 [|b2 [|? ?]]]; simpl in Hshape |- *.
      * rewrite Hexp. simpl. split; [|done]. split; [done|]. split; [done|]. split; [done|lia].
      * rewrite Hexp. simpl. destruct Hshape as [H1 _]. split; [|done]. split; [done|].
        split; [done|]. by split_and!.
      * rewrite Hexp. simpl. unfold Js.codePoint. rewrite Hbits. simpl.
        destruct Hshape as (H1 & H2 & _).
        destruct (accepts_range lead [] b1 H1) as [H1r H1f].
        destruct (accepts_range lead [b1] b2 H2) as [H2r _].
        split; [done|]. rewrite app_nil_r. change ([?x] ≫= Js.encode) with (Js.encode x ++ []).
        rewrite app_nil_r. destruct (H1f eq_refl) as (_ & Hlow & Hhigh).
        apply encode_four; try lia; done.
      * done.
  - destruct Hstart as [Hw Hs]. cbn [fst snd]. split; [done|].
    rewrite bind_app, <- app_assoc, Hs. cbn [Js.flush Js.pending].
    change (Js.stray lead :: (Js.stray <$> conts)) with (Js.stray <$> (lead :: conts)).
    by rewrite encode_strays.
Qed.

Lemma text_decode (s : string) (r : Js.Reading) :
  Js.wellRead r -> Js.text (Js.decode r s) = string_of_list_ascii (ascii_of_N <$> Js.pending r) +:+ s.
Proof.
  revert r. induction s as [|a s IH]; intros r Hr.
  - cbn [Js.decode]. rewrite string_app_nil_r. unfold Js.text.
    destruct r as [[lead conts]|]; [|done]. cbn [Js.flush Js.pending].
    change (Js.stray lead :: (Js.stray <$> conts)) with (Js.stray <$> (lead :: conts)).
    rewrite encode_strays; [done|]. by destruct Hr as (_ & ? & _).
  - cbn [Js.decode].
    destruct (step_bytes r (N_of_ascii a) Hr (N_ascii_bounded a)) as [Hw Hb].
    rewrite text_app, IH by done. unfold Js.text.
    rewrite <- string_app_assoc, <- bytes_app, <- fmap_app, Hb, fmap_app, bytes_app,
      string_app_assoc.
    f_equal. simpl. by rewrite ascii_N_embedding.
Qed.

(** Every string is written back as it was read. *)
Lemma text_chars (s : string) : Js.text (Js.chars s) = s.
Proof. unfold Js.chars. by rewrite text_decode. Qed.

End ReadBack.

(** ** The slug of a new test *)

Section Slug.
Import CreateTestPage.
Local Open Scope N_scope.













Lemma filter_fmap_comm {A B : Type} (f : A -> B) (P : B -> Prop)
    `{!forall x, Decision (P x)} (l : list A) :
  filter P (f <$> l) = f <$> filter (fun x => P (f x)) l.
Proof.
  induction l as [|x l IH]; [done|].
  rewrite fmap_cons, !filter_cons, IH. by case_decide.
Qed.



Lemma hyphenate_other (inRun : bool) (c : Js.Char) (l : list Js.Char) :
  Js.isSpace c = false -> hyphenate inRun (c :: l) = c :: hyphenate false l.
Proof. intros Hc. simpl. by rewrite Hc. Qed.















End Slug.




(** ** The authoring form *)

Section AuthoringForm.
Import CreateTestPage.

Lemma existsb_blank_false (l : list string) :
  existsb blank l = false <-> forall o, o ∈ l -> blank o = false.
Proof.
  induction l as [|x l IH]; simpl.
  - split; [intros _ o Ho; by apply elem_of_nil in Ho|done].
  - rewrite orb_false_iff, IH. split.
    + intros [Hx Hl] o [->|Ho]%elem_of_cons; auto.
    + intros H. split; [apply H; left|]. intros o Ho. apply H. by right.
Qed.

Lemma questionsError_none (questions : list QuestionForm) :
  questionsError questions = None <-> Forall wellFormed questions.
Proof.
  induction questions as [|q qs IH]; simpl; [by split|].
  rewrite Forall_cons, <- IH. unfold wellFormed.
  destruct (blank (text q)) eqn:Ht; [split; [done|intros [[? _] _]; done]|].
  destruct (kind q) eqn:Hk.
  - destruct (Nat.ltb_spec (length (options q)) 2) as [Hlt|Hge].
    { split; [done|]. intros [[_ H] _]. destruct (H eq_refl) as [? _]. lia. }
    destruct (existsb blank (options q)) eqn:He.
    { split; [done|]. intros [[_ H] _]. destruct (H eq_refl) as [_ Hb].
      apply (proj2 (existsb_blank_false _)) in Hb. congruence. }
    pose proof (proj1 (existsb_blank_false _) He) as Hall. split.
    + intros H. split; [|done]. split; [done|]. intros _. split; [lia|done].
    + by intros [_ H].
  - split; [intros H; split; [|done]; split; [done|intros [=]]|by intros [_ H]].
Qed.

(** X1. The form passes validation exactly when the title is not blank,
    there is at least one question, every question has a text that is
    not blank, and every choice question has at least two options, none
    of them blank. *)
Theorem validationError_none (title : string) (questions : list QuestionForm) :
  validationError title questions = None <->
  blank title = false /\ questions <> [] /\ Forall wellFormed questions.
Proof.
  unfold validationError. destruct (blank title); [split; [done|intros [? _]; done]|].
  destruct questions as [|q qs].
  - split; [done|intros (_ & H & _); done].
  - rewrite questionsError_none. split; [intros H; by split_and!|by intros (_ & _ & H)].
Qed.

Lemma findIndex_first {A : Type} (p : A -> bool) (l1 l2 : list A) (x : A) :
  (forall y, y ∈ l1 -> p y = false) -> p x = true ->
  Js.findIndex p (l1 ++ x :: l2) = Some (length l1).
Proof.
  intros Hl1 Hx. induction l1 as [|y l1 IH]; simpl; [by rewrite Hx|].
  rewrite (Hl1 y) by left. rewrite IH; [done|]. intros z Hz. apply Hl1. by right.
Qed.

Lemma findIndex_lookup {A : Type} (p : A -> bool) (l : list A) (i : nat) :
  Js.findIndex p l = Some i -> exists x, l !! i = Some x /\ p x = true.
Proof.
  revert i. induction l as [|y l IH]; intros i; simpl; [done|].
  destruct (p y) eqn:Hy; [intros [= <-]; eauto|].
  destruct (Js.findIndex p l) as [j|]; [|done]. intros [= <-]. simpl. by apply IH.
Qed.

Lemma spliceIn_perm {A : Type} (i : nat) (x : A) (l : list A) :
  spliceIn i x l ≡ₚ x :: l.
Proof.
  unfold spliceIn. rewrite <- Permutation_middle. by rewrite take_drop.
Qed.

Lemma handleMoveQuestion_perm (questionId : string) (direction : Direction)
    (prev : list QuestionForm) :
  handleMoveQuestion questionId direction prev ≡ₚ prev.
Proof.
  unfold handleMoveQuestion.
  destruct (Js.findIndex _ prev) as [index|] eqn:Hi; [|done].
  case_decide; [done|].
  destruct (prev !! index) as [moved|] eqn:Hm; [|done].
  rewrite spliceIn_perm. unfold spliceOut. symmetry. by apply delete_Permutation.
Qed.

Lemma spliceIn_middle {A : Type} (x : A) (l1 l2 : list A) :
  spliceIn (length l1) x (l1 ++ l2) = l1 ++ x :: l2.
Proof. unfold spliceIn. by rewrite take_app_length, drop_app_length. Qed.

Lemma spliceOut_middle {A : Type} (x : A) (l1 l2 : list A) :
  spliceOut (length l1) (l1 ++ x :: l2) = l1 ++ l2.
Proof. apply delete_middle. Qed.

Lemma hasId_false (questionId : string) (l : list QuestionForm) :
  (forall x, x ∈ l -> id x <> questionId) ->
  forall y, y ∈ l -> bool_decide (id y = questionId) = false.
Proof. intros H y Hy. apply bool_decide_eq_false_2. by apply H. Qed.

Lemma moveUp_swap (questionId : string) (l1 l2 : list QuestionForm) (a q : QuestionForm) :
  id q = questionId -> id a <> questionId ->
  (forall x, x ∈ l1 -> id x <> questionId) ->
  handleMoveQuestion questionId up (l1 ++ a :: q :: l2) = l1 ++ q :: a :: l2.
Proof.
  intros Hq Ha Hl1.
  assert (E : l1 ++ a :: q :: l2 = (l1 ++ [a]) ++ q :: l2) by (by rewrite <- app_assoc).
  rewrite E. unfold handleMoveQuestion.
  rewrite findIndex_first; [| |by apply bool_decide_eq_true_2].
  2:{ apply hasId_false. intros x [Hx| ->%list_elem_of_singleton]%elem_of_app; auto. }
  case_decide as Hb. { rewrite !length_app in Hb. simpl in Hb. lia. }
  rewrite list_lookup_middle by done. rewrite spliceOut_middle.
  replace (Z.to_nat (Z.of_nat (length (l1 ++ [a])) - 1)) with (length l1)
    by (rewrite length_app; simpl; lia).
  rewrite <- app_assoc. simpl. apply spliceIn_middle.
Qed.

Lemma moveDown_swap (questionId : string) (l1 l2 : list QuestionForm) (q b : QuestionForm) :
  id q = questionId ->
  (forall x, x ∈ l1 -> id x <> questionId) ->
  handleMoveQuestion questionId down (l1 ++ q :: b :: l2) = l1 ++ b :: q :: l2.
Proof.
  intros Hq Hl1. unfold handleMoveQuestion.
  rewrite findIndex_first; [|by apply hasId_false|by apply bool_decide_eq_true_2].
  case_decide as Hb. { rewrite !length_app in Hb. simpl in Hb. lia. }
  rewrite list_lookup_middle by done. rewrite spliceOut_middle.
  replace (Z.to_nat (Z.of_nat (length l1) + 1)) with (length (l1 ++ [b]))
    by (rewrite length_app; simpl; lia).
  replace (l1 ++ b :: l2) with ((l1 ++ [b]) ++ l2) by (by rewrite <- app_assoc).
  rewrite spliceIn_middle. by rewrite <- app_assoc.
Qed.

(** X2. Moving a question up swaps it with the question before it and
    moving it down swaps it with the question after it, everything else
    staying in place; up then down, and down then up, give the list
    back.  The question moved is the first one with the id. *)
Theorem handleMoveQuestion_swaps (questionId : string) (l1 l2 : list QuestionForm)
    (a q : QuestionForm) :
  id q = questionId -> id a <> questionId ->
  (forall x, x ∈ l1 -> id x <> questionId) ->
  handleMoveQuestion questionId up (l1 ++ a :: q :: l2) = l1 ++ q :: a :: l2 /\
  handleMoveQuestion questionId down (l1 ++ q :: a :: l2) = l1 ++ a :: q :: l2 /\
  handleMoveQuestion questionId down
    (handleMoveQuestion questionId up (l1 ++ a :: q :: l2)) = l1 ++ a :: q :: l2 /\
  handleMoveQuestion questionId up
    (handleMoveQuestion questionId down (l1 ++ q :: a :: l2)) = l1 ++ q :: a :: l2.
Proof.
  intros Hq Ha Hl1.
  rewrite moveUp_swap, !moveDown_swap, moveUp_swap by done. done.
Qed.

Lemma handleMoveQuestion_swaps_witness :
  handleMoveQuestion "c" up [Sample.draftReady; Sample.draftWhy; Sample.draftAgain]
    = [Sample.draftReady; Sample.draftAgain; Sample.draftWhy] /\
  handleMoveQuestion "c" down
    (handleMoveQuestion "c" up [Sample.draftReady; Sample.draftWhy; Sample.draftAgain])
    = [Sample.draftReady; Sample.draftWhy; Sample.draftAgain].
Proof.
  destruct (handleMoveQuestion_swaps "c" [Sample.draftReady] [] Sample.draftWhy
              Sample.draftAgain) as (Hup & _ & Hback & _).
  - reflexivity.
  - discriminate.
  - intros x Hx. apply list_elem_of_singleton in Hx. subst x. discriminate.
  - split; [exact Hup|exact Hback].
Defined.

(** X3. A move never loses, adds or duplicates a question, and it leaves
    the list as it is when the first question is moved up, when the last
    one is moved down, and when no question has the id. *)
Theorem handleMoveQuestion_edges (questionId : string) (rest : list QuestionForm)
    (q : QuestionForm) :
  id q = questionId ->
  handleMoveQuestion questionId up (q :: rest) = q :: rest /\
  ((forall x, x ∈ rest -> id x <> questionId) ->
   handleMoveQuestion questionId down (rest ++ [q]) = rest ++ [q]) /\
  (forall direction prev,
     (forall x, x ∈ prev -> id x <> questionId) ->
     handleMoveQuestion questionId direction prev = prev) /\
  (forall direction prev, handleMoveQuestion questionId direction prev ≡ₚ prev).
Proof.
  intros Hq. split_and!.
  - unfold handleMoveQuestion. simpl. rewrite bool_decide_eq_true_2 by done.
    by rewrite decide_True by lia.
  - intros Hrest. unfold handleMoveQuestion.
    rewrite findIndex_first; [|by apply hasId_false|by apply bool_decide_eq_true_2].
    rewrite decide_True; [done|]. rewrite length_app. simpl. lia.
  - intros direction prev Hprev. unfold handleMoveQuestion.
    destruct (Js.findIndex _ prev) as [i|] eqn:Hi; [|done].
    apply findIndex_lookup in Hi as (x & Hx & Hp).
    apply bool_decide_eq_true in Hp. destruct (Hprev x); [|done].
    by eapply list_elem_of_lookup_2.
  - intros direction prev. apply handleMoveQuestion_perm.
Qed.

Lemma handleMoveQuestion_edges_witness :
  handleMoveQuestion "a" up Sample.draft = Sample.draft.
Proof.
  destruct (handleMoveQuestion_edges "a" [Sample.draftWhy; Sample.draftAgain]
              Sample.draftReady) as (Hfirst & _).
  - reflexivity.
  - exact Hfirst.
Defined.

(** X4. Whatever the operator does to the form (add, remove or move a
    question, change a kind, add or remove an option), a choice question
    never ends up without an option field. *)
Theorem editing_keeps_option_fields (prev : list QuestionForm) :
  Forall hasOptionField prev ->
  (forall uuid, Forall hasOptionField (handleAddQuestion uuid prev)) /\
  (forall questionId, Forall hasOptionField (handleRemoveQuestion questionId prev)) /\
  (forall questionId direction,
     Forall hasOptionField (handleMoveQuestion questionId direction prev)) /\
  (forall questionId newKind, Forall hasOptionField (handleKindChange questionId newKind prev)) /\
  (forall questionId, Forall hasOptionField (handleAddOption questionId prev)) /\
  (forall questionId optionIndex,
     Forall hasOptionField (handleRemoveOption questionId optionIndex prev)).
Proof.
  intros Hprev. split_and!.
  - intros uuid. apply Forall_app. split; [done|]. by repeat constructor.
  - intros questionId. eapply Forall_forall. intros q [_ Hq]%list_elem_of_filter.
    by eapply Forall_forall in Hprev.
  - intros questionId direction. by rewrite handleMoveQuestion_perm.
  - intros questionId newKind. apply Forall_fmap. eapply Forall_impl; [exact Hprev|].
    intros q Hq. simpl. case_decide; [|done]. unfold hasOptionField. simpl.
    intros ->. by destruct (options q).
  - intros questionId. apply Forall_fmap. eapply Forall_impl; [exact Hprev|].
    intros q Hq. simpl. case_decide; [|done]. unfold hasOptionField. simpl.
    intros _. by destruct (options q).
  - intros questionId optionIndex. apply Forall_fmap. eapply Forall_impl; [exact Hprev|].
    intros q Hq. simpl. case_decide; [|done]. unfold hasOptionField. simpl.
    intros _. by destruct (delete optionIndex (options q)).
Qed.

Lemma editing_keeps_option_fields_witness :
  Forall hasOptionField
    (handleRemoveOption "a" 0 (handleRemoveOption "a" 0 [Sample.draftReady])).
Proof.
  apply editing_keeps_option_fields. apply editing_keeps_option_fields.
  constructor; [|constructor]. intros _. discriminate.
Defined.

(** X5. Switching a question to free text and back to a choice question
    does not bring its options back: the question has two empty option
    fields then, and the other questions are as before. *)
Theorem handleKindChange_text_and_back (questionId : string) (prev : list QuestionForm) :
  handleKindChange questionId SINGLE (handleKindChange questionId TEXT prev)
  = (fun question =>
       if decide (id question = questionId)
       then {| id := id question; text := text question; kind := SINGLE;
               options := [EmptyString; EmptyString] |}
       else question) <$> prev.
Proof.
  unfold handleKindChange. rewrite <- list_fmap_compose. apply list_fmap_ext.
  intros _ q _. simpl.
  destruct (decide (id q = questionId)) as [Hid|Hid]; simpl;
    [rewrite decide_True by done|rewrite decide_False by done]; done.
Qed.

End AuthoringForm.

(** ** More on sorting and on selections *)

Section SortByMore.
Context {A : Type} (cmp : A -> A -> Z).

Lemma insert_by_front (x : A) (l : list A) :
  (forall y, y ∈ l -> Js.before cmp x y) -> Js.insert_by cmp x l = x :: l.
Proof.
  intros H. destruct l as [|y l]; simpl; [done|].
  rewrite decide_True; [done|]. apply H. left.
Qed.

(** A list that is in order already is left as it is. *)
Lemma sort_by_sorted_id (l : list A) :
  StronglySorted (Js.before cmp) l -> Js.sort_by cmp l = l.
Proof.
  induction 1 as [|x l Hl IH Hx]; simpl; [done|].
  rewrite IH. apply insert_by_front. intros y Hy. by eapply Forall_forall in Hx.
Qed.

Hypothesis before_total : forall x y, Js.before cmp x y \/ Js.before cmp y x.
Hypothesis before_trans :
  forall x y z, Js.before cmp x y -> Js.before cmp y z -> Js.before cmp x z.

Context (P : A -> Prop) `{!forall x, Decision (P x)}.

Lemma filter_insert_by (x : A) (l : list A) :
  StronglySorted (Js.before cmp) l ->
  filter P (Js.insert_by cmp x l)
  = if decide (P x) then Js.insert_by cmp x (filter P l) else filter P l.
Proof.
  induction 1 as [|y l Hl IH Hy]; simpl.
  - rewrite filter_cons, filter_nil. by case_decide.
  - destruct (decide (cmp x y <= 0)) as [Hxy|Hxy].
    + rewrite filter_cons. destruct (decide (P x)) as [HPx|HPx]; [|done].
      symmetry. apply insert_by_front. intros z [_ Hz]%list_elem_of_filter.
      apply elem_of_cons in Hz as [->|Hz]; [done|].
      eapply before_trans; [exact Hxy|]. by eapply Forall_forall in Hy.
    + rewrite filter_cons, IH, (filter_cons _ y).
      destruct (decide (P y)) as [HPy|HPy]; [|done].
      destruct (decide (P x)) as [HPx|HPx]; [|done].
      simpl. by rewrite decide_False by done.
Qed.

(** Sorting and filtering can be done in either order. *)
Lemma filter_sort_by (l : list A) :
  filter P (Js.sort_by cmp l) = Js.sort_by cmp (filter P l).
Proof.
  induction l as [|x l IH]; simpl; [done|].
  rewrite filter_insert_by by (by apply sort_by_sorted).
  rewrite filter_cons, IH. by destruct (decide (P x)).
Qed.

End SortByMore.

Lemma byOrdAsc_total {R : Type} (ord : R -> option Z) (x y : R) :
  Js.before (TestStatsPage.byOrdAsc ord) x y \/ Js.before (TestStatsPage.byOrdAsc ord) y x.
Proof.
  unfold Js.before, TestStatsPage.byOrdAsc, cmpAsc.
  destruct (ord x), (ord y); lia.
Qed.

Lemma byOrdAsc_trans {R : Type} (ord : R -> option Z) (x y z : R) :
  Js.before (TestStatsPage.byOrdAsc ord) x y -> Js.before (TestStatsPage.byOrdAsc ord) y z ->
  Js.before (TestStatsPage.byOrdAsc ord) x z.
Proof.
  unfold Js.before, TestStatsPage.byOrdAsc, cmpAsc.
  destruct (ord x), (ord y), (ord z); lia.
Qed.

(** A key column picks its row. *)
Lemma selectWhere_unique {R : Type} (key : R -> string) (p : R -> bool)
    (rows : list R) (r : R) :
  NoDup (key <$> rows) -> r ∈ rows -> p r = true ->
  (forall r', r' ∈ rows -> p r' = true -> key r' = key r) ->
  selectWhere p rows = [r].
Proof.
  unfold selectWhere. induction rows as [|x rows IH]; intros Hnd Hin Hp Hkey.
  - by apply elem_of_nil in Hin.
  - rewrite fmap_cons in Hnd. apply NoDup_cons in Hnd as [Hx Hnd].
    rewrite filter_cons. apply elem_of_cons in Hin as [<-|Hin].
    + rewrite decide_True by done. f_equal.
      apply (selectWhere_none p). intros r' Hr'.
      destruct (p r') eqn:E; [|done]. destruct Hx.
      rewrite <- (Hkey r') by (by (right) || done). by apply list_elem_of_fmap_2.
    + destruct (decide (p x = true)) as [Hpx|Hpx].
      * destruct Hx. rewrite (Hkey x) by (by (left) || done). by apply list_elem_of_fmap_2.
      * apply IH; try done. intros r' Hr'. apply Hkey. by right.
Qed.

Lemma selectWhere_key {R : Type} (key : R -> string) (rows : list R) (r : R) :
  NoDup (key <$> rows) -> r ∈ rows -> selectWhere (eqCol key (key r)) rows = [r].
Proof.
  intros Hnd Hin. apply (selectWhere_unique key); try done.
  - by apply bool_decide_eq_true_2.
  - intros r' _ Hr'. by apply bool_decide_eq_true in Hr'.
Qed.

Lemma selectWhere_selectWhere {R : Type} (p q : R -> bool) (rows : list R) :
  (forall r, q r = true -> p r = true) ->
  filter (fun r => q r = true) (selectWhere p rows) = selectWhere q rows.
Proof.
  intros H. unfold selectWhere. induction rows as [|x rows IH]; [done|].
  rewrite !filter_cons. destruct (decide (p x = true)) as [Hp|Hp].
  - rewrite filter_cons, IH. done.
  - rewrite IH. rewrite decide_False; [done|]. intros Hq. by apply Hp, H.
Qed.

(** ** The anonymous page shows the form of the linked version *)

Section PublicForm.
Import PublicTestPage.

Lemma groupOptions_acc (l : list OptionRow) (m : gmap string (list OptionRow)) (k : string) :
  (forall k' v, m !! k' = Some v -> v <> []) ->
  default [] (foldl (fun (m : gmap string (list OptionRow)) option =>
                       match m !! o_question_id option with
                       | Some existing => <[o_question_id option := existing ++ [option]]> m
                       | None => <[o_question_id option := [option]]> m
                       end) m l !! k)
  = default [] (m !! k) ++ filter (fun o => o_question_id o = k) l.
Proof.
  revert m. induction l as [|o l IH]; intros m Hm; simpl.
  - by rewrite filter_nil, app_nil_r.
  - rewrite IH.
    + rewrite filter_cons. destruct (m !! o_question_id o) as [existing|] eqn:E.
      * destruct (decide (o_question_id o = k)) as [<-|Hk].
        -- rewrite lookup_insert_eq, E. simpl. by rewrite <- app_assoc.
        -- by rewrite lookup_insert_ne.
      * destruct (decide (o_question_id o = k)) as [<-|Hk].
        -- rewrite lookup_insert_eq, E. done.
        -- by rewrite lookup_insert_ne.
    + intros k' v. destruct (m !! o_question_id o) as [existing|] eqn:E.
      * destruct (decide (o_question_id o = k')) as [<-|Hk].
        -- rewrite lookup_insert_eq. intros [= <-]. by destruct existing.
        -- rewrite lookup_insert_ne by done. apply Hm.
      * destruct (decide (o_question_id o = k')) as [<-|Hk].
        -- rewrite lookup_insert_eq. by intros [= <-].
        -- rewrite lookup_insert_ne by done. apply Hm.
Qed.

Lemma groupOptions_lookup (l : list OptionRow) (k : string) :
  default [] (groupOptions l !! k) = filter (fun o => o_question_id o = k) l.
Proof.
  unfold groupOptions. rewrite groupOptions_acc; [by rewrite lookup_empty|].
  intros k' v. by rewrite lookup_empty.
Qed.

(** The options fetched in one batch and grouped are, for each choice
    question, the options of that question in order. *)
Lemma grouped_options (ids : list string) (s : Store) (k : string) :
  k ∈ ids ->
  default [] (groupOptions (orderBy (TestStatsPage.byOrdAsc o_ord)
                              (selectWhere (inCol o_question_id ids) (Db.options s))) !! k)
  = optionsOfQuestion k s.
Proof.
  intros Hk. rewrite groupOptions_lookup. unfold orderBy, optionsOfQuestion.
  rewrite (filter_sort_by _ (byOrdAsc_total o_ord) (byOrdAsc_trans o_ord)).
  f_equal.
  rewrite <- (selectWhere_selectWhere (inCol o_question_id ids) (eqCol o_question_id k)).
  - apply list_filter_iff. intros o. unfold eqCol. by rewrite bool_decide_eq_true.
  - intros o Ho. apply bool_decide_eq_true in Ho. subst k.
    by apply bool_decide_eq_true_2.
Qed.

Lemma normalize_form (s : Store) (typedQuestions : list QuestionRow)
    (m : gmap string (list OptionRow)) :
  (forall q, q ∈ typedQuestions -> q_kind q = SINGLE ->
             default [] (m !! q_id q) = optionsOfQuestion (q_id q) s) ->
  normalize m <$> typedQuestions = formQuestion s <$> typedQuestions.
Proof.
  intros H. apply list_fmap_ext. intros i q Hq.
  apply list_elem_of_lookup_2 in Hq. specialize (H q Hq).
  unfold normalize, formQuestion. destruct (q_kind q); [|done]. by rewrite H.
Qed.

Lemma fetch_form (publicId : string) (s : Store) (l : LinkRow) (v : VersionRow) (t : TestRow) :
  NoDup (l_public_id <$> test_links s) ->
  NoDup (v_id <$> test_versions s) ->
  NoDup (t_id <$> tests s) ->
  l ∈ test_links s -> l_public_id l = publicId -> l_is_active l = true ->
  v ∈ test_versions s -> v_id v = l_test_version_id l ->
  t ∈ tests s -> t_id t = v_test_id v ->
  exists log,
    fetch noFaults publicId (s, [])
    = (Ok {| f_title := t_title t; f_description := t_description t;
             f_versionId := v_id v; f_questions := formOf (v_id v) s |}, (s, log)).
Proof.
  intros Hl Hv Ht Hlin Hpub Hact Hvin Hvid Htin Htid.
  assert (Hlinks : activeLinks publicId s = [(l, v)]).
  { unfold activeLinks.
    rewrite (selectWhere_unique l_public_id _ (test_links s) l); try done.
    - simpl. rewrite <- Hvid, (selectWhere_key v_id) by done. done.
    - rewrite Hact, andb_true_r. by apply bool_decide_eq_true_2.
    - intros r' _ [Hr' _]%andb_true_iff. apply bool_decide_eq_true in Hr'. congruence. }
  unfold fetch, bind, exec, noFaults. simpl. rewrite Hlinks. simpl.
  rewrite Hact. simpl.
  rewrite <- Htid, (selectWhere_key t_id) by done. simpl.
  fold (questionsOfVersion (v_id v) s).
  destruct (q_id <$> filter (fun q => TestStatsPage.isSingle q = true)
                       (questionsOfVersion (v_id v) s)) as [|i ids] eqn:Hids.
  - simpl. eexists. unfold ret. do 3 f_equal. unfold formOf.
    apply normalize_form. intros q Hq Hk.
    assert (q_id q ∈ q_id <$> filter (fun q => TestStatsPage.isSingle q = true)
                         (questionsOfVersion (v_id v) s)) as Hin.
    { apply list_elem_of_fmap_2, list_elem_of_filter. split; [|done].
      unfold TestStatsPage.isSingle. by rewrite Hk. }
    rewrite Hids in Hin. by apply elem_of_nil in Hin.
  - simpl. eexists. unfold ret. do 3 f_equal. unfold formOf.
    apply normalize_form. intros q Hq Hk. rewrite <- Hids. apply grouped_options.
    apply list_elem_of_fmap_2, list_elem_of_filter. split; [|done].
    unfold TestStatsPage.isSingle. by rewrite Hk.
Qed.

(** X6. A visitor of an active link whose version and test exist is
    shown the title and description of the test and the questions of the
    linked version in ascending order, each choice question with its own
    options in ascending order and each text question without options.
    Public ids, version ids and test ids are keys. *)
Theorem public_page_shows_form (publicId : string) (s : Store) (st : State)
    (l : LinkRow) (v : VersionRow) (t : TestRow) :
  NoDup (l_public_id <$> test_links s) ->
  NoDup (v_id <$> test_versions s) ->
  NoDup (t_id <$> tests s) ->
  l ∈ test_links s -> l_public_id l = publicId -> l_is_active l = true ->
  v ∈ test_versions s -> v_id v = l_test_version_id l ->
  t ∈ tests s -> t_id t = v_test_id v ->
  publicId <> EmptyString -> v_id v <> EmptyString ->
  render (loadEffect noFaults (Some publicId) true s st)
  = FormView (t_title t) (t_description t) (formOf (v_id v) s).
Proof.
  intros Hl Hv Ht Hlin Hpub Hact Hvin Hvid Htin Htid Hp Hne.
  destruct (fetch_form publicId s l v t) as [log Hf]; try done.
  unfold loadEffect. destruct publicId as [|c p]; [done|]. simpl Js.truthy. cbn iota.
  simpl negb. cbn iota. rewrite Hf. unfold render. simpl.
  destruct (v_id v); [done|]. done.
Qed.

Lemma public_page_shows_form_witness :
  render (loadEffect noFaults (Some "pub1") true Sample.store initialState)
  = FormView "Quiz" None Sample.quizForm.
Proof.
  apply (public_page_shows_form "pub1" Sample.store initialState
           Sample.link1 Sample.v1 Sample.quiz);
    try reflexivity; try discriminate;
    try (apply (bool_decide_unpack _); vm_compute; exact I);
    apply list_elem_of_here.
Defined.

End PublicForm.

(** ** Saving a new test *)

Lemma imap_imap {A B C : Type} (f : nat -> B -> C) (g : nat -> A -> B) (l : list A) :
  imap f (imap g l) = imap (fun i x => f i (g i x)) l.
Proof.
  revert f g. induction l as [|x l IH]; intros f g; [done|].
  simpl. f_equal. apply IH.
Qed.

Lemma filter_all {A : Type} (P : A -> Prop) `{!forall x, Decision (P x)} (l : list A) :
  (forall x, x ∈ l -> P x) -> filter P l = l.
Proof.
  induction l as [|x l IH]; intros Hall; [done|].
  rewrite filter_cons, decide_True by (apply Hall; left).
  f_equal. apply IH. intros y Hy. apply Hall. by right.
Qed.

Lemma filter_none {A : Type} (P : A -> Prop) `{!forall x, Decision (P x)} (l : list A) :
  (forall x, x ∈ l -> ~ P x) -> filter P l = [].
Proof.
  induction l as [|x l IH]; intros Hall; [done|].
  rewrite filter_cons, decide_False by (apply Hall; left).
  apply IH. intros y Hy. apply Hall. by right.
Qed.

Lemma imap_StronglySorted {A B : Type} (R : B -> B -> Prop) (f : nat -> A -> B)
    (l : list A) :
  (forall i j x y, (i < j)%nat -> R (f i x) (f j y)) -> StronglySorted R (imap f l).
Proof.
  revert f. induction l as [|x l IH]; intros f H; simpl; constructor.
  - apply IH. intros i j a b Hij. apply H. lia.
  - apply Forall_forall. intros y (i & a & -> & _)%elem_of_lookup_imap_1.
    simpl. apply H. lia.
Qed.

Section Authoring.
Import CreateTestPage.

(** The ids left for the questions after the first one, [n] option ids
    being used up. *)
Local Abbreviation rest_of fresh n :=
  {| shortId := shortId fresh; testId := testId fresh; versionId := versionId fresh;
     questionId := questionId fresh ∘ S;
     optionId := fun position => optionId fresh (n + position)%nat |}.

(** The option rows of the question at position [i], its options taking
    the option ids from [base] on. *)
Local Abbreviation rows_at fresh i base question :=
  (imap (fun index option =>
           {| o_id := optionId fresh (base + index)%nat;
              o_question_id := questionId fresh i;
              o_text := Js.trim option;
              o_ord := Some (Z.of_nat index + 1) |})
        (options question)).

Lemma optionRows_cons (fresh : Fresh) (q : QuestionForm) (qs : list QuestionForm) :
  optionRows fresh (q :: qs)
  = match kind q with
    | SINGLE => rows_at fresh 0%nat 0%nat q ++ optionRows (rest_of fresh (length (options q))) qs
    | TEXT => optionRows (rest_of fresh 0%nat) qs
    end.
Proof.
  unfold optionRows, singleQuestionPairs. rewrite imap_cons, filter_cons. simpl.
  destruct (kind q) eqn:Hk.
  - rewrite decide_True by done. rewrite bind_cons, imap_app. simpl.
    rewrite length_imap, imap_imap. done.
  - rewrite decide_False by done. done.
Qed.

Lemma optionRows_elem (fresh : Fresh) (qs : list QuestionForm) (o : OptionRow) :
  o ∈ optionRows fresh qs ->
  exists i q, qs !! i = Some q /\ kind q = SINGLE /\ o_question_id o = questionId fresh i.
Proof.
  revert fresh. induction qs as [|q0 qs IH]; intros fresh.
  - intros H. by apply elem_of_nil in H.
  - rewrite optionRows_cons. destruct (kind q0) eqn:Hk.
    + intros [H|H]%elem_of_app.
      * apply elem_of_lookup_imap_1 in H as (j & x & -> & _).
        exists 0%nat, q0. by split_and!.
      * apply IH in H as (i & q & Hq & Hkq & Ho). exists (S i), q. by split_and!.
    + intros H. apply IH in H as (i & q & Hq & Hkq & Ho). exists (S i), q. by split_and!.
Qed.

(** The rows saved for the options of one question. *)
Lemma optionRows_at (fresh : Fresh) (qs : list QuestionForm) (i : nat) (q : QuestionForm) :
  qs !! i = Some q ->
  (forall a b, (a < length qs)%nat -> (b < length qs)%nat ->
               questionId fresh a = questionId fresh b -> a = b) ->
  exists base,
    filter (fun o => o_question_id o = questionId fresh i) (optionRows fresh qs)
    = match kind q with
      | SINGLE => rows_at fresh i base q
      | TEXT => []
      end.
Proof.
  revert fresh i. induction qs as [|q0 qs IH]; intros fresh i Hq Hinj; [done|].
  assert (Hrest : forall k, (forall o, o ∈ optionRows (rest_of fresh k) qs ->
                       o_question_id o <> questionId fresh 0)).
  { intros k o (j & qj & Hj & _ & Ho)%optionRows_elem. rewrite Ho. simpl.
    intros E. apply lookup_lt_Some in Hj. apply Hinj in E; simpl; lia. }
  destruct i as [|i]; simpl in Hq.
  - injection Hq as ->. exists 0%nat. rewrite optionRows_cons.
    destruct (kind q) eqn:Hk.
    + rewrite filter_app, filter_all, filter_none, app_nil_r; [done|by apply Hrest|].
      intros o (j & x & -> & _)%elem_of_lookup_imap_1. done.
    + apply filter_none. by apply Hrest.
  - destruct (IH (rest_of fresh (match kind q0 with
                                  | SINGLE => length (options q0) | TEXT => 0%nat end))
                 i Hq) as [base Hbase].
    { intros a b Ha Hb E. simpl in E. apply Hinj in E; simpl; lia. }
    exists (match kind q0 with SINGLE => length (options q0) | TEXT => 0%nat end + base)%nat.
    rewrite optionRows_cons. destruct (kind q0) eqn:Hk.
    + rewrite filter_app, filter_none, app_nil_l.
      * etrans; [exact Hbase|]. destruct (kind q); [|done].
        apply imap_ext. intros j x _. simpl. do 2 f_equal. lia.
      * intros o (j & x & -> & _)%elem_of_lookup_imap_1. simpl.
        intros E. apply lookup_lt_Some in Hq. apply Hinj in E; simpl; lia.
    + etrans; [exact Hbase|]. destruct (kind q); done.
Qed.


(** The store a run without failure leaves. *)
Lemma create_noFaults (fresh : Fresh) (title description : string)
    (questions : list QuestionForm) (s : Store) :
  exists log,
    create noFaults fresh title description questions (s, [])
    = (Ok (),
       ({| tests := tests s ++ [testRow fresh title description];
           test_versions := test_versions s ++ [versionRow fresh];
           Db.questions := Db.questions s ++ questionRows fresh questions;
           Db.options := Db.options s ++ optionRows fresh questions;
           test_links := test_links s;
           submissions := submissions s;
           answers := answers s |}, log)).
Proof.
  unfold create, bind, exec, orThrow, ret, noFaults. simpl.
  destruct (singleQuestionPairs fresh questions) as [|pair pairs] eqn:E.
  - eexists. unfold optionRows. rewrite E. simpl. rewrite app_nil_r.
    unfold set_questions. simpl. reflexivity.
  - eexists. simpl. unfold set_options. simpl. reflexivity.
Qed.

(** X7. A form that does not pass validation is not saved: the handler
    alerts, issues no statement and leaves the store as it is. *)
Theorem handleSubmit_invalid_writes_nothing (faults : Faults Stmt) (fresh : Fresh)
    (title description : string) (questions : list QuestionForm) (s : Store) :
  blank title = true \/ questions = [] \/ (exists q, q ∈ questions /\ ~ wellFormed q) ->
  exists msg, handleSubmit faults fresh title description questions s = (Alerted msg, s, []).
Proof.
  intros Hbad. unfold handleSubmit.
  destruct (validationError title questions) as [msg|] eqn:E; [by exists msg|].
  unfold validationError in E.
  destruct (blank title) eqn:Ht; [done|].
  destruct questions as [|q0 qs]; [done|].
  apply questionsError_none in E.
  destruct Hbad as [Hb|[[=]|(q & Hin & Hq')]]; [done|].
  destruct Hq'. by eapply Forall_forall in E.
Qed.

Lemma handleSubmit_invalid_writes_nothing_witness :
  exists msg,
    handleSubmit noFaults Sample.draftIds "Quiz" EmptyString
      [Sample.draftReady; defaultQuestion "d"] Sample.store
    = (Alerted msg, Sample.store, []).
Proof.
  apply handleSubmit_invalid_writes_nothing. right. right.
  exists (defaultQuestion "d"). split.
  - right. left.
  - intros [Hb _]. vm_compute in Hb. discriminate.
Defined.



(** X9. Nothing is undone when a later insert fails: after a failed
    insert of the questions the new test and its version stay in the
    store without questions, and after a failed insert of the options
    the questions stay as well, without options. *)
Theorem handleSubmit_no_rollback (faults : Faults Stmt) (fresh : Fresh)
    (title description : string) (questions : list QuestionForm) (s : Store) (msg : string) :
  validationError title questions = None ->
  faults InsertTest = None -> faults InsertVersion = None ->
  (faults InsertQuestions = Some msg ->
   handleSubmit faults fresh title description questions s
   = (Failed (PgThrown {| code := OtherCode; message := msg |}),
      set_test_versions (set_tests s (tests s ++ [testRow fresh title description]))
                        (test_versions s ++ [versionRow fresh]),
      [InsertTest; InsertVersion; InsertQuestions])) /\
  (faults InsertQuestions = None -> faults InsertOptions = Some msg ->
   (exists q, q ∈ questions /\ kind q = SINGLE) ->
   handleSubmit faults fresh title description questions s
   = (Failed (PgThrown {| code := OtherCode; message := msg |}),
      set_questions
        (set_test_versions (set_tests s (tests s ++ [testRow fresh title description]))
                           (test_versions s ++ [versionRow fresh]))
        (Db.questions s ++ questionRows fresh questions),
      [InsertTest; InsertVersion; InsertQuestions; InsertOptions])).
Proof.
  intros Hvalid Ht Hv. unfold handleSubmit. rewrite Hvalid.
  unfold create, bind, exec, orThrow, ret, throw. simpl. rewrite Ht. simpl.
  rewrite Hv. simpl. split.
  - intros ->. done.
  - intros -> Ho (q & Hin & Hk). simpl.
    destruct (singleQuestionPairs fresh questions) as [|pair pairs] eqn:E.
    + apply list_elem_of_lookup_1 in Hin as [i Hi].
      assert ((q, questionId fresh i) ∈ singleQuestionPairs fresh questions) as Hpair.
      { unfold singleQuestionPairs. apply list_elem_of_filter. split; [done|].
        apply (elem_of_lookup_imap_2 (fun index question => (question, questionId fresh index))
                 questions q i Hi). }
      rewrite E in Hpair. by apply elem_of_nil in Hpair.
    + rewrite Ho. done.
Qed.

Lemma handleSubmit_no_rollback_witness :
  handleSubmit (fun st => match st with InsertQuestions => Some "timeout" | _ => None end)
    Sample.draftIds "Quiz 2" EmptyString Sample.draft Sample.store
  = (Failed (PgThrown {| code := OtherCode; message := "timeout" |}),
     set_test_versions
       (set_tests Sample.store
          (tests Sample.store ++ [testRow Sample.draftIds "Quiz 2" EmptyString]))
       (test_versions Sample.store ++ [versionRow Sample.draftIds]),
     [InsertTest; InsertVersion; InsertQuestions]).
Proof.
  apply (handleSubmit_no_rollback _ Sample.draftIds "Quiz 2" EmptyString Sample.draft
           Sample.store "timeout"); reflexivity.
Defined.

End Authoring.

(** ** From the authoring form to the anonymous page *)

Lemma selectWhere_eqCol {R : Type} (col : R -> string) (k : string) (rows : list R) :
  selectWhere (eqCol col k) rows = filter (fun r => col r = k) rows.
Proof.
  unfold selectWhere. apply list_filter_iff. intros r. unfold eqCol.
  by rewrite bool_decide_eq_true.
Qed.

Lemma selectWhere_app {R : Type} (p : R -> bool) (l1 l2 : list R) :
  selectWhere p (l1 ++ l2) = selectWhere p l1 ++ selectWhere p l2.
Proof. apply filter_app. Qed.

Lemma selectWhere_eqCol_absent {R : Type} (col : R -> string) (k : string) (rows : list R) :
  k ∉ col <$> rows -> selectWhere (eqCol col k) rows = [].
Proof.
  intros Hk. apply selectWhere_none. intros r Hr. apply bool_decide_eq_false_2.
  intros <-. apply Hk. by apply list_elem_of_fmap_2.
Qed.

Lemma NoDup_snoc_fresh {R : Type} (col : R -> string) (rows : list R) (r : R) :
  NoDup (col <$> rows) -> col r ∉ col <$> rows -> NoDup (col <$> rows ++ [r]).
Proof.
  intros Hnd Hr. rewrite fmap_app. apply NoDup_app. split_and!; [done| |].
  - intros x Hx [->|[]%elem_of_nil]%elem_of_cons. done.
  - simpl. apply NoDup_singleton.
Qed.

Lemma render_fetched (faults : Faults PublicTestPage.Stmt) (publicId : string) (s : Store)
    (st : PublicTestPage.State) (f : PublicTestPage.Fetched) c :
  PublicTestPage.fetch faults publicId (s, []) = (Ok f, c) ->
  publicId <> EmptyString -> PublicTestPage.f_versionId f <> EmptyString ->
  PublicTestPage.render (PublicTestPage.loadEffect faults (Some publicId) true s st)
  = PublicTestPage.FormView (PublicTestPage.f_title f) (PublicTestPage.f_description f)
                            (PublicTestPage.f_questions f).
Proof.
  intros Hf Hp Hv. unfold PublicTestPage.loadEffect.
  destruct publicId as [|ch p]; [done|]. simpl Js.truthy. cbn iota.
  simpl negb. cbn iota. rewrite Hf. unfold PublicTestPage.render. simpl.
  by destruct (PublicTestPage.f_versionId f).
Qed.

Lemma selectWhere_eqCol_new {R : Type} (col : R -> string) (rows : list R) (r : R) :
  col r ∉ col <$> rows -> selectWhere (eqCol col (col r)) (rows ++ [r]) = [r].
Proof.
  intros Hr. rewrite selectWhere_app, selectWhere_eqCol_absent by done.
  unfold selectWhere. rewrite filter_cons, filter_nil.
  by rewrite decide_True by (by apply bool_decide_eq_true_2).
Qed.

Lemma testBySlug_new (s s1 : Store) (t : TestRow) :
  tests s1 = tests s ++ [t] -> t_slug t ∉ t_slug <$> tests s ->
  testBySlug (t_slug t) s1 = Data t.
Proof.
  intros E Ht. unfold testBySlug. by rewrite E, selectWhere_eqCol_new.
Qed.

Lemma latestVersion_new (s s1 : Store) (v : VersionRow) :
  test_versions s1 = test_versions s ++ [v] ->
  v_test_id v ∉ v_test_id <$> test_versions s ->
  latestVersion (v_test_id v) s1 = Data (Some v).
Proof.
  intros E Hv. unfold latestVersion, versionsOf. by rewrite E, selectWhere_eqCol_new.
Qed.

(** The first visit of the share view of a test that has a version and
    no link yet. *)
Lemma TestLinkPage_load_first_visit (fresh : string * string) (baseUrl slug : string)
    (s : Store) (t : TestRow) (v : VersionRow) :
  testBySlug slug s = Data t ->
  latestVersion (t_id t) s = Data (Some v) ->
  TestLinkPage.linksOf (v_id v) s = [] ->
  exists log,
    TestLinkPage.load noFaults fresh baseUrl slug (s, [])
    = (Ok {| TestLinkPage.test := t; TestLinkPage.testVersion := v;
             TestLinkPage.link := TestLinkPage.newLink fresh (v_id v);
             TestLinkPage.qrUrl := TestLinkPage.publicUrl baseUrl fresh.2 |},
       (set_test_links s (test_links s ++ [TestLinkPage.newLink fresh (v_id v)]), log)).
Proof.
  intros Ht Hv Hl. unfold TestLinkPage.load, bind, exec, orThrow, ret, throw, noFaults.
  cbn beta iota. rewrite Ht. cbn beta iota. rewrite Hv. cbn beta iota.
  fold (TestLinkPage.linksOf (v_id v) s). rewrite Hl. cbn beta iota delta [maybeSingle].
  eexists. reflexivity.
Qed.

Section RoundTrip.
Import CreateTestPage.

Lemma questionRows_sorted (fresh : Fresh) (questions : list QuestionForm) :
  StronglySorted (Js.before (TestStatsPage.byOrdAsc q_ord)) (questionRows fresh questions).
Proof.
  unfold questionRows. apply imap_StronglySorted. intros i j x y Hij.
  unfold Js.before, TestStatsPage.byOrdAsc, cmpAsc. simpl. lia.
Qed.

Lemma questionsOfVersion_saved (fresh : Fresh) (questions : list QuestionForm) (s : Store)
    (rows : list QuestionRow) :
  versionId fresh ∉ q_test_version_id <$> rows ->
  Js.sort_by (TestStatsPage.byOrdAsc q_ord)
    (selectWhere (eqCol q_test_version_id (versionId fresh))
                 (rows ++ questionRows fresh questions))
  = questionRows fresh questions.
Proof.
  intros Hrows. rewrite selectWhere_app, selectWhere_eqCol_absent by done. simpl.
  rewrite selectWhere_eqCol, filter_all.
  - apply sort_by_sorted_id, questionRows_sorted.
  - intros q (i & x & -> & _)%elem_of_lookup_imap_1. done.
Qed.

Lemma injective_on_seq (f : nat -> string) (n : nat) :
  NoDup (f <$> seq 0 n) ->
  forall a b, (a < n)%nat -> (b < n)%nat -> f a = f b -> a = b.
Proof.
  intros Hnd a b Ha Hb E.
  apply (NoDup_lookup _ a b (f a) Hnd).
  - rewrite list_lookup_fmap, lookup_seq_lt by done. done.
  - rewrite list_lookup_fmap, lookup_seq_lt by done. simpl. by rewrite E.
Qed.

Lemma optionsOfQuestion_saved (fresh : Fresh) (questions : list QuestionForm)
    (rows : list OptionRow) (i : nat) (q : QuestionForm) :
  questions !! i = Some q -> kind q = SINGLE ->
  NoDup (questionId fresh <$> seq 0 (length questions)) ->
  questionId fresh i ∉ o_question_id <$> rows ->
  o_text <$>
    Js.sort_by (TestStatsPage.byOrdAsc o_ord)
      (selectWhere (eqCol o_question_id (questionId fresh i))
                   (rows ++ optionRows fresh questions))
  = Js.trim <$> options q.
Proof.
  intros Hq Hk Hnd Hrows. rewrite selectWhere_app, selectWhere_eqCol_absent by done. simpl.
  rewrite selectWhere_eqCol.
  destruct (optionRows_at fresh questions i q Hq (injective_on_seq _ _ Hnd)) as [base ->].
  rewrite Hk. rewrite sort_by_sorted_id.
  - rewrite fmap_imap. simpl. apply (imap_const Js.trim).
  - apply imap_StronglySorted. intros a b x y Hab.
    unfold Js.before, TestStatsPage.byOrdAsc, cmpAsc. simpl. lia.
Qed.

Lemma formOf_saved (fresh : Fresh) (questions : list QuestionForm) (s : Store) :
  versionId fresh ∉ q_test_version_id <$> Db.questions s ->
  Forall (fun index => questionId fresh index ∉ o_question_id <$> Db.options s)
         (seq 0 (length questions)) ->
  NoDup (questionId fresh <$> seq 0 (length questions)) ->
  forall s2,
    Db.questions s2 = Db.questions s ++ questionRows fresh questions ->
    Db.options s2 = Db.options s ++ optionRows fresh questions ->
    PublicTestPage.shape <$> PublicTestPage.formOf (versionId fresh) s2
    = imap shown questions.
Proof.
  intros Hq Ho Hnd s2 Hq2 Ho2.
  unfold PublicTestPage.formOf, PublicTestPage.questionsOfVersion, orderBy.
  rewrite Hq2, questionsOfVersion_saved by done.
  rewrite <- list_fmap_compose. unfold questionRows. rewrite fmap_imap.
  apply imap_ext. intros i q Hi. simpl.
  unfold PublicTestPage.shape, PublicTestPage.formQuestion, shown. simpl.
  f_equal. destruct (kind q) eqn:Hk; [|done]. simpl.
  unfold PublicTestPage.optionsOfQuestion, orderBy. rewrite Ho2.
  apply optionsOfQuestion_saved; try done.
  rewrite Forall_forall in Ho. apply Ho. apply elem_of_seq.
  apply lookup_lt_Some in Hi. lia.
Qed.

(** X10. A test saved from a valid form can be taken as it was written:
    the share view opened on its slug issues a link, and the page behind
    that link shows the trimmed title and the questions of the form in
    their order, numbered from 1, each choice question with its options
    in their order and each text question without options.  The slug
    and the ids are new to the store, and test ids, version ids and
    public ids are keys. *)
Theorem authored_test_is_served (fresh : Fresh) (freshLink : string * string)
    (baseUrl title description : string) (questions : list QuestionForm)
    (s : Store) (st : PublicTestPage.State) :
  validationError title questions = None ->
  freshFor fresh title questions s ->
  NoDup (t_id <$> tests s) ->
  NoDup (v_id <$> test_versions s) ->
  NoDup (l_public_id <$> test_links s) ->
  freshLink.2 ∉ l_public_id <$> test_links s ->
  freshLink.2 <> EmptyString -> versionId fresh <> EmptyString ->
  exists s1 log1 view s2 log2 form,
    handleSubmit noFaults fresh title description questions s
      = (Navigated "/dashboard", s1, log1) /\
    TestLinkPage.load noFaults freshLink baseUrl (createSlug (shortId fresh) title) (s1, [])
      = (Ok view, (s2, log2)) /\
    l_public_id (TestLinkPage.link view) = freshLink.2 /\
    PublicTestPage.render
      (PublicTestPage.loadEffect noFaults (Some (l_public_id (TestLinkPage.link view)))
                                 true s2 st)
      = PublicTestPage.FormView (Js.trim title)
          (t_description (testRow fresh title description)) form /\
    PublicTestPage.shape <$> form = imap shown questions.
Proof.
  intros Hvalid (Hslug & Htid & Hvid & Hvref & Hqref & Hlref & Horef & Hinj)
         Htkeys Hvkeys Hlkeys Hpub Hpne Hvne.
  destruct (create_noFaults fresh title description questions s) as [log1 Hc].
  set (s1 := {| tests := tests s ++ [testRow fresh title description];
                test_versions := test_versions s ++ [versionRow fresh];
                Db.questions := Db.questions s ++ questionRows fresh questions;
                Db.options := Db.options s ++ optionRows fresh questions;
                test_links := test_links s;
                submissions := submissions s;
                answers := answers s |}) in *.
  set (t := testRow fresh title description).
  set (v := versionRow fresh).
  set (newLink := TestLinkPage.newLink freshLink (v_id v)).
  set (s2 := set_test_links s1 (test_links s1 ++ [newLink])).
  destruct (TestLinkPage_load_first_visit freshLink baseUrl (t_slug t) s1 t v)
    as [log2 Hload].
  { by apply (testBySlug_new s). }
  { change (t_id t) with (v_test_id v). by apply (latestVersion_new s). }
  { by apply selectWhere_eqCol_absent. }
  destruct (fetch_form (freshLink.2) s2 newLink v t) as [log3 Hfetch]; try done.
  - by apply NoDup_snoc_fresh.
  - by apply NoDup_snoc_fresh.
  - by apply NoDup_snoc_fresh.
  - apply elem_of_app. right. left.
  - apply elem_of_app. right. left.
  - apply elem_of_app. right. left.
  - eexists s1, log1, _, s2, log2, (PublicTestPage.formOf (versionId fresh) s2).
    split_and!.
    + unfold handleSubmit. rewrite Hvalid, Hc. done.
    + exact Hload.
    + done.
    + exact (render_fetched _ _ _ st _ _ Hfetch Hpne Hvne).
    + by apply (formOf_saved fresh questions s).
Qed.

Lemma authored_test_is_served_witness :
  exists s1 log1 view s2 log2 form,
    handleSubmit noFaults Sample.draftIds "Quiz 2" EmptyString Sample.draft Sample.store
      = (Navigated "/dashboard", s1, log1) /\
    TestLinkPage.load noFaults ("l9", "pub9") Sample.baseUrl "quiz-2-k3x9ab" (s1, [])
      = (Ok view, (s2, log2)) /\
    l_public_id (TestLinkPage.link view) = "pub9" /\
    PublicTestPage.render
      (PublicTestPage.loadEffect noFaults (Some (l_public_id (TestLinkPage.link view)))
                                 true s2 PublicTestPage.initialState)
      = PublicTestPage.FormView "Quiz 2" None form /\
    PublicTestPage.shape <$> form
      = [(Some 1, SINGLE, "Ready?", ["Yes"; "No"]);
         (Some 2, TEXT, "Why?", []);
         (Some 3, SINGLE, "Again?", ["Sure"; "Never"])].
Proof.
  apply (authored_test_is_served Sample.draftIds ("l9", "pub9") Sample.baseUrl "Quiz 2"
           EmptyString Sample.draft Sample.store PublicTestPage.initialState);
    try reflexivity; try discriminate;
    try (apply (bool_decide_unpack _); vm_compute; exact I).
Defined.

End RoundTrip.

(** ** Deleting a test: what stays, and a run that fails half way *)

Lemma filter_ext_in {A : Type} (P Q : A -> Prop) `{!forall x, Decision (P x)}
    `{!forall x, Decision (Q x)} (l : list A) :
  (forall x, x ∈ l -> P x <-> Q x) -> filter P l = filter Q l.
Proof.
  induction l as [|x l IH]; intros Hall; [done|].
  rewrite !filter_cons, IH by (intros y Hy; apply Hall; by right).
  destruct (decide (P x)) as [HP|HP], (decide (Q x)) as [HQ|HQ]; try done.
  - destruct HQ. by apply (Hall x); [left|].
  - destruct HP. by apply (Hall x); [left|].
Qed.

Lemma NoDup_fmap_elem {A : Type} (key : A -> string) (l : list A) (x y : A) :
  NoDup (key <$> l) -> x ∈ l -> y ∈ l -> key x = key y -> x = y.
Proof.
  intros Hnd [i Hi]%list_elem_of_lookup_1 [j Hj]%list_elem_of_lookup_1 E.
  assert (i = j) as ->.
  { apply (NoDup_lookup _ i j (key x) Hnd).
    - by rewrite list_lookup_fmap, Hi.
    - by rewrite list_lookup_fmap, Hj, E. }
  congruence.
Qed.

(** Deleting by the keys of the rows a predicate selects deletes those
    rows and no other. *)
Lemma deleteWhere_keys {R : Type} (key : R -> string) (p : R -> bool) (rows : list R) :
  NoDup (key <$> rows) ->
  deleteWhere (inCol key (key <$> selectWhere p rows)) rows
  = filter (fun r => p r = false) rows.
Proof.
  intros Hnd. unfold deleteWhere. apply filter_ext_in. intros r Hr.
  unfold inCol. rewrite negb_true_iff, bool_decide_eq_false. split.
  - intros H. destruct (p r) eqn:E; [|done]. destruct H.
    apply list_elem_of_fmap_2, selectWhere_spec. by split.
  - intros Hp (r' & Hk & [Hr' Hp']%selectWhere_spec)%list_elem_of_fmap.
    assert (r = r') as -> by (by eapply NoDup_fmap_elem). congruence.
Qed.

Lemma deleteWhere_filter {R : Type} (p : R -> bool) (P : R -> Prop)
    `{!forall r, Decision (P r)} (rows : list R) :
  (forall r, p r = false <-> P r) -> deleteWhere p rows = filter P rows.
Proof.
  intros Hp. unfold deleteWhere. apply list_filter_iff. intros r.
  by rewrite negb_true_iff.
Qed.

Lemma deleteWhere_idemp {R : Type} (p : R -> bool) (rows : list R) :
  deleteWhere p (deleteWhere p rows) = deleteWhere p rows.
Proof.
  unfold deleteWhere. apply filter_all. by intros r [Hr _]%list_elem_of_filter.
Qed.

(** Once the selected rows are deleted by key the selection is empty. *)
Lemma selectWhere_deleted {R : Type} (key : R -> string) (p : R -> bool) (rows : list R) :
  selectWhere p (deleteWhere (inCol key (key <$> selectWhere p rows)) rows) = [].
Proof.
  apply selectWhere_none. intros r [Hr Hk]%deleteWhere_spec.
  destruct (p r) eqn:E; [|done].
  rewrite (inCol_ids key p rows r Hr E) in Hk. done.
Qed.

Section CascadeMore.
Import Dashboard.

(** X11. A deletion that reports success removes the rows of the test
    and nothing else: every table is left with exactly the rows that do
    not belong to the test, in their order.  Version, question and
    submission ids are keys. *)
Theorem handleDeleteTest_keeps_the_rest (faults : Faults Stmt) (test : TestRow)
    (s s' : Store) (log : list Stmt) :
  NoDup (v_id <$> test_versions s) ->
  NoDup (q_id <$> questions s) ->
  NoDup (s_id <$> submissions s) ->
  handleDeleteTest true faults test s = (Deleted, s', log) ->
  let vids := versionIdsOf s (t_id test) in
  let sids := submissionIdsOf s vids in
  let qids := questionIdsOf s vids in
  tests s' = filter (fun t => t_id t <> t_id test) (tests s) /\
  test_versions s' = filter (fun v => v_test_id v <> t_id test) (test_versions s) /\
  questions s' = filter (fun q => q_test_version_id q ∉ vids) (questions s) /\
  options s' = filter (fun o => o_question_id o ∉ qids) (options s) /\
  test_links s' = filter (fun l => l_test_version_id l ∉ vids) (test_links s) /\
  submissions s' = filter (fun sb => s_test_version_id sb ∉ vids) (submissions s) /\
  answers s' = filter (fun a => a_submission_id a ∉ sids) (answers s).
Proof.
  intros Hv Hq Hs [-> _]%handleDeleteTest_success vids sids qids.
  unfold afterCascade. simpl. fold vids. fold sids. fold qids.
  assert (Heq : forall {R} (col : R -> string) k r, eqCol col k r = false <-> col r <> k).
  { intros R col k r. unfold eqCol. by rewrite bool_decide_eq_false. }
  assert (Hin : forall {R} (col : R -> string) ks r, inCol col ks r = false <-> col r ∉ ks).
  { intros R col ks r. unfold inCol. by rewrite bool_decide_eq_false. }
  split_and!.
  - apply deleteWhere_filter. intros t. apply Heq.
  - unfold vids, versionIdsOf. rewrite deleteWhere_keys by done.
    apply list_filter_iff. intros v. apply Heq.
  - unfold qids, questionIdsOf. rewrite deleteWhere_keys by done.
    apply list_filter_iff. intros q. apply Hin.
  - apply deleteWhere_filter. intros o. apply Hin.
  - apply deleteWhere_filter. intros l. apply Hin.
  - unfold sids, submissionIdsOf. rewrite deleteWhere_keys by done.
    apply list_filter_iff. intros sb. apply Hin.
  - apply deleteWhere_filter. intros a. apply Hin.
Qed.

Lemma handleDeleteTest_keeps_the_rest_witness :
  test_versions Sample.storeWithoutQuiz
    = filter (fun v => v_test_id v <> "t1") (test_versions Sample.store) /\
  submissions Sample.storeWithoutQuiz
    = filter (fun sb => s_test_version_id sb ∉ ["v1"; "v2"]) (submissions Sample.store).
Proof.
  destruct (handleDeleteTest_keeps_the_rest noFaults Sample.quiz Sample.store
              Sample.storeWithoutQuiz Sample.quizLog)
    as (_ & Hv & _ & _ & _ & Hs & _).
  - apply (bool_decide_unpack _). vm_compute. exact I.
  - apply (bool_decide_unpack _). vm_compute. exact I.
  - apply (bool_decide_unpack _). vm_compute. exact I.
  - reflexivity.
  - split; [exact Hv|exact Hs].
Defined.

Lemma set_same (s : Store) :
  {| tests := tests s; test_versions := test_versions s; questions := questions s;
     options := options s; test_links := test_links s; submissions := submissions s;
     answers := answers s |} = s.
Proof. by destruct s. Qed.

Ltac stopped H n :=
  injection H as <- <- <-; exists n; split; [lia|];
  unfold partway; simpl;
  repeat match goal with
         | E : versionIdsOf _ _ = _ |- _ => rewrite E; clear E
         | E : submissionIdsOf _ _ = _ |- _ => rewrite E; clear E
         | E : questionIdsOf _ _ = _ |- _ => rewrite E; clear E
         end;
  unfold submissionIdsOf, questionIdsOf;
  rewrite ?selectWhere_inCol_nil; simpl;
  rewrite ?deleteWhere_inCol_nil;
  unfold set_answers, set_submissions, set_options, set_questions, set_test_links,
    set_test_versions, set_tests; simpl;
  rewrite ?set_same; done.

Ltac awaits H st n := destruct st eqn:?; simpl in H; [stopped H n|].

(** A run that fails has done the deletes of the cascade up to some
    point and nothing else. *)
Lemma handleDeleteTest_failed faults test s t s1 log :
  handleDeleteTest true faults test s = (Failed t, s1, log) ->
  exists n, (n <= 6)%nat /\ s1 = partway n s (t_id test).
Proof.
  intros H.
  unfold handleDeleteTest, deleteCascade, await, bind, exec, orThrow, ret, throw in H.
  simpl in H.
  fold (versionIdsOf s (t_id test)) in H.
  awaits H (faults (SelectVersionIds (t_id test))) 0%nat.
  destruct (versionIdsOf s (t_id test)) as [|v vids] eqn:Hv; simpl in H.
  - awaits H (faults (DeleteTest (t_id test))) 0%nat. done.
  - fold (submissionIdsOf s (v :: vids)) in H.
    awaits H (faults (SelectSubmissionIds (v :: vids))) 0%nat.
    fold (questionIdsOf s (v :: vids)) in H.
    destruct (submissionIdsOf s (v :: vids)) as [|sb sids] eqn:Hs; simpl in H.
    + awaits H (faults (SelectQuestionIds (v :: vids))) 0%nat.
      fold (questionIdsOf s (v :: vids)) in H.
      destruct (questionIdsOf s (v :: vids)) as [|q qids] eqn:Hq; simpl in H.
      * awaits H (faults (DeleteLinks (v :: vids))) 0%nat.
        awaits H (faults (DeleteVersions (v :: vids))) 5%nat.
        awaits H (faults (DeleteTest (t_id test))) 6%nat. done.
      * awaits H (faults (DeleteOptions (q :: qids))) 0%nat.
        awaits H (faults (DeleteQuestions (q :: qids))) 3%nat.
        awaits H (faults (DeleteLinks (v :: vids))) 4%nat.
        awaits H (faults (DeleteVersions (v :: vids))) 5%nat.
        awaits H (faults (DeleteTest (t_id test))) 6%nat. done.
    + awaits H (faults (DeleteAnswers (sb :: sids))) 0%nat.
      awaits H (faults (DeleteSubmissions (sb :: sids))) 1%nat.
      awaits H (faults (SelectQuestionIds (v :: vids))) 2%nat.
      fold (questionIdsOf s (v :: vids)) in H.
      destruct (questionIdsOf s (v :: vids)) as [|q qids] eqn:Hq; simpl in H.
      * awaits H (faults (DeleteLinks (v :: vids))) 2%nat.
        awaits H (faults (DeleteVersions (v :: vids))) 5%nat.
        awaits H (faults (DeleteTest (t_id test))) 6%nat. done.
      * awaits H (faults (DeleteOptions (q :: qids))) 2%nat.
        awaits H (faults (DeleteQuestions (q :: qids))) 3%nat.
        awaits H (faults (DeleteLinks (v :: vids))) 4%nat.
        awaits H (faults (DeleteVersions (v :: vids))) 5%nat.
        awaits H (faults (DeleteTest (t_id test))) 6%nat. done.
Qed.

(** Deleting the test in a store a failed run has left gives what
    deleting it in one go would have given. *)
Lemma afterCascade_partway (n : nat) (s : Store) (testId : string) :
  (n <= 6)%nat -> afterCascade (partway n s testId) testId = afterCascade s testId.
Proof.
  intros Hn.
  destruct n as [|[|[|[|[|[|[|n]]]]]]]; [..|lia];
    unfold afterCascade, partway, versionIdsOf, submissionIdsOf, questionIdsOf; simpl;
    repeat (rewrite ?selectWhere_deleted, ?deleteWhere_idemp, ?selectWhere_inCol_nil,
              ?deleteWhere_inCol_nil; simpl);
    done.
Qed.

(** X12. A deletion that fails half way can be repeated: the test is
    still in the list, and deleting it again, with no failure this time,
    ends in the store that one successful deletion would have left. *)
Theorem handleDeleteTest_retry (faults : Faults Stmt) (test : TestRow) (s s1 : Store)
    (t : Thrown) (log1 : list Stmt) :
  handleDeleteTest true faults test s = (Failed t, s1, log1) ->
  tests s1 = tests s /\
  exists log2,
    handleDeleteTest true noFaults test s1 = (Deleted, afterCascade s (t_id test), log2).
Proof.
  intros (n & Hn & ->)%handleDeleteTest_failed. split; [done|].
  destruct (handleDeleteTest_noFaults test (partway n s (t_id test))) as (s' & log2 & H).
  exists log2. rewrite H.
  apply handleDeleteTest_success in H as [-> _].
  by rewrite afterCascade_partway.
Qed.

Lemma handleDeleteTest_retry_witness :
  exists s1 t log1 log2,
    handleDeleteTest true
      (fun st => match st with DeleteQuestions _ => Some "timeout" | _ => None end)
      Sample.quiz Sample.store = (Failed t, s1, log1) /\
    Sample.quiz ∈ tests s1 /\
    handleDeleteTest true noFaults Sample.quiz s1 = (Deleted, Sample.storeWithoutQuiz, log2).
Proof.
  destruct (handleDeleteTest_retry
              (fun st => match st with DeleteQuestions _ => Some "timeout" | _ => None end)
              Sample.quiz Sample.store
              (partway 3 Sample.store "t1")
              (PgThrown {| code := OtherCode; message := "timeout" |})
              [SelectVersionIds "t1"; SelectSubmissionIds ["v1"; "v2"];
               DeleteAnswers ["s1"; "s2"; "s3"]; DeleteSubmissions ["s1"; "s2"; "s3"];
               SelectQuestionIds ["v1"; "v2"]; DeleteOptions ["q1"; "q2"];
               DeleteQuestions ["q1"; "q2"]])
    as (Ht & log2 & Hretry).
  - reflexivity.
  - eexists _, _, _, log2. split; [reflexivity|]. split; [|exact Hretry].
    apply list_elem_of_here.
Defined.

End CascadeMore.

(** ** The counts of the list of tests *)

Section DashboardCounts.
Import Dashboard.

Lemma versionByTest_acc (versions : list VersionRow) (m : gmap string (list VersionRow))
    (k : string) :
  default [] (foldl (fun (m : gmap string (list VersionRow)) version =>
                       <[v_test_id version :=
                           default [] (m !! v_test_id version) ++ [version]]> m)
                    m versions !! k)
  = default [] (m !! k) ++ filter (fun v => v_test_id v = k) versions.
Proof.
  revert m. induction versions as [|v versions IH]; intros m; simpl.
  - rewrite ?filter_nil. by rewrite app_nil_r.
  - rewrite IH, filter_cons. destruct (decide (v_test_id v = k)) as [<-|Hne].
    + rewrite lookup_insert_eq. simpl. by rewrite <- app_assoc.
    + by rewrite lookup_insert_ne.
Qed.

Lemma versionByTest_lookup (versions : list VersionRow) (k : string) :
  default [] (versionByTest versions !! k) = filter (fun v => v_test_id v = k) versions.
Proof. unfold versionByTest. by rewrite versionByTest_acc, lookup_empty. Qed.

Lemma subCountByVersion_acc (submissions : list SubmissionRow) (m : gmap string nat)
    (k : string) :
  default 0%nat
    (foldl (fun (m : gmap string nat) submission =>
              <[s_test_version_id submission :=
                  (default 0 (m !! s_test_version_id submission) + 1)%nat]> m)
           m submissions !! k)
  = (default 0 (m !! k)
     + length (filter (fun sub => s_test_version_id sub = k) submissions))%nat.
Proof.
  revert m. induction submissions as [|sub submissions IH]; intros m; simpl.
  - rewrite ?filter_nil. simpl. lia.
  - rewrite IH, filter_cons. destruct (decide (s_test_version_id sub = k)) as [<-|Hne].
    + rewrite lookup_insert_eq. simpl. lia.
    + by rewrite lookup_insert_ne.
Qed.

Lemma subCountByVersion_lookup (submissions : list SubmissionRow) (k : string) :
  default 0%nat (subCountByVersion submissions !! k)
  = length (filter (fun sub => s_test_version_id sub = k) submissions).
Proof. unfold subCountByVersion. by rewrite subCountByVersion_acc, lookup_empty. Qed.

Lemma subCountByTest_acc (tests : list TestRow) (versions : list VersionRow)
    (submissions : list SubmissionRow) (m : gmap string nat) (k : string) :
  foldl (fun (m : gmap string nat) test =>
           let testVersions := default [] (versionByTest versions !! t_id test) in
           <[t_id test :=
               foldl (fun sum version =>
                        (sum + default 0 (subCountByVersion submissions !! v_id version))%nat)
                     0%nat testVersions]> m)
        m tests !! k
  = if decide (k ∈ t_id <$> tests)
    then Some (foldl (fun sum version =>
                        (sum + default 0 (subCountByVersion submissions !! v_id version))%nat)
                     0%nat (default [] (versionByTest versions !! k)))
    else m !! k.
Proof.
  revert m. induction tests as [|t tests IH]; intros m; simpl.
  - first [done | rewrite decide_False; [done|]; apply not_elem_of_nil].
  - rewrite IH. destruct (decide (k ∈ t_id <$> tests)) as [Hin|Hin].
    + rewrite decide_True; [done|]. by right.
    + destruct (decide (t_id t = k)) as [<-|Hne].
      * rewrite lookup_insert_eq. rewrite decide_True; [done|]. left.
      * rewrite lookup_insert_ne by done. rewrite decide_False; [done|].
        rewrite not_elem_of_cons. by split.
Qed.

Lemma count_versions (submissions : list SubmissionRow) (versions : list VersionRow)
    (sum : nat) :
  NoDup (v_id <$> versions) ->
  foldl (fun sum version =>
           (sum + default 0 (subCountByVersion submissions !! v_id version))%nat)
        sum versions
  = (sum + length (filter (fun sub => s_test_version_id sub ∈ v_id <$> versions)
                          submissions))%nat.
Proof.
  revert sum. induction versions as [|v versions IH]; intros sum Hnd; simpl.
  - rewrite filter_none; [simpl; lia|]. intros sub _. apply not_elem_of_nil.
  - rewrite fmap_cons in Hnd. apply NoDup_cons in Hnd as [Hv Hnd].
    rewrite IH, subCountByVersion_lookup by done.
    rewrite <- Nat.add_assoc. f_equal.
    clear IH. induction submissions as [|sub submissions IHs]; [done|].
    rewrite !filter_cons.
    destruct (decide (s_test_version_id sub = v_id v)) as [E|E].
    + rewrite decide_False by (by rewrite E).
      rewrite decide_True by (rewrite E; left). simpl. lia.
    + destruct (decide (s_test_version_id sub ∈ v_id <$> versions)) as [Hin|Hin].
      * rewrite decide_True by (by right). simpl. lia.
      * rewrite decide_False; [done|]. rewrite not_elem_of_cons. by split.
Qed.

(** X13. The number shown beside a test of the list is the number of
    submissions made on the versions of that test.  Version ids are
    keys. *)
Theorem submissionsCount_counts (tests : list TestRow) (versions : list VersionRow)
    (submissions : list SubmissionRow) (test : TestRow) :
  NoDup (v_id <$> versions) -> test ∈ tests ->
  submissionsCount tests versions submissions test
  = length (submissionsOfTest versions submissions test).
Proof.
  intros Hnd Hin. unfold submissionsCount, subCountByTest.
  rewrite subCountByTest_acc, decide_True by (by apply list_elem_of_fmap_2).
  simpl. rewrite versionByTest_lookup, count_versions; [done|].
  eapply sublist_NoDup; [exact Hnd|]. apply fmap_sublist, sublist_filter.
Qed.

Lemma submissionsCount_counts_witness :
  submissionsCount (tests Sample.store) (test_versions Sample.store)
    (submissions Sample.store) Sample.quiz = 3%nat.
Proof.
  rewrite (submissionsCount_counts (tests Sample.store) (test_versions Sample.store)
             (submissions Sample.store) Sample.quiz).
  - reflexivity.
  - apply (bool_decide_unpack _). vm_compute. exact I.
  - apply list_elem_of_here.
Defined.

End DashboardCounts.

(** ** The figures of the statistics view *)

Section StatsFigures.
Import TestStatsPage.

Lemma lastSubmissionTimestamp_acc (l : list SubmissionRow) (acc : option Z) :
  match foldl (fun (latest : option Z) submission =>
                 let current := time (s_created_at submission) in
                 match latest with
                 | None => Some current
                 | Some l => if decide (current > l) then Some current else latest
                 end) acc l with
  | None => acc = None /\ l = []
  | Some m =>
      (acc = Some m \/ exists x, x ∈ l /\ time (s_created_at x) = m) /\
      (forall a, acc = Some a -> a <= m) /\
      (forall y, y ∈ l -> time (s_created_at y) <= m)
  end.
Proof.
  revert acc. induction l as [|x l IH]; intros acc; simpl.
  - destruct acc as [a|]; [|done]. split_and!; [by left| |].
    + by intros ? [= ->].
    + by intros y Hy%elem_of_nil.
  - match goal with |- context [foldl ?f ?a l] => specialize (IH a); destruct (foldl f a l) as [m|] end.
    + destruct IH as (Hm & Hacc & Hall). split_and!.
      * destruct Hm as [Hm|(y & Hy & <-)]; [|right; exists y; split; [by right|done]].
        destruct acc as [a|]; [case_decide|]; first [by left | right; exists x; split; [left|congruence]].
      * intros a ->. case_decide; [|by apply Hacc].
        specialize (Hacc _ eq_refl). lia.
      * intros y [->|Hy]%elem_of_cons; [|by apply Hall].
        destruct acc as [a|]; [case_decide|]; specialize (Hacc _ eq_refl); lia.
    + destruct IH as [IH _]. destruct acc as [a|]; [case_decide|]; done.
Qed.

(** X14. The last submission the metrics report is the submission at
    the head of the table of recent submissions, and there is none
    exactly when no submission passes the filters. *)
Theorem metrics_last_is_first_row (filtered : list SubmissionRow) :
  lastSubmissionAt (metrics true filtered)
  = (fun sub => time (s_created_at sub)) <$> head (latestSubmissions true filtered) /\
  (lastSubmissionAt (metrics true filtered) = None <-> filtered = []).
Proof.
  unfold metrics, latestSubmissions, lastSubmissionTimestamp. simpl.
  pose proof (lastSubmissionTimestamp_acc filtered None) as Hacc.
  destruct (foldl _ None filtered) as [m|] eqn:E.
  - destruct Hacc as ([[=]|(x & Hx & Hm)] & _ & Hall).
    split; [|split; [done|intros ->; by apply elem_of_nil in Hx]].
    destruct (sort_by_nonempty byCreatedDesc filtered) as (y & rest & Hs).
    { intros ->. by apply elem_of_nil in Hx. }
    rewrite Hs. simpl. f_equal.
    destruct (sort_by_head byCreatedDesc byCreatedDesc_total byCreatedDesc_trans
                y rest filtered Hs) as [Hy Hfirst].
    specialize (Hfirst x Hx). unfold Js.before, byCreatedDesc in Hfirst.
    specialize (Hall y Hy). lia.
  - destruct Hacc as [_ ->]. done.
Qed.

(** What a successful [load] of the statistics view holds. *)
Lemma TestStatsPage_load_rows faults slug s loaded c :
  load faults slug (s, []) = (Ok loaded, c) ->
  let versionId := v_id (testVersion loaded) in
  questions loaded
    = orderBy (byOrdAsc q_ord) (selectWhere (eqCol q_test_version_id versionId) (Db.questions s)) /\
  options loaded
    = orderBy (byOrdAsc o_ord)
        (selectWhere (inCol o_question_id
                        (q_id <$> filter (fun q => isSingle q = true) (questions loaded)))
                     (Db.options s)) /\
  submissions loaded
    = orderBy byCreatedDesc
        (selectWhere (eqCol s_test_version_id versionId) (Db.submissions s)) /\
  answers loaded
    = selectWhere (inCol a_submission_id (s_id <$> submissions loaded)) (Db.answers s).
Proof.
  unfold load, bind, exec, orThrow, ret, throw. simpl.
  destruct (faults SelectTest); simpl; [done|].
  destruct (testBySlug slug s) as [t|e] eqn:Ht; simpl; [|done].
  destruct (faults SelectVersion); simpl; [done|].
  destruct (latestVersion (t_id t) s) as [[v|]|e] eqn:Hv; simpl; [|done|done].
  destruct (faults SelectQuestions); simpl; [done|].
  destruct (q_id <$> filter _ _) as [|i ids] eqn:Hids; simpl.
  - destruct (faults SelectSubmissions); simpl; [done|].
    destruct (s_id <$> _) as [|j sids] eqn:Hsids; simpl.
    + intros [= <- <-]. simpl. rewrite Hids, Hsids.
      by rewrite !selectWhere_inCol_nil.
    + destruct (faults SelectAnswers); simpl; [done|].
      intros [= <- <-]. simpl. rewrite Hids, Hsids.
      by rewrite !selectWhere_inCol_nil.
  - destruct (faults SelectOptions); simpl; [done|].
    destruct (faults SelectSubmissions); simpl; [done|].
    destruct (s_id <$> _) as [|j sids] eqn:Hsids; simpl.
    + intros [= <- <-]. simpl. rewrite Hids, Hsids.
      by rewrite !selectWhere_inCol_nil.
    + destruct (faults SelectAnswers); simpl; [done|].
      intros [= <- <-]. simpl. by rewrite Hids, Hsids.
Qed.

Lemma filter_length_impl {A : Type} (P Q : A -> Prop) `{!forall x, Decision (P x)}
    `{!forall x, Decision (Q x)} (l : list A) :
  (forall x, P x -> Q x) -> (length (filter P l) <= length (filter Q l))%nat.
Proof.
  intros Himp. induction l as [|x l IH]; [done|].
  rewrite !filter_cons.
  destruct (decide (P x)) as [HP|HP], (decide (Q x)) as [HQ|HQ]; simpl; try lia.
  destruct HQ. by apply Himp.
Qed.

Lemma applyFilters_reset (tz : Zone) (filters : Filters) (subs : list SubmissionRow) :
  applyFilters tz (handleResetFilters filters) subs = subs.
Proof.
  unfold applyFilters, handleResetFilters, filteredSubmissions. simpl.
  apply filter_all. intros sub _. reflexivity.
Qed.

(** X15. With the filters cleared the statistics view counts the
    submissions made on the version it resolves, all of them and no
    other.  This is never more than the number the list of tests shows
    for the test, and the same number when the test has only this
    version.  Version ids are keys. *)
Theorem stats_total_within_count (faults : Faults Stmt) (slug : string) (s : Store)
    (loaded : Loaded) c (tz : Zone) (filters : Filters) :
  NoDup (v_id <$> test_versions s) ->
  load faults slug (s, []) = (Ok loaded, c) ->
  let shown := applyFilters tz (handleResetFilters filters) (submissions loaded) in
  let listed := Dashboard.submissionsCount (tests s) (test_versions s) (Db.submissions s)
                  (test loaded) in
  shown ≡ₚ filter (fun sub => s_test_version_id sub = v_id (testVersion loaded))
                  (Db.submissions s) /\
  (totalSubmissions (metrics true shown) <= listed)%nat /\
  (versionsOf (t_id (test loaded)) s = [testVersion loaded] ->
   totalSubmissions (metrics true shown) = listed).
Proof.
  intros Hnd Hload shown listed.
  destruct (TestStatsPage_load_rows _ _ _ _ _ Hload) as (_ & _ & Hsubs & _).
  destruct (TestStatsPage_load_ok _ _ _ _ _ Hload) as [Ht Hv].
  assert (Hin : test loaded ∈ tests s).
  { unfold testBySlug in Ht.
    destruct (selectWhere (eqCol t_slug slug) (tests s)) as [|t [|t' ts]] eqn:E; try done.
    injection Ht as <-.
    assert (t ∈ selectWhere (eqCol t_slug slug) (tests s)) as Hsel by (rewrite E; left).
    by apply selectWhere_spec in Hsel as [? _]. }
  apply latestVersion_max in Hv as [[Hvin Hvt]%versionsOf_spec _].
  subst shown. rewrite applyFilters_reset.
  assert (Hperm : submissions loaded
                  ≡ₚ filter (fun sub => s_test_version_id sub = v_id (testVersion loaded))
                            (Db.submissions s)).
  { rewrite Hsubs. unfold orderBy. rewrite sort_by_perm. by rewrite selectWhere_eqCol. }
  subst listed. unfold Dashboard.submissionsCount, Dashboard.subCountByTest.
  rewrite subCountByTest_acc, decide_True by (by apply list_elem_of_fmap_2).
  cbn [default]. rewrite versionByTest_lookup, count_versions
    by (eapply sublist_NoDup; [exact Hnd|]; apply fmap_sublist, sublist_filter).
  unfold metrics. simpl. rewrite Hperm.
  split_and!; [done| |].
  - apply filter_length_impl. intros sub ->.
    apply list_elem_of_fmap_2, list_elem_of_filter. by split.
  - intros Hone. f_equal. apply list_filter_iff. intros sub.
    unfold versionsOf in Hone. rewrite selectWhere_eqCol in Hone. rewrite Hone.
    simpl. by rewrite list_elem_of_singleton.
Qed.

Lemma stats_total_within_count_witness :
  exists loaded c,
    load noFaults "quiz-k3x9ab" (Sample.store, []) = (Ok loaded, c) /\
    (totalSubmissions
       (metrics true
          (applyFilters Sample.newYork
             (handleResetFilters
                {| dateFrom := Some Sample.jan15; dateTo := None; participantQuery := "ann" |})
             (submissions loaded)))
     <= Dashboard.submissionsCount (tests Sample.store) (test_versions Sample.store)
          (Db.submissions Sample.store) (test loaded))%nat.
Proof.
  destruct (load noFaults "quiz-k3x9ab" (Sample.store, [])) as [[loaded|t] c] eqn:E;
    [|vm_compute in E; discriminate].
  exists loaded, c. split; [reflexivity|].
  refine (proj1 (proj2 (stats_total_within_count noFaults "quiz-k3x9ab" Sample.store _ _
                          Sample.newYork _ _ E))).
  apply (bool_decide_unpack _). vm_compute. exact I.
Defined.

End StatsFigures.

(** ** Switching the public link off and on *)

Section LinkSwitch.
Import TestLinkPage.

Lemma toggleActive_rows (l0 l : LinkRow) (s : Store) :
  NoDup (l_id <$> test_links s) -> l ∈ test_links s -> l_id l0 = l_id l ->
  test_links (toggleActive l0 s)
  = (fun r => if decide (l_id r = l_id l)
              then {| l_id := l_id l; l_test_version_id := l_test_version_id l;
                      l_public_id := l_public_id l; l_is_active := negb (l_is_active l0) |}
              else r) <$> test_links s.
Proof.
  intros Hnd Hin E. unfold toggleActive. simpl. apply list_fmap_ext.
  intros i r Hr. apply list_elem_of_lookup_2 in Hr. unfold eqCol. rewrite E.
  case_bool_decide as Hid.
  - assert (r = l) as -> by (by eapply NoDup_fmap_elem).
    by rewrite decide_True.
  - by rewrite decide_False.
Qed.

Lemma link_eta (l : LinkRow) :
  {| l_id := l_id l; l_test_version_id := l_test_version_id l;
     l_public_id := l_public_id l; l_is_active := l_is_active l |} = l.
Proof. by destruct l. Qed.

Lemma set_test_links_same (s : Store) : set_test_links s (test_links s) = s.
Proof. by destruct s. Qed.

(** X16. Switching a link changes its [is_active] flag and nothing
    else: the public id, the version and every other link stay, and
    switching twice gives back the store and the link as they were.
    Link ids are keys. *)
Theorem handleToggle_twice (l : LinkRow) (s : Store) :
  NoDup (l_id <$> test_links s) -> l ∈ test_links s ->
  exists l' s',
    handleToggle noFaults (Some l) s = (Some l', s') /\
    l_public_id l' = l_public_id l /\
    l_test_version_id l' = l_test_version_id l /\
    l_is_active l' = negb (l_is_active l) /\
    test_links s'
      = (fun r => if decide (l_id r = l_id l) then l' else r) <$> test_links s /\
    handleToggle noFaults (Some l') s' = (Some l, s).
Proof.
  intros Hnd Hin. unfold handleToggle, noFaults. eexists _, _.
  split; [reflexivity|]. cbn [l_public_id l_test_version_id l_is_active l_id].
  split_and!; try done.
  - by apply toggleActive_rows.
  - rewrite negb_involutive, link_eta. f_equal.
    rewrite <- (set_test_links_same s) at 2.
    unfold toggleActive at 1. cbn [l_id l_is_active]. unfold set_test_links.
    cbn [tests test_versions questions options submissions answers test_links toggleActive
         set_test_links].
    f_equal. rewrite <- list_fmap_compose.
    rewrite <- (list_fmap_id (test_links s)) at 2.
    apply list_fmap_ext. intros i r Hr. apply list_elem_of_lookup_2 in Hr.
    unfold eqCol. simpl.
    destruct (bool_decide (l_id r = l_id l)) eqn:Hid; simpl.
    + rewrite Hid. apply bool_decide_eq_true in Hid.
      assert (r = l) as -> by (by eapply NoDup_fmap_elem).
      rewrite negb_involutive. apply link_eta.
    + by rewrite Hid.
Qed.

Lemma handleToggle_twice_witness :
  exists l' s',
    handleToggle noFaults (Some Sample.link1) Sample.store = (Some l', s') /\
    l_is_active l' = false /\
    handleToggle noFaults (Some l') s' = (Some Sample.link1, Sample.store).
Proof.
  destruct (handleToggle_twice Sample.link1 Sample.store)
    as (l' & s' & H1 & _ & _ & Hact & _ & H2).
  - apply (bool_decide_unpack _). vm_compute. exact I.
  - apply list_elem_of_here.
  - exists l', s'. split; [exact H1|]. split; [exact Hact|exact H2].
Defined.

Lemma render_no_link faults (publicId : string) (s : Store) (st : PublicTestPage.State) :
  PublicTestPage.noActiveLink publicId s ->
  PublicTestPage.render (PublicTestPage.loadEffect faults (Some publicId) true s st)
  = PublicTestPage.ErrorView PublicTestPage.ERROR_MESSAGE.
Proof.
  intros Hno. unfold PublicTestPage.loadEffect.
  destruct (Js.truthy publicId); [|done]. simpl.
  by destruct (fetch_none faults publicId s Hno) as [c ->].
Qed.

(** X17. Once the operator has switched an active link off, the page
    behind its public id shows the error message to every visitor,
    whatever else the store holds.  Link ids and public ids are keys. *)
Theorem switched_off_link_closes_page (faults : Faults PublicTestPage.Stmt)
    (l : LinkRow) (s : Store) (st : PublicTestPage.State) :
  NoDup (l_id <$> test_links s) ->
  NoDup (l_public_id <$> test_links s) ->
  l ∈ test_links s -> l_is_active l = true ->
  PublicTestPage.render
    (PublicTestPage.loadEffect faults (Some (l_public_id l)) true
       (handleToggle noFaults (Some l) s).2 st)
  = PublicTestPage.ErrorView PublicTestPage.ERROR_MESSAGE.
Proof.
  intros Hid Hpub Hin Hact. apply render_no_link.
  intros r Hr Hp. unfold handleToggle, noFaults in Hr. cbn [snd] in Hr.
  rewrite (toggleActive_rows l l) in Hr by done.
  apply list_elem_of_fmap in Hr as (r0 & -> & Hr0).
  destruct (decide (l_id r0 = l_id l)) as [E|Hne].
  - simpl. by rewrite Hact.
  - destruct Hne. f_equal. by eapply (NoDup_fmap_elem l_public_id).
Qed.

Lemma switched_off_link_closes_page_witness :
  PublicTestPage.render
    (PublicTestPage.loadEffect noFaults (Some "pub1") true
       (handleToggle noFaults (Some Sample.link1) Sample.store).2
       PublicTestPage.initialState)
  = PublicTestPage.ErrorView PublicTestPage.ERROR_MESSAGE.
Proof.
  apply (switched_off_link_closes_page noFaults Sample.link1 Sample.store).
  - apply (bool_decide_unpack _). vm_compute. exact I.
  - apply (bool_decide_unpack _). vm_compute. exact I.
  - apply list_elem_of_here.
  - reflexivity.
Defined.

End LinkSwitch.

(** ** Who the guard lets in *)

Section Guard.
Import AdminGuard.

Lemma isAdmin_profile (session : option string) (profiles : list ProfileRow)
    (fault : option string) :
  match session with
  | None => False
  | Some userId =>
      isAdmin match fault with
              | Some _ => None
              | None =>
                  match maybeSingle (selectWhere (eqCol p_id userId) profiles) with
                  | Data row => row
                  | Error _ => None
                  end
              end = true
  end <-> administrator session profiles fault.
Proof.
  unfold administrator. destruct session as [userId|].
  - destruct fault as [msg|]; simpl.
    + split; [done|]. by intros [[=] _].
    + destruct (selectWhere (eqCol p_id userId) profiles) as [|row [|row' rest]] eqn:E; simpl.
      * split; [done|]. intros [_ (u & r & [= <-] & Hsel & _)]. congruence.
      * destruct (p_is_admin row) as [[|]|] eqn:Ha; simpl.
        -- split; [|done]. intros _. split; [done|]. exists userId, row. by rewrite E.
        -- split; [done|]. intros [_ (u & r & [= <-] & Hsel & Hr)].
           rewrite E in Hsel. injection Hsel as <-. congruence.
        -- split; [done|]. intros [_ (u & r & [= <-] & Hsel & Hr)].
           rewrite E in Hsel. injection Hsel as <-. congruence.
      * split; [done|]. intros [_ (u & r & [= <-] & Hsel & _)]. congruence.
  - split; [done|]. by intros [_ (u & r & [=] & _)].
Qed.

(** X18. The guard reports authorized only for a mounted page whose
    session belongs to an administrator: a user with exactly one profile
    row, which has the flag set, read without failure.  Everyone else,
    also when the profile query fails or finds two rows, is sent to
    /login once, unless the page is /login already; an administrator is
    never sent away. *)
Theorem checkAccess_lets_in_administrators (session : option string)
    (profiles : list ProfileRow) (fault : option string) (pathname : string)
    (isMounted : bool) :
  let result := checkAccess session profiles fault pathname isMounted in
  (isAuthorized result.1 = true <->
   administrator session profiles fault /\ isMounted = true) /\
  (result.2 = [Replace "/login"] <->
   ~ administrator session profiles fault /\ pathname <> "/login") /\
  (result.2 = [] <-> administrator session profiles fault \/ pathname = "/login").
Proof.
  pose proof (isAdmin_profile session profiles fault) as Hadmin.
  unfold checkAccess. destruct session as [userId|].
  - match goal with |- context [isAdmin ?p] => destruct (isAdmin p) eqn:E end; simpl.
    + assert (administrator (Some userId) profiles fault) as Ha by (by apply Hadmin).
      clear Hadmin E.
      destruct isMounted; simpl; split_and!; split; intros H; try done; try tauto.
    + assert (~ administrator (Some userId) profiles fault) as Ha.
      { intros Ha. apply Hadmin in Ha. congruence. }
      clear Hadmin E.
      case_bool_decide as Hp; simpl; split_and!; split; intros H; try done; try tauto.
  - assert (~ administrator None profiles fault) as Ha by (by intros Ha%Hadmin).
    clear Hadmin.
    simpl. case_bool_decide as Hp; simpl; split_and!; split; intros H; try done; try tauto.
Qed.

End Guard.

(** ** What a submission writes *)

Section PublicSubmit.
Import PublicTestPage.

(** The store a submission that goes through leaves. *)
Lemma handleSubmit_redirected_store faults fresh now publicId st s url ens s' log :
  handleSubmit faults fresh now publicId st s = (Redirected url, ens, s', log) ->
  exists versionId,
    testVersionId st = Some versionId /\
    Js.truthy (Js.trim (participant st)) = true /\
    s' = set_answers
           (set_submissions s
              (Db.submissions s ++
                 [{| s_id := fresh; s_test_version_id := versionId;
                     s_participant := Js.trim (participant st); s_created_at := now |}]))
           (answers s ++ answersPayload fresh (questions st) ens).
Proof.
  unfold handleSubmit.
  destruct (testVersionId st) as [vid|]; [|done].
  destruct publicId as [pid|]; [|done].
  destruct (negb _); [done|].
  destruct (Js.truthy (Js.trim (participant st))) eqn:Hp; [|done]. simpl.
  destruct (missingSingleChoice _ _) eqn:H1; [done|].
  destruct (missingTextAnswer _ _) eqn:H2; [done|].
  unfold record, bind, exec, orThrow, ret, throw. simpl.
  destruct (faults InsertSubmission); simpl; [done|].
  destruct (faults InsertAnswers); simpl; [done|].
  intros [= _ <- <- <-]. by exists vid.
Qed.

Lemma existsb_false {A : Type} (p : A -> bool) (l : list A) (x : A) :
  existsb p l = false -> x ∈ l -> p x = false.
Proof.
  induction l as [|y l IH]; simpl; [by intros _ ?%elem_of_nil|].
  intros [Hy Hl]%orb_false_iff [->|Hx]%elem_of_cons; auto.
Qed.

(** X19. A submission that goes through adds one submission row with
    the trimmed, non-empty name, and one answer row per question of the
    form, in the order of the form: for a choice question the row holds
    an option id and no text, for a text question a text that is not
    empty and no option id.  Nothing else in the store changes. *)
Theorem handleSubmit_records (faults : Faults Stmt) (fresh : string) (now : Timestamp)
    (publicId : option string) (st : State) (s s' : Store) (url : string)
    (ens : gmap string string) (log : list Stmt) :
  handleSubmit faults fresh now publicId st s = (Redirected url, ens, s', log) ->
  exists versionId rows,
    testVersionId st = Some versionId /\
    Db.submissions s'
      = Db.submissions s ++
          [{| s_id := fresh; s_test_version_id := versionId;
              s_participant := Js.trim (participant st); s_created_at := now |}] /\
    Js.trim (participant st) <> EmptyString /\
    answers s' = answers s ++ rows /\
    a_question_id <$> rows = id <$> questions st /\
    Forall (fun a => a_submission_id a = fresh) rows /\
    Forall2 (fun q a =>
               match kind q with
               | SINGLE => Js.truthy_opt (a_option_id a) = true /\ a_free_text a = None
               | TEXT => a_option_id a = None /\
                         exists text, a_free_text a = Some text /\ text <> EmptyString
               end) (questions st) rows /\
    tests s' = tests s /\ test_versions s' = test_versions s /\
    Db.questions s' = Db.questions s /\ Db.options s' = Db.options s /\
    test_links s' = test_links s.
Proof.
  intros H.
  destruct (handleSubmit_redirected _ _ _ _ _ _ _ _ _ _ H) as (_ & Hsingle & Htext & _ & _).
  destruct (handleSubmit_redirected_store _ _ _ _ _ _ _ _ _ _ H) as (vid & Hv & Hp & ->).
  exists vid, (answersPayload fresh (questions st) ens). simpl.
  split_and!; try done.
  - intros E. rewrite E in Hp. done.
  - unfold answersPayload. rewrite <- list_fmap_compose. apply list_fmap_ext.
    intros i q _. simpl. by destruct (kind q).
  - unfold answersPayload. apply Forall_fmap, Forall_forall. intros q _. simpl.
    by destruct (kind q).
  - unfold answersPayload. apply Forall2_fmap_r, Forall2_same_length_lookup.
    split; [done|]. intros i q q' Hq Hq'. assert (q' = q) as -> by congruence.
    apply list_elem_of_lookup_2 in Hq.
    pose proof (existsb_false _ _ q Hsingle Hq) as H1.
    pose proof (existsb_false _ _ q Htext Hq) as H2. simpl in H1, H2.
    unfold compose. cbn beta. destruct (kind q); simpl.
    + split; [|done]. unfold answered in H1. by apply negb_false_iff in H1.
    + split; [done|]. eexists. split; [done|].
      apply negb_false_iff in H2. intros E. rewrite E in H2. done.
Qed.

Lemma handleSubmit_records_witness :
  exists s' rows,
    handleSubmit noFaults "s9" Sample.eveTime (Some "pub1") Sample.eveState Sample.store
      = (Redirected "/t/pub1/done", {[ "q1" := "o1"; "q2" := "because" ]}, s',
         [InsertSubmission; InsertAnswers]) /\
    answers s' = answers Sample.store ++ rows /\
    a_question_id <$> rows = ["q1"; "q2"].
Proof.
  destruct (handleSubmit_records noFaults "s9" Sample.eveTime (Some "pub1") Sample.eveState
              Sample.store
              (set_answers
                 (set_submissions Sample.store
                    (Db.submissions Sample.store ++
                       [{| s_id := "s9"; s_test_version_id := "v1";
                           s_participant := "Eve"; s_created_at := Sample.eveTime |}]))
                 (answers Sample.store ++
                    [Sample.choice "s9" "q1" "o1"; Sample.words "s9" "q2" "because"]))
              "/t/pub1/done" {[ "q1" := "o1"; "q2" := "because" ]}
              [InsertSubmission; InsertAnswers])
    as (vid & rows & _ & _ & _ & Hrows & Hids & _).
  - vm_compute. reflexivity.
  - eexists _, rows. split; [vm_compute; reflexivity|]. split; [exact Hrows|exact Hids].
Defined.

Lemma ensureAnswers_answered (qs : list Question) (m : gmap string string) :
  missingSingleChoice qs m = false -> ensureAnswers qs m = m.
Proof.
  unfold ensureAnswers, missingSingleChoice.
  induction qs as [|q qs IH]; simpl; [done|].
  intros [Hq Hqs]%orb_false_iff.
  assert (ensureAnswer m q = m) as ->; [|by apply IH].
  unfold ensureAnswer. destruct (kind q); [|done].
  apply negb_false_iff in Hq. by rewrite Hq.
Qed.

(** X20. When the answers cannot be saved the submission row written
    just before stays in the store without answers and the participant
    is told to try again; a second attempt that goes through then
    records the same participant a second time. *)
Theorem handleSubmit_failed_answers (faults : Faults Stmt) (fresh fresh2 : string)
    (now now2 : Timestamp) (publicId : option string) (st : State) (s s0 : Store)
    (url msg : string) (ens : gmap string string) (log0 : list Stmt) :
  handleSubmit noFaults fresh now publicId st s = (Redirected url, ens, s0, log0) ->
  faults InsertSubmission = None -> faults InsertAnswers = Some msg ->
  exists versionId s1 s2,
    testVersionId st = Some versionId /\
    handleSubmit faults fresh now publicId st s
      = (Alerted ("Ошибка сохранения ответов: " +:+ msg), ens, s1,
         [InsertSubmission; InsertAnswers]) /\
    Db.submissions s1
      = Db.submissions s ++
          [{| s_id := fresh; s_test_version_id := versionId;
              s_participant := Js.trim (participant st); s_created_at := now |}] /\
    answers s1 = answers s /\
    handleSubmit noFaults fresh2 now2 publicId (setAnswersState st ens) s1
      = (Redirected url, ens, s2, [InsertSubmission; InsertAnswers]) /\
    Db.submissions s2
      = Db.submissions s ++
          [{| s_id := fresh; s_test_version_id := versionId;
              s_participant := Js.trim (participant st); s_created_at := now |};
           {| s_id := fresh2; s_test_version_id := versionId;
              s_participant := Js.trim (participant st); s_created_at := now2 |}].
Proof.
  intros H Hsub Hans.
  destruct (handleSubmit_redirected _ _ _ _ _ _ _ _ _ _ H) as (Hens & Hsingle & Htext & _ & _).
  revert H. unfold handleSubmit. simpl.
  destruct (testVersionId st) as [vid|]; [|done].
  destruct publicId as [pid|]; [|done].
  destruct (negb (Js.truthy vid && Js.truthy pid)); [done|].
  destruct (negb (Js.truthy (Js.trim (participant st)))); [done|].
  rewrite <- Hens, (ensureAnswers_answered _ _ Hsingle), Hsingle, Htext.
  unfold record, bind, exec, orThrow, ret, throw, noFaults. simpl.
  rewrite Hsub. simpl. rewrite Hans. simpl.
  intros [= <- _ _]. eexists vid, _, _. split_and!; try reflexivity.
  simpl. by rewrite <- app_assoc.
Qed.

Lemma handleSubmit_failed_answers_witness :
  exists s1 s2,
    handleSubmit (fun st => match st with InsertAnswers => Some "timeout" | _ => None end)
      "s9" Sample.eveTime (Some "pub1") Sample.eveState Sample.store
      = (Alerted ("Ошибка сохранения ответов: " +:+ "timeout"),
         {[ "q1" := "o1"; "q2" := "because" ]}, s1, [InsertSubmission; InsertAnswers]) /\
    answers s1 = answers Sample.store /\
    length (Db.submissions s1) = 5%nat /\
    handleSubmit noFaults "s10" Sample.eveTime (Some "pub1")
      (setAnswersState Sample.eveState {[ "q1" := "o1"; "q2" := "because" ]}) s1
      = (Redirected "/t/pub1/done", {[ "q1" := "o1"; "q2" := "because" ]}, s2,
         [InsertSubmission; InsertAnswers]) /\
    length (Db.submissions s2) = 6%nat.
Proof.
  destruct (handleSubmit_failed_answers
              (fun st => match st with InsertAnswers => Some "timeout" | _ => None end)
              "s9" "s10" Sample.eveTime Sample.eveTime (Some "pub1") Sample.eveState
              Sample.store
              (set_answers
                 (set_submissions Sample.store
                    (Db.submissions Sample.store ++
                       [{| s_id := "s9"; s_test_version_id := "v1";
                           s_participant := "Eve"; s_created_at := Sample.eveTime |}]))
                 (answers Sample.store ++
                    [Sample.choice "s9" "q1" "o1"; Sample.words "s9" "q2" "because"]))
              "/t/pub1/done" "timeout" {[ "q1" := "o1"; "q2" := "because" ]}
              [InsertSubmission; InsertAnswers])
    as (vid & s1 & s2 & _ & H1 & Hs1 & Ha1 & H2 & Hs2).
  - vm_compute. reflexivity.
  - reflexivity.
  - reflexivity.
  - exists s1, s2. split; [exact H1|]. split; [exact Ha1|].
    split; [by rewrite Hs1|]. split; [exact H2|]. by rewrite Hs2.
Defined.

End PublicSubmit.

(** ** The page of one submission *)

Section LastWins.
Context {A : Type} (key : A -> string).

Lemma foldl_insert_absent (l : list A) (m : gmap string A) (k : string) :
  k ∉ key <$> l -> foldl (fun (m : gmap string A) x => <[key x := x]> m) m l !! k = m !! k.
Proof.
  revert m. induction l as [|y l IH]; intros m Hk; simpl; [done|].
  rewrite fmap_cons, not_elem_of_cons in Hk. destruct Hk as [Hy Hl].
  rewrite IH by done. by rewrite lookup_insert_ne.
Qed.

(** With distinct keys the map holds every row under its key. *)
Lemma foldl_insert_lookup (l : list A) (m : gmap string A) (x : A) :
  NoDup (key <$> l) -> x ∈ l ->
  foldl (fun (m : gmap string A) x => <[key x := x]> m) m l !! key x = Some x.
Proof.
  revert m. induction l as [|y l IH]; intros m Hnd Hx; [by apply elem_of_nil in Hx|].
  rewrite fmap_cons in Hnd. apply NoDup_cons in Hnd as [Hy Hnd]. simpl.
  apply elem_of_cons in Hx as [->|Hx]; [|by apply IH].
  rewrite foldl_insert_absent by done. apply lookup_insert_eq.
Qed.

End LastWins.

Section Details.
Import SubmissionDetailsPage.

(** What [load] holds when nothing fails and the submission belongs to
    the test. *)
Lemma SubmissionDetailsPage_load_noFaults (slug submissionId : string) (s : Store)
    (t : TestRow) (sub : SubmissionRow) (v : VersionRow) :
  testBySlug slug s = Data t ->
  submissionsById submissionId s = [(sub, v)] ->
  v_test_id v = t_id t ->
  exists log,
    load noFaults slug submissionId (s, [])
    = (Ok {| submission := sub;
             answers := selectWhere (eqCol a_submission_id (s_id sub)) (Db.answers s);
             questions := PublicTestPage.questionsOfVersion (s_test_version_id sub) s;
             options :=
               orderBy (TestStatsPage.byOrdAsc o_ord)
                 (selectWhere
                    (inCol o_question_id
                       (q_id <$> filter (fun q => TestStatsPage.isSingle q = true)
                                   (PublicTestPage.questionsOfVersion (s_test_version_id sub) s)))
                    (Db.options s)) |}, (s, log)).
Proof.
  intros Ht Hs Hv. unfold load, bind, exec, orThrow, ret, throw, noFaults.
  cbn beta iota. rewrite Ht. cbn beta iota. rewrite Hs. cbn beta iota delta [single fst snd].
  rewrite Hv, bool_decide_eq_true_2 by done. cbn beta iota delta [negb].
  fold (PublicTestPage.questionsOfVersion (s_test_version_id sub) s).
  destruct (q_id <$> filter _ _) as [|i ids] eqn:Hids.
  - cbn beta iota. rewrite selectWhere_inCol_nil. eexists. reflexivity.
  - cbn beta iota. eexists. reflexivity.
Qed.

(** X21. A submission opened under the address of a test it was not
    made on is refused: whatever fails or does not fail, the page gets
    no data and the answers are never read; when nothing fails the
    reason shown is that the submission does not belong to the test.
    Submission ids and version ids are keys. *)
Theorem load_refuses_foreign_submission (faults : Faults Stmt) (slug : string) (s : Store)
    (t : TestRow) (sub : SubmissionRow) (v : VersionRow) :
  testBySlug slug s = Data t ->
  NoDup (s_id <$> Db.submissions s) -> sub ∈ Db.submissions s ->
  NoDup (v_id <$> test_versions s) -> v ∈ test_versions s ->
  v_id v = s_test_version_id sub ->
  v_test_id v <> t_id t ->
  exists e log,
    load faults slug (s_id sub) (s, []) = (Raised e, (s, log)) /\
    (SelectAnswers ∉ log) /\
    (faults SelectTest = None -> faults SelectSubmission = None ->
     e = JsError FOREIGN_SUBMISSION).
Proof.
  intros Ht Hsk Hsin Hvk Hvin Hvid Hne.
  assert (Hs : submissionsById (s_id sub) s = [(sub, v)]).
  { unfold submissionsById. rewrite (selectWhere_key s_id) by done. simpl.
    by rewrite <- Hvid, (selectWhere_key v_id). }
  unfold load, bind, exec, orThrow, ret, throw.
  cbn beta iota. destruct (faults SelectTest) as [m1|]; cbn beta iota.
  { eexists _, _. split; [reflexivity|]. split; [|done].
    cbn [app]. rewrite !not_elem_of_cons. split_and!; try discriminate. apply not_elem_of_nil. }
  rewrite Ht. cbn beta iota. destruct (faults SelectSubmission) as [m2|]; cbn beta iota.
  { eexists _, _. split; [reflexivity|]. split; [|done].
    cbn [app]. rewrite !not_elem_of_cons. split_and!; try discriminate. apply not_elem_of_nil. }
  rewrite Hs. cbn beta iota delta [single fst snd].
  rewrite bool_decide_eq_false_2 by done. cbn beta iota delta [negb].
  eexists _, _. split; [reflexivity|]. split; [|done].
  cbn [app]. rewrite !not_elem_of_cons. split_and!; try discriminate. apply not_elem_of_nil.
Qed.

Lemma load_refuses_foreign_submission_witness :
  exists log,
    load noFaults "poll-zz81qa" "s1" (Sample.store, [])
    = (Raised (JsError FOREIGN_SUBMISSION), (Sample.store, log)) /\
    (SelectAnswers ∉ log).
Proof.
  destruct (load_refuses_foreign_submission noFaults "poll-zz81qa" Sample.store
              Sample.poll Sample.ann Sample.v1) as (e & log & H & Hlog & He);
    try reflexivity; try discriminate;
    try (apply (bool_decide_unpack _); vm_compute; exact I);
    try apply list_elem_of_here.
  exists log. rewrite (He eq_refl eq_refl) in H. split; [exact H|exact Hlog].
Defined.

Lemma optionById_lookup (opts : list OptionRow) (o : OptionRow) :
  NoDup (o_id <$> opts) -> o ∈ opts -> optionById opts !! o_id o = Some o.
Proof. apply (foldl_insert_lookup o_id). Qed.

Lemma answersByQuestion_lookup (rows : list AnswerRow) (a : AnswerRow) :
  NoDup (a_question_id <$> rows) -> a ∈ rows ->
  answersByQuestion rows !! a_question_id a = Some a.
Proof. apply (foldl_insert_lookup a_question_id). Qed.

Lemma questionsOfVersion_elem (versionId : string) (s : Store) (q : QuestionRow) :
  q ∈ PublicTestPage.questionsOfVersion versionId s ->
  q ∈ Db.questions s /\ q_test_version_id q = versionId.
Proof.
  unfold PublicTestPage.questionsOfVersion, orderBy.
  rewrite sort_by_elem_of, selectWhere_spec. unfold eqCol.
  by rewrite bool_decide_eq_true.
Qed.

Lemma questionsOfVersion_NoDup (versionId : string) (s : Store) :
  NoDup (q_id <$> Db.questions s) ->
  NoDup (q_id <$> PublicTestPage.questionsOfVersion versionId s).
Proof.
  intros Hnd. unfold PublicTestPage.questionsOfVersion, orderBy.
  rewrite sort_by_perm. eapply sublist_NoDup; [exact Hnd|].
  apply fmap_sublist, sublist_filter.
Qed.

(** The value the page shows for one question of a form that was just
    submitted. *)
Lemma valueOf_submitted (s : Store) (fresh versionId : string) (sub : SubmissionRow)
    (ens : gmap string string) (q : QuestionRow) :
  let qs := PublicTestPage.questionsOfVersion versionId s in
  let form := PublicTestPage.formOf versionId s in
  let loaded :=
    {| submission := sub;
       answers := PublicTestPage.answersPayload fresh form ens;
       questions := qs;
       options :=
         orderBy (TestStatsPage.byOrdAsc o_ord)
           (selectWhere
              (inCol o_question_id
                 (q_id <$> filter (fun q => TestStatsPage.isSingle q = true) qs))
              (Db.options s)) |} in
  NoDup (q_id <$> Db.questions s) -> NoDup (o_id <$> Db.options s) ->
  q ∈ qs ->
  PublicTestPage.missingSingleChoice form ens = false ->
  PublicTestPage.missingTextAnswer form ens = false ->
  match q_kind q with
  | TEXT => valueOf loaded q = default EmptyString (Js.trim <$> ens !! q_id q) /\
            valueOf loaded q <> EmptyString
  | SINGLE => forall o, o ∈ Db.options s -> o_question_id o = q_id q ->
                        ens !! q_id q = Some (o_id o) -> valueOf loaded q = o_text o
  end.
Proof.
  intros qs form loaded Hqk Hok Hq Hsingle Htext.
  set (row := match q_kind q with
              | SINGLE => {| a_submission_id := fresh; a_question_id := q_id q;
                             a_option_id := ens !! q_id q; a_free_text := None |}
              | TEXT => {| a_submission_id := fresh; a_question_id := q_id q;
                           a_option_id := None;
                           a_free_text := Some (default EmptyString
                                                  (Js.trim <$> ens !! q_id q)) |}
              end).
  assert (Hrow : answersByQuestion (answers loaded) !! q_id q = Some row).
  { assert (a_question_id row = q_id q) as <- by (unfold row; by destruct (q_kind q)).
    apply answersByQuestion_lookup.
    - simpl. unfold PublicTestPage.answersPayload, form, PublicTestPage.formOf.
      rewrite <- !list_fmap_compose.
      rewrite (list_fmap_ext _ q_id (PublicTestPage.questionsOfVersion versionId s)).
      + by apply questionsOfVersion_NoDup.
      + intros i x _. simpl. by destruct (q_kind x).
    - simpl. unfold PublicTestPage.answersPayload, form, PublicTestPage.formOf.
      rewrite <- list_fmap_compose. apply list_elem_of_fmap. exists q. split; [|done].
      simpl. unfold row. by destruct (q_kind q). }
  assert (Hform : PublicTestPage.formQuestion s q ∈ form).
  { unfold form, PublicTestPage.formOf. by apply list_elem_of_fmap_2. }
  pose proof (existsb_false _ _ _ Hsingle Hform) as H1.
  pose proof (existsb_false _ _ _ Htext Hform) as H2. simpl in H1, H2.
  unfold valueOf. rewrite Hrow. unfold row. destruct (q_kind q) eqn:Hk; simpl.
  - intros o Ho Hoq Hens. apply negb_false_iff in H1.
    unfold PublicTestPage.answered in H1. rewrite H1, Hens. simpl.
    rewrite optionById_lookup; [done| |].
    + unfold orderBy. rewrite sort_by_perm.
      eapply sublist_NoDup; [exact Hok|]. apply fmap_sublist, sublist_filter.
    + unfold orderBy. apply sort_by_elem_of, selectWhere_spec. split; [done|].
      apply bool_decide_eq_true_2. rewrite Hoq.
      apply list_elem_of_fmap_2, list_elem_of_filter. split; [|done].
      unfold TestStatsPage.isSingle. by rewrite Hk.
  - apply negb_false_iff in H2. rewrite H2. split; [done|].
    intros E. rewrite E in H2. done.
Qed.

(** X22. What a participant has submitted is what the operator reads
    on the page of that submission: the trimmed name, and for every
    question of the version, in order, the question text with the text
    of the option selected or the trimmed text typed.  The form is the
    one the anonymous page shows for the version; question ids, option
    ids and version ids are keys, and the id of the new submission is
    new to the store. *)
Theorem submitted_answers_are_shown (faults : Faults PublicTestPage.Stmt)
    (fresh : string) (now : Timestamp) (publicId : option string)
    (st : PublicTestPage.State) (s s' : Store) (url : string)
    (ens : gmap string string) (log : list PublicTestPage.Stmt)
    (slug : string) (t : TestRow) (v : VersionRow) :
  testBySlug slug s = Data t ->
  v ∈ test_versions s -> v_test_id v = t_id t ->
  NoDup (v_id <$> test_versions s) ->
  NoDup (q_id <$> Db.questions s) ->
  NoDup (o_id <$> Db.options s) ->
  fresh ∉ s_id <$> Db.submissions s ->
  fresh ∉ a_submission_id <$> Db.answers s ->
  PublicTestPage.testVersionId st = Some (v_id v) ->
  PublicTestPage.questions st = PublicTestPage.formOf (v_id v) s ->
  PublicTestPage.questionsOfVersion (v_id v) s <> [] ->
  PublicTestPage.handleSubmit faults fresh now publicId st s
    = (PublicTestPage.Redirected url, ens, s', log) ->
  exists loaded c shownEntries,
    load noFaults slug fresh (s', []) = (Ok loaded, c) /\
    s_participant (submission loaded) = Js.trim (PublicTestPage.participant st) /\
    entries loaded = Some shownEntries /\
    length shownEntries = length (PublicTestPage.questionsOfVersion (v_id v) s) /\
    forall i q,
      PublicTestPage.questionsOfVersion (v_id v) s !! i = Some q ->
      exists number value,
        shownEntries !! i = Some (number, q_text q, value) /\
        match q_kind q with
        | TEXT => value = default EmptyString (Js.trim <$> ens !! q_id q) /\
                  value <> EmptyString
        | SINGLE => forall o, o ∈ Db.options s -> o_question_id o = q_id q ->
                              ens !! q_id q = Some (o_id o) -> value = o_text o
        end.
Proof.
  intros Ht Hvin Hvt Hvk Hqk Hok Hfs Hfa Hvid Hform Hne H.
  destruct (handleSubmit_redirected _ _ _ _ _ _ _ _ _ _ H) as (_ & Hsingle & Htext & _ & _).
  destruct (handleSubmit_redirected_store _ _ _ _ _ _ _ _ _ _ H) as (vid & Hv & Hp & ->).
  rewrite Hvid in Hv. injection Hv as <-. rewrite Hform in *.
  set (sub := {| s_id := fresh; s_test_version_id := v_id v;
                 s_participant := Js.trim (PublicTestPage.participant st);
                 s_created_at := now |}).
  set (payload := PublicTestPage.answersPayload fresh (PublicTestPage.formOf (v_id v) s) ens).
  set (s' := set_answers (set_submissions s (Db.submissions s ++ [sub]))
                         (Db.answers s ++ payload)).
  destruct (SubmissionDetailsPage_load_noFaults slug fresh s' t sub v) as [c Hload];
    [done| |done|].
  { unfold submissionsById. cbn [Db.submissions s' set_answers set_submissions test_versions].
    change fresh with (s_id sub) at 1. rewrite selectWhere_eqCol_new by done.
    cbn [omap list_omap s_test_version_id sub]. by rewrite (selectWhere_key v_id). }
  assert (Hans : selectWhere (eqCol a_submission_id (s_id sub)) (Db.answers s') = payload).
  { cbn [Db.answers s' set_answers]. rewrite selectWhere_app, selectWhere_eqCol_absent by done.
    rewrite selectWhere_eqCol. cbn [app]. apply filter_all.
    intros a (q & -> & _)%list_elem_of_fmap. by destruct (PublicTestPage.kind q). }
  rewrite Hans in Hload.
  change (PublicTestPage.questionsOfVersion (s_test_version_id sub) s')
    with (PublicTestPage.questionsOfVersion (v_id v) s) in Hload.
  change (Db.options s') with (Db.options s) in Hload.
  eexists _, _, _. split; [exact Hload|]. split; [done|].
  unfold entries. cbn [answers questions].
  destruct payload as [|a rest] eqn:Hpay.
  { destruct Hne. apply (f_equal length) in Hpay. unfold payload in Hpay.
    unfold PublicTestPage.answersPayload, PublicTestPage.formOf in Hpay.
    rewrite !length_fmap in Hpay. by apply nil_length_inv. }
  rewrite <- Hpay. split; [reflexivity|]. split; [apply length_imap|].
  intros i q Hq. eexists _, _. rewrite list_lookup_imap, Hq. split; [reflexivity|].
  apply (valueOf_submitted s fresh (v_id v) sub ens q); try done.
  by eapply list_elem_of_lookup_2.
Qed.

Lemma submitted_answers_are_shown_witness :
  exists s' loaded c shownEntries number,
    PublicTestPage.handleSubmit noFaults "s9" Sample.eveTime (Some "pub1") Sample.eveState
      Sample.store
      = (PublicTestPage.Redirected "/t/pub1/done", {[ "q1" := "o1"; "q2" := "because" ]}, s',
         [PublicTestPage.InsertSubmission; PublicTestPage.InsertAnswers]) /\
    load noFaults "quiz-k3x9ab" "s9" (s', []) = (Ok loaded, c) /\
    s_participant (submission loaded) = "Eve" /\
    entries loaded = Some shownEntries /\
    shownEntries !! 0%nat = Some (number, "Ready?", "Yes").
Proof.
  destruct (submitted_answers_are_shown noFaults "s9" Sample.eveTime (Some "pub1")
              Sample.eveState Sample.store
              (set_answers
                 (set_submissions Sample.store
                    (Db.submissions Sample.store ++
                       [{| s_id := "s9"; s_test_version_id := "v1";
                           s_participant := "Eve"; s_created_at := Sample.eveTime |}]))
                 (Db.answers Sample.store ++
                    [Sample.choice "s9" "q1" "o1"; Sample.words "s9" "q2" "because"]))
              "/t/pub1/done" {[ "q1" := "o1"; "q2" := "because" ]}
              [PublicTestPage.InsertSubmission; PublicTestPage.InsertAnswers]
              "quiz-k3x9ab" Sample.quiz Sample.v1)
    as (loaded & c & shownEntries & Hload & Hname & Hentries & _ & Hshown);
    try reflexivity; try discriminate;
    try (apply (bool_decide_unpack _); vm_compute; exact I);
    try apply list_elem_of_here.
  destruct (Hshown 0%nat Sample.q1 eq_refl) as (number & value & Hrow & Hvalue).
  eexists _, loaded, c, shownEntries, number.
  split; [reflexivity|]. split; [exact Hload|]. split; [exact Hname|].
  split; [exact Hentries|].
  rewrite Hrow. do 2 f_equal.
  apply (Hvalue Sample.oYes); [apply list_elem_of_here|reflexivity|reflexivity].
Defined.

End Details.

(** ** Reading an export back *)

Section CsvRoundTrip.
Import TestStatsPage.

(** Inside a field: the escaped value and its closing quote are read as
    the value. *)
Lemma parseCsv_value (value rest field : string) (row : list string)
    (rows : list (list string)) :
  parseCsv AfterQuote rest = Some ((field :: row) :: rows) ->
  parseCsv InField (doubleQuotes value +:+ String dquote rest)
  = Some (((value +:+ field) :: row) :: rows).
Proof.
  intros Hrest. induction value as [|c value IH].
  - cbn [doubleQuotes]. rewrite !string_app_nil_l. cbn [parseCsv].
    by rewrite bool_decide_eq_true_2.
  - cbn [doubleQuotes]. case_bool_decide as Hc.
    + subst c. rewrite !string_app_cons. cbn [parseCsv].
      rewrite !bool_decide_eq_true_2 by done. by rewrite IH.
    + rewrite !string_app_cons. cbn [parseCsv]. rewrite bool_decide_eq_false_2 by done.
      by rewrite IH.
Qed.

Lemma parseCsv_quoteField (value rest field : string) (row : list string)
    (rows : list (list string)) :
  parseCsv AfterQuote rest = Some ((field :: row) :: rows) ->
  parseCsv FieldStart (quoteField value +:+ rest)
  = Some (((value +:+ field) :: row) :: rows).
Proof.
  intros Hrest. unfold quoteField. rewrite string_app_cons. cbn [parseCsv].
  rewrite bool_decide_eq_true_2 by done. rewrite string_app_assoc, string_app_cons.
  rewrite string_app_nil_l. by apply parseCsv_value.
Qed.

Lemma csvLine_cons (f f' : string) (fs : list string) :
  csvLine (f :: f' :: fs) = quoteField f +:+ "," +:+ csvLine (f' :: fs).
Proof. reflexivity. Qed.

(** One line, whatever follows its last field. *)
Lemma parseCsv_line (f : string) (fs : list string) (rest : string)
    (rows : list (list string)) :
  parseCsv AfterQuote rest = Some ([EmptyString] :: rows) ->
  parseCsv FieldStart (csvLine (f :: fs) +:+ rest) = Some ((f :: fs) :: rows).
Proof.
  intros Hrest. revert f. induction fs as [|f' fs IH]; intros f.
  - unfold csvLine. cbn [fmap list_fmap Js.join].
    rewrite (parseCsv_quoteField _ _ _ _ _ Hrest). by rewrite string_app_nil_r.
  - rewrite csvLine_cons, !string_app_assoc.
    rewrite (parseCsv_quoteField f _ EmptyString (f' :: fs) rows).
    + by rewrite string_app_nil_r.
    + rewrite string_app_cons, string_app_nil_l. cbn [parseCsv].
      rewrite bool_decide_eq_false_2 by done. rewrite bool_decide_eq_true_2 by done.
      by rewrite IH.
Qed.

Lemma join_cons (sep p p' : string) (rest : list string) :
  Js.join sep (p :: p' :: rest) = p +:+ sep +:+ Js.join sep (p' :: rest).
Proof. reflexivity. Qed.

(** A text of lines, none of them without a field. *)
Lemma parseCsv_lines (r : list string) (rs : list (list string)) :
  Forall (fun row => row <> []) (r :: rs) ->
  parseCsv FieldStart (Js.join newline (csvLine <$> (r :: rs))) = Some (r :: rs).
Proof.
  revert r. induction rs as [|r' rs IH]; intros r Hall.
  - apply Forall_cons in Hall as [Hr _]. destruct r as [|f fs]; [done|].
    cbn [fmap list_fmap Js.join].
    rewrite <- (string_app_nil_r (csvLine (f :: fs))). by apply parseCsv_line.
  - apply Forall_cons in Hall as [Hr Hall]. destruct r as [|f fs]; [done|].
    rewrite !fmap_cons, join_cons. rewrite <- fmap_cons.
    apply parseCsv_line. unfold newline. rewrite string_app_cons, string_app_nil_l.
    cbn [parseCsv].
    rewrite bool_decide_eq_false_2 by done. rewrite bool_decide_eq_false_2 by done.
    rewrite bool_decide_eq_true_2 by done. by rewrite IH.
Qed.

(** X23. An export reads back as it was written: a reader of quoted
    fields gets the header and then, for every filtered submission in
    order, its id, participant and creation time, whatever characters
    (quotes, commas, line feeds) these hold.  So two exports with the
    same text were made from the same rows. *)
Theorem handleExportCsv_reads_back (filtered : list SubmissionRow) (test : TestRow)
    (version : VersionRow) (text : string) :
  handleExportCsv filtered (Some test) (Some version) = Some text ->
  parseCsv FieldStart text = Some (csvHeader :: (csvRow <$> filtered)) /\
  forall filtered' test' version',
    handleExportCsv filtered' (Some test') (Some version') = Some text ->
    csvRow <$> filtered' = csvRow <$> filtered.
Proof.
  assert (Hread : forall subs t,
            handleExportCsv subs (Some test) (Some version) = Some t ->
            parseCsv FieldStart t = Some (csvHeader :: (csvRow <$> subs))).
  { intros subs t. unfold handleExportCsv. destruct subs as [|sub subs]; [done|].
    intros Ht.
    replace t with (Js.join newline (csvLine <$> csvHeader :: (csvRow <$> sub :: subs)))
      by congruence.
    apply parseCsv_lines. constructor; [done|].
    apply Forall_fmap, Forall_forall. intros x _. done. }
  intros H. split; [by apply Hread|].
  intros filtered' test' version' H'.
  assert (handleExportCsv filtered' (Some test) (Some version) = Some text) as H''.
  { by destruct filtered'. }
  apply Hread in H, H''. rewrite H in H''. by injection H''.
Qed.

Lemma handleExportCsv_reads_back_witness :
  exists text,
    handleExportCsv [Sample.john; Sample.ann] (Some Sample.quiz) (Some Sample.v1) = Some text /\
    parseCsv FieldStart text
    = Some [["submission_id"; "participant"; "created_at"];
            ["s8"; "Jo" +:+ String dquote "hn"; "2024-01-15T11:00:00+00:00"];
            ["s1"; "Ann"; "2024-01-15T09:00:00+00:00"]].
Proof.
  eexists. split; [reflexivity|].
  exact (proj1 (handleExportCsv_reads_back [Sample.john; Sample.ann] Sample.quiz Sample.v1
                  _ eq_refl)).
Defined.

End CsvRoundTrip.

(** ** The address of the public page *)

Section BaseUrl.
Import TestLinkPage.

Lemma dropSpaces_trimmed (value : string) (c : Js.Char) :
  c ∈ Js.chars value -> Js.isSpace c = false -> Js.trimChars (Js.chars value) <> [].
Proof.
  intros Hc Hs E. destruct (trimChars_split (Js.chars value)) as (ws1 & ws2 & Ev & H1 & H2).
  rewrite E in Ev. rewrite Ev in Hc. simpl in Hc. apply elem_of_app in Hc.
  unfold Js.spaces in *. rewrite !Forall_forall in *.
  destruct Hc as [Hc|Hc]; [apply H1 in Hc|apply H2 in Hc]; congruence.
Qed.

Lemma trim_not_blank (value : string) (c : Js.Char) :
  c ∈ Js.chars value -> Js.isSpace c = false -> Js.chars (Js.trim value) <> [].
Proof.
  intros Hc Hs E. apply chars_nil, text_nil in E. by apply (dropSpaces_trimmed value c).
Qed.

Lemma stripTrailingSlash_slash (value : string) :
  stripTrailingSlash (value +:+ "/") = value.
Proof.
  induction value as [|c value IH]; [done|].
  rewrite string_app_cons. cbn [stripTrailingSlash].
  destruct (value +:+ "/") eqn:E; [by destruct value|]. by rewrite IH.
Qed.

Lemma stripTrailingSlash_other (value : string) :
  (forall start, value <> start +:+ "/") -> stripTrailingSlash value = value.
Proof.
  induction value as [|c value IH]; intros Hno; [done|]. cbn [stripTrailingSlash].
  destruct value as [|c' value].
  - case_bool_decide as Hc; [|done]. subst c. by destruct (Hno EmptyString).
  - rewrite IH; [done|]. intros start E. apply (Hno (String c start)).
    by rewrite string_app_cons, E.
Qed.

Lemma baseUrl_configured (value : string) (c : Js.Char) :
  c ∈ Js.chars value -> Js.isSpace c = false ->
  baseUrl (Some value) = stripTrailingSlash value.
Proof.
  intros Hc Hs. unfold baseUrl.
  pose proof (trim_not_blank value c Hc Hs) as Hne.
  destruct value as [|ch value]; [by apply elem_of_nil in Hc|]. simpl Js.truthy.
  destruct (Js.chars (Js.trim (String ch value))); done.
Qed.

(** X24. A configured address makes the same public URL with or without
    one slash at its end, and an address that is missing or all white
    space falls back to the default. *)
Theorem baseUrl_one_trailing_slash (value publicId : string) :
  (exists c, c ∈ Js.chars value /\ Js.isSpace c = false) ->
  publicUrl (baseUrl (Some (value +:+ "/"))) publicId = value +:+ "/t/" +:+ publicId /\
  ((forall start, value <> start +:+ "/") ->
   publicUrl (baseUrl (Some value)) publicId = value +:+ "/t/" +:+ publicId) /\
  baseUrl None = DEFAULT_BASE_URL /\
  (forall blankValue,
     (forall c, c ∈ Js.chars blankValue -> Js.isSpace c = true) ->
     baseUrl (Some blankValue) = DEFAULT_BASE_URL).
Proof.
  intros (c & Hc & Hs). split_and!.
  - rewrite (baseUrl_configured _ 47%N); [by rewrite stripTrailingSlash_slash| |done].
    rewrite (chars_ascii value "/" EmptyString) by done.
    apply elem_of_app. right. left.
  - intros Hno. by rewrite (baseUrl_configured _ c), stripTrailingSlash_other.
  - done.
  - intros blankValue Hall. unfold baseUrl, Js.trim, Js.trimChars.
    rewrite (dropSpaces_all (Js.chars blankValue)) by (by apply Forall_forall).
    simpl. by rewrite orb_true_r.
Qed.

Lemma baseUrl_one_trailing_slash_witness :
  publicUrl (baseUrl (Some "https://kid.example/")) "pub1" = "https://kid.example/t/pub1".
Proof.
  refine (proj1 (baseUrl_one_trailing_slash "https://kid.example" "pub1" _)).
  exists 104%N. split; [apply list_elem_of_here|reflexivity].
Defined.

End BaseUrl.

(** ** Charts and totals *)

Section ChartTotals.
Import TestStatsPage.

Lemma sum_list_fmap_add {A : Type} (f g : A -> nat) (l : list A) :
  sum_list ((fun x => (f x + g x)%nat) <$> l) = (sum_list (f <$> l) + sum_list (g <$> l))%nat.
Proof.
  induction l as [|x l IH]; [done|].
  change ((f x + g x + sum_list ((fun x => (f x + g x)%nat) <$> l))%nat
          = ((f x + sum_list (f <$> l)) + (g x + sum_list (g <$> l)))%nat).
  rewrite IH. lia.
Qed.

Lemma sum_list_cons (x : nat) (l : list nat) : sum_list (x :: l) = (x + sum_list l)%nat.
Proof. reflexivity. Qed.

(** An answer adds to the bar of at most one option. *)
Lemma one_bar_per_answer (filtered : list SubmissionRow) (q : QuestionRow)
    (opts : list OptionRow) (a : AnswerRow) :
  NoDup (o_id <$> opts) ->
  (sum_list ((fun o => if decide (selects filtered q o a) then 1 else 0) <$> opts)
   <= if decide (a_submission_id a ∈ s_id <$> filtered /\ a_question_id a = q_id q)
      then 1 else 0)%nat.
Proof.
  induction opts as [|o opts IH]; intros Hnd.
  - change (0 <= if decide (a_submission_id a ∈ s_id <$> filtered /\
                            a_question_id a = q_id q) then 1 else 0)%nat.
    lia.
  - rewrite fmap_cons in Hnd. apply NoDup_cons in Hnd as [Ho Hnd]. specialize (IH Hnd).
    rewrite fmap_cons, sum_list_cons.
    destruct (decide (selects filtered q o a)) as [Hsel|Hsel]; [|lia].
    destruct Hsel as (Hin & Hq & _ & Hopt).
    rewrite decide_True by done.
    assert (sum_list ((fun o' => if decide (selects filtered q o' a) then 1 else 0) <$> opts)
            = 0)%nat as ->; [|lia].
    clear IH. induction opts as [|o' opts IH']; [done|].
    rewrite fmap_cons, not_elem_of_cons in Ho. destruct Ho as [Hne Ho].
    rewrite fmap_cons in Hnd. apply NoDup_cons in Hnd as [_ Hnd].
    rewrite fmap_cons, sum_list_cons, IH' by done.
    rewrite decide_False; [done|]. intros (_ & _ & _ & Hopt'). congruence.
Qed.

Lemma bars_within_answers (filtered : list SubmissionRow) (answers : list AnswerRow)
    (q : QuestionRow) (opts : list OptionRow) :
  NoDup (o_id <$> opts) ->
  (sum_list (countFor filtered answers q <$> opts)
   <= length (filter (fun a => a_submission_id a ∈ s_id <$> filtered /\
                               a_question_id a = q_id q) answers))%nat.
Proof.
  intros Hnd. unfold countFor. induction answers as [|a answers IH].
  - rewrite (list_fmap_ext _ (fun _ => 0%nat) opts) by done.
    clear Hnd. induction opts as [|o opts IHo]; [done|].
    rewrite fmap_cons, sum_list_cons. rewrite filter_nil in *. simpl in *. lia.
  - rewrite (list_fmap_ext _
      (fun o => ((if decide (selects filtered q o a) then 1 else 0)
                 + length (filter (selects filtered q o) answers))%nat) opts).
    + rewrite sum_list_fmap_add, filter_cons.
      pose proof (one_bar_per_answer filtered q opts a Hnd) as Hone.
      destruct (decide (a_submission_id a ∈ s_id <$> filtered /\ a_question_id a = q_id q));
        simpl; lia.
    + intros i o _. rewrite filter_cons. by destruct (decide (selects filtered q o a)).
Qed.

Lemma answers_within_submissions (filtered : list SubmissionRow) (answers : list AnswerRow)
    (q : QuestionRow) :
  NoDup ((fun a => (a_submission_id a, a_question_id a)) <$> answers) ->
  (length (filter (fun a => a_submission_id a ∈ s_id <$> filtered /\
                            a_question_id a = q_id q) answers)
   <= length filtered)%nat.
Proof.
  intros Hnd.
  set (given := filter (fun a => a_submission_id a ∈ s_id <$> filtered /\
                                 a_question_id a = q_id q) answers).
  assert (Hids : NoDup (a_submission_id <$> given)).
  { apply (NoDup_fmap_1 (fun sid => (sid, q_id q))).
    rewrite <- list_fmap_compose.
    rewrite (list_fmap_ext _ (fun a => (a_submission_id a, a_question_id a)) given).
    - eapply sublist_NoDup; [exact Hnd|]. apply fmap_sublist, sublist_filter.
    - intros i a Ha. apply list_elem_of_lookup_2, list_elem_of_filter in Ha as [[_ Hq] _].
      simpl. by rewrite Hq. }
  rewrite <- (length_fmap a_submission_id given), <- (length_fmap s_id filtered).
  apply submseteq_length, NoDup_submseteq; [done|].
  intros sid (a & -> & Ha)%list_elem_of_fmap.
  by apply list_elem_of_filter in Ha as [[Hin _] _].
Qed.

(** X25. The bars of a chart never add up to more than the total the
    metrics show: every filtered submission adds at most one vote to the
    chart of a question.  Option ids are keys and a submission has at
    most one answer to a question. *)
Theorem chart_votes_within_total (questions : list QuestionRow) (options : list OptionRow)
    (answers : list AnswerRow) (filtered : list SubmissionRow) (chart : Chart) :
  NoDup (o_id <$> options) ->
  NoDup ((fun a => (a_submission_id a, a_question_id a)) <$> answers) ->
  chart ∈ charts true questions options answers filtered ->
  (sum_list (data chart) <= totalSubmissions (metrics true filtered))%nat.
Proof.
  intros Ho Ha Hchart. unfold charts in Hchart. simpl in Hchart.
  destruct questions as [|q0 questions]; [by apply elem_of_nil in Hchart|].
  apply list_elem_of_fmap in Hchart as (q & -> & _).
  rewrite chartFor_counts by done. simpl.
  etrans; [apply bars_within_answers; by apply optionsOf_NoDup|].
  by apply answers_within_submissions.
Qed.

Lemma chart_votes_within_total_witness :
  Forall (fun chart => (sum_list (data chart) <= 3)%nat)
    (charts true [Sample.q1; Sample.q2] (Db.options Sample.store)
       (Db.answers Sample.store) [Sample.ann; Sample.bob; Sample.cy]).
Proof.
  apply Forall_forall. intros chart Hchart.
  apply (chart_votes_within_total [Sample.q1; Sample.q2] (Db.options Sample.store)
           (Db.answers Sample.store) [Sample.ann; Sample.bob; Sample.cy] chart).
  - apply (bool_decide_unpack _). vm_compute. exact I.
  - apply (bool_decide_unpack _). vm_compute. exact I.
  - exact Hchart.
Defined.

End ChartTotals.

(** ** Which tests the list offers the other views for *)

Section OfferedViews.

Lemma existsb_elem {A : Type} (p : A -> bool) (l : list A) :
  existsb p l = true <-> exists x, x ∈ l /\ p x = true.
Proof.
  induction l as [|y l IH]; simpl.
  - split; [done|]. by intros (x & Hx%elem_of_nil & _).
  - rewrite orb_true_iff, IH. split.
    + intros [Hy|(x & Hx & Hp)]; [exists y; split; [left|done]|exists x; split; [by right|done]].
    + intros (x & [->|Hx]%elem_of_cons & Hp); [by left|right; eauto].
Qed.

Lemma hasAnyVersion_versionsOf (s : Store) (test : TestRow) :
  Dashboard.hasAnyVersion (test_versions s) test = true <-> versionsOf (t_id test) s <> [].
Proof.
  unfold Dashboard.hasAnyVersion. rewrite existsb_elem. split.
  - intros (v & Hv & Hp%bool_decide_eq_true) E.
    assert (v ∈ versionsOf (t_id test) s) as Hin by (by apply versionsOf_spec).
    rewrite E in Hin. by apply elem_of_nil in Hin.
  - intros Hne. destruct (versionsOf (t_id test) s) as [|v vs] eqn:E; [done|].
    assert (v ∈ versionsOf (t_id test) s) as [Hv Ht]%versionsOf_spec by (rewrite E; left).
    exists v. split; [done|]. by apply bool_decide_eq_true_2.
Qed.

(** X26. The list of tests offers the share view and the statistics
    view of a test exactly when these views can resolve a version of
    it.  For a test without version both views stop with the message
    that there is no version, and the share view creates no link. *)
Theorem hasAnyVersion_resolves (s : Store) (test : TestRow) :
  (Dashboard.hasAnyVersion (test_versions s) test = true <->
   exists v, latestVersion (t_id test) s = Data (Some v)) /\
  (Dashboard.hasAnyVersion (test_versions s) test = false ->
   forall slug fresh baseUrl,
     testBySlug slug s = Data test ->
     TestLinkPage.load noFaults fresh baseUrl slug (s, [])
       = (Raised (JsError "Для теста нет ни одной версии."),
          (s, [TestLinkPage.SelectTest; TestLinkPage.SelectVersion])) /\
     TestStatsPage.load noFaults slug (s, [])
       = (Raised (JsError "Для теста нет ни одной версии."),
          (s, [TestStatsPage.SelectTest; TestStatsPage.SelectVersion]))).
Proof.
  split.
  - rewrite hasAnyVersion_versionsOf. split.
    + intros Hne. destruct (versionsOf (t_id test) s) as [|v vs] eqn:E; [done|].
      apply (latestVersion_some _ _ v). rewrite E. left.
    + intros [v [Hv _]%latestVersion_max] E. rewrite E in Hv. by apply elem_of_nil in Hv.
  - intros Hnone slug fresh baseUrl Ht.
    assert (Hv : latestVersion (t_id test) s = Data None).
    { rewrite latestVersion_head.
      destruct (versionsOf (t_id test) s) as [|v vs] eqn:E; [done|].
      assert (Dashboard.hasAnyVersion (test_versions s) test = true) as Hany.
      { apply hasAnyVersion_versionsOf. by rewrite E. }
      congruence. }
    unfold TestLinkPage.load, TestStatsPage.load, bind, exec, orThrow, ret, throw, noFaults.
    cbn beta iota. rewrite Ht. cbn beta iota. rewrite Hv. done.
Qed.

End OfferedViews.

(** ** A submission in the charts *)

Section VoteInCharts.
Import TestStatsPage.

(** What [load] holds when nothing fails. *)
Lemma TestStatsPage_load_noFaults (slug : string) (s : Store) (t : TestRow) (v : VersionRow) :
  testBySlug slug s = Data t ->
  latestVersion (t_id t) s = Data (Some v) ->
  exists log,
    load noFaults slug (s, [])
    = (Ok {| test := t; testVersion := v;
             questions := PublicTestPage.questionsOfVersion (v_id v) s;
             options :=
               orderBy (byOrdAsc o_ord)
                 (selectWhere
                    (inCol o_question_id
                       (q_id <$> filter (fun q => isSingle q = true)
                                   (PublicTestPage.questionsOfVersion (v_id v) s)))
                    (Db.options s));
             submissions :=
               orderBy byCreatedDesc
                 (selectWhere (eqCol s_test_version_id (v_id v)) (Db.submissions s));
             answers :=
               selectWhere
                 (inCol a_submission_id
                    (s_id <$> orderBy byCreatedDesc
                                (selectWhere (eqCol s_test_version_id (v_id v))
                                             (Db.submissions s))))
                 (Db.answers s) |}, (s, log)).
Proof.
  intros Ht Hv. unfold load, bind, exec, orThrow, ret, throw, noFaults.
  cbn beta iota. rewrite Ht. cbn beta iota. rewrite Hv. cbn beta iota.
  fold (PublicTestPage.questionsOfVersion (v_id v) s).
  destruct (q_id <$> filter _ _) as [|i ids] eqn:Hids; cbn beta iota.
  - destruct (s_id <$> _) as [|j sids] eqn:Hsids; cbn beta iota.
    + rewrite !selectWhere_inCol_nil. eexists. reflexivity.
    + rewrite !selectWhere_inCol_nil. eexists. reflexivity.
  - destruct (s_id <$> _) as [|j sids] eqn:Hsids; cbn beta iota.
    + rewrite !selectWhere_inCol_nil. eexists. reflexivity.
    + eexists. reflexivity.
Qed.

Lemma selects_inCol (filtered : list SubmissionRow) (q : QuestionRow) (o : OptionRow)
    (rows : list AnswerRow) :
  filter (selects filtered q o)
         (selectWhere (inCol a_submission_id (s_id <$> filtered)) rows)
  = filter (selects filtered q o) rows.
Proof.
  unfold selectWhere. rewrite list_filter_filter. apply list_filter_iff. intros a.
  unfold selects, inCol. rewrite bool_decide_eq_true. tauto.
Qed.

(** Among rows with distinct keys one row has the key of [x]. *)
Lemma count_key {A : Type} (key : A -> string) (C : A -> Prop)
    `{!forall y, Decision (C y)} (l : list A) (x : A) :
  NoDup (key <$> l) -> x ∈ l ->
  length (filter (fun y => key y = key x /\ C y) l) = if decide (C x) then 1%nat else 0%nat.
Proof.
  induction l as [|y l IH]; intros Hnd Hx; [by apply elem_of_nil in Hx|].
  rewrite fmap_cons in Hnd. apply NoDup_cons in Hnd as [Hy Hnd].
  rewrite filter_cons. apply elem_of_cons in Hx as [->|Hx].
  - rewrite (filter_none _ l).
    + destruct (decide (C y)); [by rewrite decide_True|]. rewrite decide_False; [done|]. tauto.
    + intros z Hz [Hk _]. apply Hy. rewrite <- Hk. by apply list_elem_of_fmap_2.
  - rewrite decide_False; [by apply IH|]. intros [Hk _]. apply Hy. rewrite Hk.
    by apply list_elem_of_fmap_2.
Qed.

(** The count of an option after one more submission of the form. *)
Lemma countFor_submitted (s : Store) (fresh : string) (ens : gmap string string)
    (qs : list QuestionRow) (subs subs' : list SubmissionRow) (rows : list AnswerRow)
    (q : QuestionRow) (o : OptionRow) :
  NoDup (q_id <$> qs) -> q ∈ qs -> q_kind q = SINGLE ->
  Js.truthy_opt (ens !! q_id q) = true ->
  (forall x, x ∈ s_id <$> subs' <-> x = fresh \/ x ∈ s_id <$> subs) ->
  fresh ∉ a_submission_id <$> rows ->
  countFor subs'
    (selectWhere (inCol a_submission_id (s_id <$> subs'))
       (rows ++ PublicTestPage.answersPayload fresh (PublicTestPage.formQuestion s <$> qs) ens))
    q o
  = (countFor subs (selectWhere (inCol a_submission_id (s_id <$> subs)) rows) q o
     + if decide (ens !! q_id q = Some (o_id o)) then 1 else 0)%nat.
Proof.
  intros Hnd Hq Hk Htruthy Hids Hfresh. unfold countFor.
  rewrite !selects_inCol, filter_app, length_app. f_equal.
  - f_equal. apply filter_ext_in. intros a Ha. unfold selects.
    rewrite Hids. split; [|tauto]. intros ([E|Hin] & ?); [|tauto].
    destruct Hfresh. rewrite <- E. by apply list_elem_of_fmap_2.
  - unfold PublicTestPage.answersPayload. rewrite <- list_fmap_compose.
    rewrite filter_fmap_comm, length_fmap.
    rewrite (list_filter_iff _
      (fun y => q_id y = q_id q /\
                (q_kind y = SINGLE /\ Js.truthy_opt (ens !! q_id y) = true /\
                 ens !! q_id y = Some (o_id o)))).
    + rewrite (count_key q_id) by done.
      destruct (decide (ens !! q_id q = Some (o_id o))) as [E|E].
      * by rewrite decide_True.
      * rewrite decide_False; [done|]. tauto.
    + intros y. unfold selects, compose. simpl.
      destruct (q_kind y); simpl; split.
      * intros (_ & ? & ? & ?). done.
      * intros (? & _ & ? & ?). split_and!; try done. apply Hids. by left.
      * intros (_ & _ & [=] & _).
      * intros (_ & [=] & _).
Qed.

(** X27. A submission made on the version the statistics view resolves
    shows up there: the total grows by one, and in the chart of every
    choice question the bar of the option recorded for the participant
    grows by one while every other bar stays.  Question ids and option
    ids are keys and the id of the submission is new to the store. *)
Theorem submission_adds_one_vote (faults : Faults PublicTestPage.Stmt) (fresh : string)
    (now : Timestamp) (publicId : option string) (st : PublicTestPage.State)
    (s s' : Store) (url : string) (ens : gmap string string)
    (log : list PublicTestPage.Stmt) (slug : string) (t : TestRow) (v : VersionRow) :
  testBySlug slug s = Data t ->
  latestVersion (t_id t) s = Data (Some v) ->
  NoDup (q_id <$> Db.questions s) ->
  NoDup (o_id <$> Db.options s) ->
  fresh ∉ s_id <$> Db.submissions s ->
  fresh ∉ a_submission_id <$> Db.answers s ->
  PublicTestPage.testVersionId st = Some (v_id v) ->
  PublicTestPage.questions st = PublicTestPage.formOf (v_id v) s ->
  PublicTestPage.handleSubmit faults fresh now publicId st s
    = (PublicTestPage.Redirected url, ens, s', log) ->
  exists before after c c',
    load noFaults slug (s, []) = (Ok before, c) /\
    load noFaults slug (s', []) = (Ok after, c') /\
    totalSubmissions (metrics true (submissions after))
      = S (totalSubmissions (metrics true (submissions before))) /\
    charts true (questions after) (options after) (answers after) (submissions after)
    = (fun chart =>
         {| question := question chart;
            labels := labels chart;
            data := (fun o => (countFor (submissions before) (answers before) (question chart) o
                               + if decide (ens !! q_id (question chart) = Some (o_id o))
                                 then 1 else 0)%nat)
                    <$> optionsOf (options before) (question chart) |})
      <$> charts true (questions before) (options before) (answers before)
            (submissions before).
Proof.
  intros Ht Hv Hqk Hok Hfs Hfa Hvid Hform H.
  destruct (handleSubmit_redirected _ _ _ _ _ _ _ _ _ _ H) as (_ & Hsingle & _ & _ & _).
  destruct (handleSubmit_redirected_store _ _ _ _ _ _ _ _ _ _ H) as (vid & Hv' & Hp & ->).
  rewrite Hvid in Hv'. injection Hv' as <-. rewrite Hform in *.
  set (row := {| s_id := fresh; s_test_version_id := v_id v;
                 s_participant := Js.trim (PublicTestPage.participant st);
                 s_created_at := now |}).
  set (payload := PublicTestPage.answersPayload fresh (PublicTestPage.formOf (v_id v) s) ens).
  set (s' := set_answers (set_submissions s (Db.submissions s ++ [row]))
                         (Db.answers s ++ payload)).
  destruct (TestStatsPage_load_noFaults slug s t v Ht Hv) as [c Hload].
  destruct (TestStatsPage_load_noFaults slug s' t v Ht Hv) as [c' Hload'].
  eexists _, _, (s, c), (s', c'). split; [exact Hload|]. split; [exact Hload'|].
  cbn [questions options submissions answers].
  change (PublicTestPage.questionsOfVersion (v_id v) s')
    with (PublicTestPage.questionsOfVersion (v_id v) s).
  change (Db.options s') with (Db.options s).
  change (Db.submissions s') with (Db.submissions s ++ [row]).
  change (Db.answers s') with (Db.answers s ++ payload).
  set (qs := PublicTestPage.questionsOfVersion (v_id v) s).
  set (opts := orderBy (byOrdAsc o_ord)
                 (selectWhere
                    (inCol o_question_id (q_id <$> filter (fun q => isSingle q = true) qs))
                    (Db.options s))).
  set (subs := orderBy byCreatedDesc
                 (selectWhere (eqCol s_test_version_id (v_id v)) (Db.submissions s))).
  set (subs' := orderBy byCreatedDesc
                  (selectWhere (eqCol s_test_version_id (v_id v)) (Db.submissions s ++ [row]))).
  assert (Hperm : subs' ≡ₚ subs ++ [row]).
  { unfold subs', subs, orderBy. rewrite !sort_by_perm, selectWhere_app. f_equiv.
    unfold selectWhere. rewrite filter_cons, filter_nil.
    rewrite decide_True; [done|]. by apply bool_decide_eq_true_2. }
  assert (Hopts : NoDup (o_id <$> opts)).
  { unfold opts, orderBy. rewrite sort_by_perm.
    eapply sublist_NoDup; [exact Hok|]. apply fmap_sublist, sublist_filter. }
  split.
  { unfold metrics. cbn [totalSubmissions negb]. rewrite Hperm, length_app. simpl. lia. }
  unfold charts. cbn [negb]. destruct qs as [|q0 qs'] eqn:Hqs; [done|]. rewrite <- Hqs.
  rewrite <- list_fmap_compose. apply list_fmap_ext. intros i q Hq.
  apply list_elem_of_lookup_2, list_elem_of_filter in Hq as [Hk Hq].
  unfold compose. rewrite !chartFor_counts by done. cbn [question labels data].
  f_equal. apply list_fmap_ext. intros j o _.
  unfold payload, PublicTestPage.formOf. fold qs.
  apply (countFor_submitted s fresh ens qs subs subs' (Db.answers s) q o); try done.
  - by apply questionsOfVersion_NoDup.
  - unfold isSingle in Hk. by destruct (q_kind q).
  - assert (PublicTestPage.formQuestion s q ∈ PublicTestPage.formOf (v_id v) s) as Hin.
    { unfold PublicTestPage.formOf. fold qs. by apply list_elem_of_fmap_2. }
    pose proof (existsb_false _ _ _ Hsingle Hin) as H1. simpl in H1.
    unfold isSingle in Hk. destruct (q_kind q); [|done].
    by apply negb_false_iff in H1.
  - intros x. rewrite Hperm, fmap_app, elem_of_app. simpl.
    rewrite list_elem_of_singleton. tauto.
Qed.

Lemma submission_adds_one_vote_witness :
  exists before after c c',
    load noFaults "quiz-k3x9ab" (Sample.store, []) = (Ok before, c) /\
    load noFaults "quiz-k3x9ab"
      (set_answers
         (set_submissions Sample.store
            (Db.submissions Sample.store ++
               [{| s_id := "s9"; s_test_version_id := "v1";
                   s_participant := "Eve"; s_created_at := Sample.eveTime |}]))
         (Db.answers Sample.store ++
            [Sample.choice "s9" "q1" "o1"; Sample.words "s9" "q2" "because"]), [])
      = (Ok after, c') /\
    totalSubmissions (metrics true (submissions after)) = 4%nat /\
    data <$> charts true (questions before) (options before) (answers before)
               (submissions before) = [[2; 1; 0]%nat] /\
    data <$> charts true (questions after) (options after) (answers after)
               (submissions after) = [[3; 1; 0]%nat].
Proof.
  destruct (submission_adds_one_vote noFaults "s9" Sample.eveTime (Some "pub1")
              Sample.eveState Sample.store
              (set_answers
                 (set_submissions Sample.store
                    (Db.submissions Sample.store ++
                       [{| s_id := "s9"; s_test_version_id := "v1";
                           s_participant := "Eve"; s_created_at := Sample.eveTime |}]))
                 (Db.answers Sample.store ++
                    [Sample.choice "s9" "q1" "o1"; Sample.words "s9" "q2" "because"]))
              "/t/pub1/done" {[ "q1" := "o1"; "q2" := "because" ]}
              [PublicTestPage.InsertSubmission; PublicTestPage.InsertAnswers]
              "quiz-k3x9ab" Sample.quiz Sample.v1)
    as (before & after & c & c' & Hbefore & Hafter & Htotal & Hcharts);
    try reflexivity; try discriminate;
    try (apply (bool_decide_unpack _); vm_compute; exact I).
  exists before, after, c, c'. split; [exact Hbefore|]. split; [exact Hafter|].
  rewrite Htotal, Hcharts. clear Hafter Htotal Hcharts.
  vm_compute in Hbefore. injection Hbefore as <- <-.
  split; [reflexivity|]. split; vm_compute; reflexivity.
Defined.

End VoteInCharts.

(** ** The date filter in every zone *)

Section DateFilter.
Import TestStatsPage.

(** West of UTC the filter is the local-day range of the days before the
    two inputs. *)
Lemma passesFilters_west (tz : Z) (dateFrom dateTo : option Z) (sub : SubmissionRow) :
  -1440 < tz < 0 ->
  passesFilters tz dateFrom dateTo EmptyString sub = true <->
  inDateRange tz (Z.pred <$> dateFrom) (Z.pred <$> dateTo) (time (s_created_at sub)).
Proof.
  intros Htz. unfold passesFilters, inDateRange. simpl.
  rewrite andb_true_r, andb_true_iff. split.
  - intros [H1 H2]. split; intros d Hd.
    + destruct dateFrom as [d0|]; [|done]. injection Hd as <-.
      rewrite setHours_west in H1 by done.
      apply negb_true_iff, bool_decide_eq_false in H1.
      replace (Z.pred d0) with (d0 - 1) by lia. lia.
    + destruct dateTo as [d0|]; [|done]. injection Hd as <-.
      rewrite setHours_west in H2 by done.
      apply negb_true_iff, bool_decide_eq_false in H2.
      replace (Z.pred d0) with (d0 - 1) by lia.
      unfold localDayEnd, msPerDay. lia.
  - intros [H1 H2]. split.
    + destruct dateFrom as [d|]; [|done]. rewrite setHours_west by done.
      apply negb_true_iff, bool_decide_eq_false. specialize (H1 _ eq_refl).
      replace (Z.pred d) with (d - 1) in H1 by lia. lia.
    + destruct dateTo as [d|]; [|done]. rewrite setHours_west by done.
      apply negb_true_iff, bool_decide_eq_false. specialize (H2 _ eq_refl).
      replace (Z.pred d) with (d - 1) in H2 by lia.
      unfold localDayEnd, msPerDay in H2. lia.
Qed.




End DateFilter.
